(** * Nuitka GUI packer: command construction, configuration records and the
      packaging worker

    A shallow embedding of [main.py].  The widgets that hold form state are
    modelled by the values they hold; Qt signals and pop-ups by the list of
    effects a method produces; Python exceptions by an explicit result type.

    Python [str] values are sequences of Unicode code points, so that
    [str.strip] and [str.split] can use Python's own notion of white space. *)

From Stdlib Require Import Strings.String Strings.Ascii Numbers.DecimalString.
From Stdlib Require Import List Bool Arith NArith ZArith Lia.
Import ListNotations.

Set Implicit Arguments.
Set Warnings "-register-all".

(* ================================================================== *)
(** * Python strings *)
(* ================================================================== *)

Module Py.

(** A character is a Unicode code point. *)
Definition char := N.
Definition str := list char.

(** Source literals are written in UTF-8; [u] decodes such a literal into
    its code points. *)
Fixpoint utf8_decode (bs : list N) : str :=
  match bs with
  | [] => []
  | b0 :: r0 =>
      if (b0 <? 128)%N then b0 :: utf8_decode r0
      else if (b0 <? 224)%N then
        match r0 with
        | b1 :: r1 => ((b0 - 192) * 64 + (b1 - 128))%N :: utf8_decode r1
        | _ => []
        end
      else if (b0 <? 240)%N then
        match r0 with
        | b1 :: b2 :: r2 =>
            ((b0 - 224) * 4096 + (b1 - 128) * 64 + (b2 - 128))%N
              :: utf8_decode r2
        | _ => []
        end
      else
        match r0 with
        | b1 :: b2 :: b3 :: r3 =>
            ((b0 - 240) * 262144 + (b1 - 128) * 4096
             + (b2 - 128) * 64 + (b3 - 128))%N :: utf8_decode r3
        | _ => []
        end
  end.

Definition u (s : string) : str :=
  utf8_decode (map N_of_ascii (list_ascii_of_string s)).
Arguments u s%_string.

(** A character literal. *)
Definition ch (a : ascii) : char := N_of_ascii a.
Arguments ch a%_char.

(** [a == b] on strings. *)
Fixpoint str_eqb (a b : str) : bool :=
  match a, b with
  | [], [] => true
  | x :: a', y :: b' => (x =? y)%N && str_eqb a' b'
  | _, _ => false
  end.

(** Truth value of a [str]: the empty string is false. *)
Definition truthy (s : str) : bool :=
  match s with [] => false | _ :: _ => true end.

(** [a or b] on strings. *)
Definition or_else (a b : str) : str := if truthy a then a else b.

(** White space as [str.strip()] and [str.split()] see it
    ([Py_UNICODE_ISSPACE]). *)
Definition isspace (c : char) : bool :=
  ((9 <=? c) && (c <=? 13) || (28 <=? c) && (c <=? 32)
   || (c =? 133) || (c =? 160) || (c =? 5760)
   || (8192 <=? c) && (c <=? 8202)
   || (c =? 8232) || (c =? 8233) || (c =? 8239) || (c =? 8287)
   || (c =? 12288))%N.

Fixpoint lstrip (s : str) : str :=
  match s with
  | [] => []
  | c :: r => if isspace c then lstrip r else s
  end.

Definition rstrip (s : str) : str := rev (lstrip (rev s)).

(** [s.strip()] *)
Definition strip (s : str) : str := rstrip (lstrip s).

(** [s.split(sep)] for a separator of one character. *)
Fixpoint split (sep : char) (s : str) : list str :=
  match s with
  | [] => [[]]
  | c :: r =>
      if (c =? sep)%N then [] :: split sep r
      else match split sep r with
           | h :: t => (c :: h) :: t
           | [] => [[c]]
           end
  end.

(** [s.split()]: the maximal runs of characters that are not white space. *)
Fixpoint split_ws_from (cur : str) (s : str) : list str :=
  match s with
  | [] => if truthy cur then [cur] else []
  | c :: r =>
      if isspace c
      then (if truthy cur then [cur] else []) ++ split_ws_from [] r
      else split_ws_from (cur ++ [c]) r
  end.

Definition split_ws (s : str) : list str := split_ws_from [] s.

(** [sep.join(parts)] *)
Fixpoint join (sep : str) (parts : list str) : str :=
  match parts with
  | [] => []
  | p :: rest =>
      match rest with
      | [] => p
      | _ :: _ => p ++ sep ++ join sep rest
      end
  end.

Fixpoint startswith (s pre : str) {struct pre} : bool :=
  match pre, s with
  | [], _ => true
  | _ :: _, [] => false
  | a :: pre', b :: s' => (a =? b)%N && startswith s' pre'
  end.

(** [sub in s] *)
Fixpoint contains (sub s : str) : bool :=
  startswith s sub ||
  match s with
  | [] => false
  | _ :: r => contains sub r
  end.

(** [sub] can occur in no text that starts with [pre] unless it occurs in
    what follows [pre]: at no position of [pre] does one of [sub] and the
    rest of [pre] start the other. *)
Fixpoint clean (sub pre : str) : bool :=
  match pre with
  | [] => true
  | _ :: rest =>
      negb (startswith pre sub || startswith sub pre) && clean sub rest
  end.

(** [s.replace(old, new)] for [old] of one character. *)
Definition replace (old : char) (new : str) (s : str) : str :=
  flat_map (fun c => if (c =? old)%N then new else [c]) s.

(** [str(n)] for an [int]. *)
Definition str_int (n : Z) : str :=
  map N_of_ascii (list_ascii_of_string (NilZero.string_of_int (Z.to_int n))).

(** [l[-1]]; [None] stands for [IndexError]. *)
Definition last_item {A} (l : list A) : option A :=
  match rev l with
  | [] => None
  | x :: _ => Some x
  end.

(** No two items of the list are equal. *)
Fixpoint distinct (l : list str) : bool :=
  match l with
  | [] => true
  | x :: rest => negb (existsb (str_eqb x) rest) && distinct rest
  end.

End Py.

Import Py.

(* ================================================================== *)
(** * Python values that make up a configuration record *)
(* ================================================================== *)

Module Json.

(** The values [getConfig] builds and [json.dump] writes: booleans,
    strings, lists, and dicts, a dict being the list of its items in
    insertion order.  The numbers and the null of JSON, which [getConfig]
    never builds, are not part of the model. *)
Inductive pyval : Type :=
| VBool (b : bool)
| VStr (s : str)
| VList (l : list pyval)
| VDict (items : list (str * pyval)).

Fixpoint lookup (items : list (str * pyval)) (key : str) : option pyval :=
  match items with
  | [] => None
  | (k, v) :: rest => if str_eqb k key then Some v else lookup rest key
  end.

(** [d.get(key, default)]; [None] when [d] has no method [get]. *)
Definition get (d : pyval) (key : str) (default : pyval) : option pyval :=
  match d with
  | VDict items =>
      Some (match lookup items key with Some v => v | None => default end)
  | _ => None
  end.

(** Truth value of a Python value. *)
Definition truthy_val (v : pyval) : bool :=
  match v with
  | VBool b => b
  | VStr s => truthy s
  | VList l => match l with [] => false | _ => true end
  | VDict d => match d with [] => false | _ => true end
  end.

(** Arguments of Qt setters: [setText] takes a [str], [setChecked] a
    [bool]; anything else raises [TypeError] ([None]). *)
Definition as_str (v : pyval) : option str :=
  match v with VStr s => Some s | _ => None end.

Definition as_bool (v : pyval) : option bool :=
  match v with VBool b => Some b | _ => None end.

(** A value is scalar when it holds no other value. *)
Definition scalar (v : pyval) : bool :=
  match v with VBool _ | VStr _ => true | VList _ | VDict _ => false end.

(** A flat record: a dict all of whose values are scalars. *)
Definition flat (v : pyval) : bool :=
  match v with
  | VDict items => forallb (fun kv => scalar (snd kv)) items
  | _ => false
  end.

(** A value of a sectioned record: a scalar, a flat record, or a list of
    flat records. *)
Definition section_ok (v : pyval) : bool :=
  match v with
  | VBool _ | VStr _ => true
  | VDict _ => flat v
  | VList l => forallb flat l
  end.

(** A record of sections. *)
Definition sectioned (v : pyval) : bool :=
  match v with
  | VDict items => forallb (fun kv => section_ok (snd kv)) items
  | _ => false
  end.

(** Nesting depth of containers: 0 for a scalar. *)
Fixpoint depth (v : pyval) : nat :=
  match v with
  | VBool _ | VStr _ => 0
  | VList l => S (fold_right (fun x acc => Nat.max (depth x) acc) 0 l)
  | VDict d =>
      S (fold_right (fun kv acc => Nat.max (depth (snd kv)) acc) 0 d)
  end.

End Json.

Import Json.

(** Sequencing of calls that may raise. *)
Notation "x <- c ;; k" :=
  (match c with Some x => k | None => None end)
  (at level 61, c at next level, right associativity).

(* ================================================================== *)
(** * class PackageThread *)
(* ================================================================== *)

Module PackageThread.

(** Handle of a child process started by [subprocess.Popen]. *)
Definition Popen := nat.

Record t : Type := mk {
  command : str;
  env : list (str * str);
  cwd : option str;
  process : option Popen
}.

(** [__init__]: no child process yet. *)
Definition init (command : str) (env : list (str * str)) (cwd : option str)
  : t :=
  {| command := command; env := env; cwd := cwd; process := None |}.

(** The three Qt signals of the thread. *)
Inductive signal : Type :=
| output_signal (text : str)
| progress_signal (percent : Z)
| finished_signal (success : bool) (message : str).

(** Calls made on the child process. *)
Inductive os_call : Type :=
| terminate (p : Popen).

(** What the operating system answers to [run]: [Popen] raises; or the
    child is started and [readline] yields [lines] and then raises; or the
    child is started, [readline] yields [lines], and the child exits with a
    return code. *)
Inductive child : Type :=
| popen_raises (e : str)
| read_raises (p : Popen) (lines : list str) (e : str)
| exits (p : Popen) (lines : list str) (returncode : Z).

(** A Python [int] passed through a signal argument of C type [int]: the
    value modulo [2^32], read as a signed 32-bit integer. *)
Definition c_int (n : Z) : Z :=
  ((n + 2147483648) mod 4294967296 - 2147483648)%Z.

(** [iter(readline, '')] stops at the first empty string. *)
Fixpoint iter_readline (lines : list str) : list str :=
  match lines with
  | [] => []
  | l :: rest => if truthy l then l :: iter_readline rest else []
  end.

Section Run.

(** Python's built-in [int] on a [str]; [None] stands for [ValueError]. *)
Variable py_int : str -> option Z.

(** [int(line.split("%")[0].split()[-1])]; [None] when any step raises. *)
Definition parse_percent (line : str) : option Z :=
  match split (ch "%") line with
  | [] => None
  | before :: _ =>
      match last_item (split_ws before) with
      | None => None
      | Some token => py_int token
      end
  end.

(** The signals one line of output gives rise to (body of the [for]).
    [progress_signal] is declared [pyqtSignal(int)]: it carries a C [int],
    so the value emitted is [percent] as [c_int] reduces it. *)
Definition on_line (line : str) : list signal :=
  if truthy line then
    output_signal line ::
    (if contains (u "%") line then
       match parse_percent line with
       | Some percent => [progress_signal (c_int percent)]
       | None => []
       end
     else [])
  else [].

(** The signals emitted before the child is started. *)
Definition banner (self : t) : list signal :=
  [output_signal (u "执行命令：" ++ [ch "010"] ++ command self ++ [ch "010"])]
  ++ match cwd self with
     | Some d =>
         if truthy d
         then [output_signal (u "工作目录：" ++ d ++ [ch "010"])]
         else []
     | None => []
     end
  ++ [output_signal (repeat (ch "-") 50 ++ [ch "010"])].

(** [run]: the thread after the call and the signals in emission order. *)
Definition run (self : t) (c : child) : t * list signal :=
  match c with
  | popen_raises e =>
      (self,
       banner self ++ [finished_signal false (u "打包出错：" ++ e)])
  | read_raises p lines e =>
      ({| command := command self; env := env self; cwd := cwd self;
          process := Some p |},
       banner self ++ flat_map on_line (iter_readline lines)
       ++ [finished_signal false (u "打包出错：" ++ e)])
  | exits p lines returncode =>
      ({| command := command self; env := env self; cwd := cwd self;
          process := Some p |},
       banner self ++ flat_map on_line (iter_readline lines)
       ++ [if (returncode =? 0)%Z
           then finished_signal true (u "打包成功完成！")
           else finished_signal false
                  (u "打包失败，返回代码：" ++ str_int returncode)])
  end.

End Run.

(** [stop]: the thread after the call and the calls made on the child. *)
Definition stop (self : t) : t * list os_call :=
  match process self with
  | Some p => (self, [terminate p])
  | None => (self, [])
  end.



(** The texts of the [output_signal]s among some signals, in order. *)
Definition output_texts (sigs : list signal) : list str :=
  flat_map (fun s => match s with output_signal t => [t] | _ => [] end) sigs.


(** Whether a signal is [finished_signal]. *)
Definition is_finished (s : signal) : bool :=
  match s with finished_signal _ _ => true | _ => false end.

End PackageThread.

(* ================================================================== *)
(** * class AssetsInterface: the asset table *)
(* ================================================================== *)

Module AssetsInterface.

(** A row of [assetsTable]: the check box in column 0 ([None] when the cell
    has no widget) and the texts of the items in columns 1 to 3.  Rows are
    only created by [addAsset] and [setAssets], which fill columns 1 to 3,
    so those items are always present. *)
Record row : Type := mkRow {
  cellWidget0 : option bool;
  source : str;
  target : str;
  type_text : str
}.

Definition table := list row.

(** The dict [getAssets] makes of a row; its four keys are fixed. *)
Record asset : Type := mkAsset {
  enabled : bool;
  a_source : str;
  a_target : str;
  a_type : str
}.

Definition asset_dict (a : asset) : pyval :=
  VDict [ (u "enabled", VBool (enabled a));
          (u "source", VStr (a_source a));
          (u "target", VStr (a_target a));
          (u "type", VStr (a_type a)) ].

Definition clearAll (t : table) : table := [].

Definition getAssets (t : table) : list asset :=
  map (fun r =>
         {| enabled := match cellWidget0 r with
                       | Some checked => checked
                       | None => true
                       end;
            a_source := source r;
            a_target := target r;
            a_type := if str_eqb (type_text r) (u "文件")
                      then u "file" else u "folder" |}) t.

(** What the file system holds at a path that is handed to
    [addAssetRecursive]: something that is not a directory, or a directory
    with the names [os.listdir] gives and what each holds ([None] when
    [os.listdir] raises). *)
Inductive fs_node : Type :=
| fs_file
| fs_dir (listing : option (list (str * fs_node))).

(** The dict [getSelectedAssets] makes of a checked row; its type is the
    text of the type cell. *)
Record selected_asset : Type := mkSelected {
  s_source : str;
  s_target : str;
  s_type : str
}.

Definition getSelectedAssets (t : table) : list selected_asset :=
  flat_map (fun r =>
              match cellWidget0 r with
              | Some true =>
                  [ {| s_source := source r;
                       s_target := target r;
                       s_type := type_text r |} ]
              | _ => []
              end) t.

(** The command-line part that stands for a selected asset: a file row
    gives [--include-data-files], any other row [--include-data-dir]. *)
Definition asset_part (a : selected_asset) : str :=
  (if str_eqb (s_type a) (u "文件")
   then u "--include-data-files=" else u "--include-data-dir=")
  ++ s_source a ++ u "=" ++ s_target a.

Section Filesystem.

(** [os.path.basename] and [os.path.isfile]. *)
Variable basename : str -> str.
Variable isfile : str -> bool.

Definition addAsset (t : table) (path : str) (target_path : option str)
  : table :=
  if negb (truthy path) then t
  else if existsb (fun r => str_eqb (source r) path) t then t
  else
    t ++ [ {| cellWidget0 := Some true;
              source := path;
              target := match target_path with
                        | None => basename path
                        | Some p => p
                        end;
              type_text := if isfile path then u "文件" else u "文件夹" |} ].

(** The text of the item [QTableWidgetItem(v)] makes: a string is the
    text; a bool selects the constructor that takes an item type and gives
    an item without text; a list or a dict raises [TypeError]. *)
Definition item_text (v : pyval) : option str :=
  match v with
  | VStr s => Some s
  | VBool _ => Some []
  | VList _ | VDict _ => None
  end.

(** One turn of the loop of [setAssets]: [Some None] for [continue],
    [None] when a call raises.  A source that is no string raises in
    [os.path.basename]. *)
Definition setAssets_row (a : pyval) : option (option row) :=
  match a with
  | VDict items =>
      match lookup items (u "source") with
      | None => Some None
      | Some src =>
          if negb (truthy_val src) then Some None
          else
            checked <- as_bool (match lookup items (u "enabled") with
                                | Some v => v
                                | None => VBool true
                                end) ;;
            source <- as_str src ;;
            target <- item_text (match lookup items (u "target") with
                                 | Some v => v
                                 | None => VStr (basename source)
                                 end) ;;
            let asset_type := match lookup items (u "type") with
                              | Some v => v
                              | None => VStr (u "file")
                              end in
            Some (Some {| cellWidget0 := Some checked;
                          source := source;
                          target := target;
                          type_text :=
                            match asset_type with
                            | VStr s => if str_eqb s (u "file")
                                        then u "文件" else u "文件夹"
                            | _ => u "文件夹"
                            end |})
      end
  | _ => None
  end.

Fixpoint setAssets_loop (assets : list pyval) (t : table) : option table :=
  match assets with
  | [] => Some t
  | a :: rest =>
      r <- setAssets_row a ;;
      setAssets_loop rest (match r with Some x => t ++ [x] | None => t end)
  end.

(** [setAssets]; [None] when it raises (the table is then left partly
    filled, which is not modelled). *)
Definition setAssets (t : table) (assets : list pyval) : option table :=
  setAssets_loop assets (clearAll t).

(** [assetsTable.removeRow(n)] *)
Definition removeRow (n : nat) (t : table) : table :=
  firstn n t ++ skipn (S n) t.

(** [sorted(rows, reverse=True)] on row numbers: insertion into a list
    kept in descending order. *)
Fixpoint insert_desc (n : nat) (l : list nat) : list nat :=
  match l with
  | [] => [n]
  | m :: rest => if m <? n then n :: l else m :: insert_desc n rest
  end.

Definition sorted_reverse (l : list nat) : list nat :=
  fold_right insert_desc [] l.

(** The loop that collects [selected_rows]: each row number once, in the
    order of first appearance. *)
Definition collect_rows (item_rows : list nat) : list nat :=
  fold_left (fun selected_rows r =>
               if existsb (Nat.eqb r) selected_rows then selected_rows
               else selected_rows ++ [r])
            item_rows [].

(** [removeSelected], given the row of every selected item. *)
Definition removeSelected (item_rows : list nat) (t : table) : table :=
  fold_left (fun t row => removeRow row t)
            (sorted_reverse (collect_rows item_rows)) t.

(** Row numbers in strictly descending order. *)
Fixpoint descending (l : list nat) : Prop :=
  match l with
  | [] => True
  | d :: rest => (forall x, In x rest -> x < d) /\ descending rest
  end.

(** The rows of [t] whose number, counted from [i], is not in [rows]. *)
Fixpoint rows_except (rows : list nat) (i : nat) (t : table) : table :=
  match t with
  | [] => []
  | r :: rest =>
      if existsb (Nat.eqb i) rows then rows_except rows (S i) rest
      else r :: rows_except rows (S i) rest
  end.

(** The user edits the target cell of row [n], or clicks its check box;
    the source and type cells are not editable. *)
Definition editTarget (n : nat) (text : str) (t : table) : table :=
  match nth_error t n with
  | Some r =>
      firstn n t
      ++ {| cellWidget0 := cellWidget0 r; source := source r;
            target := text; type_text := type_text r |}
      :: skipn (S n) t
  | None => t
  end.

Definition toggleCheck (n : nat) (t : table) : table :=
  match nth_error t n with
  | Some r =>
      firstn n t
      ++ {| cellWidget0 := option_map negb (cellWidget0 r);
            source := source r; target := target r;
            type_text := type_text r |}
      :: skipn (S n) t
  | None => t
  end.

(** The tables the page can hold: it starts empty and changes by the
    operations above. *)
Inductive reachable : table -> Prop :=
| reach_empty : reachable []
| reach_addAsset t path target_path :
    reachable t -> reachable (addAsset t path target_path)
| reach_setAssets t assets t' :
    setAssets t assets = Some t' -> reachable t'
| reach_removeRow t n : reachable t -> reachable (removeRow n t)
| reach_clearAll t : reachable t -> reachable (clearAll t)
| reach_editTarget t n text : reachable t -> reachable (editTarget n text t)
| reach_toggleCheck t n : reachable t -> reachable (toggleCheck n t).

(** What every row of such a table satisfies. *)
Definition row_ok (r : row) : Prop :=
  cellWidget0 r <> None
  /\ source r <> []
  /\ (type_text r = u "文件" \/ type_text r = u "文件夹").

(** What every way of adding keeps: the rows that were there stay in
    front, source paths that were distinct stay distinct, and a reachable
    table stays reachable. *)
Definition grows (t t' : table) : Prop :=
  (exists added, t' = t ++ added)
  /\ (NoDup (map source t) -> NoDup (map source t'))
  /\ (reachable t -> reachable t').

(** [os.path.join] *)
Variable path_join : str -> str -> str.

(** [addAssetRecursive(path, relative_path)], [node] being what the file
    system holds at [path]. *)
Fixpoint addAssetRecursive (node : fs_node) (path relative_path : str)
  (t : table) {struct node} : table :=
  if negb (truthy path) then t
  else
    match node with
    | fs_dir listing =>
        let t1 :=
          addAsset t path
            (Some (if truthy relative_path then relative_path
                   else basename path)) in
        match listing with
        | None => t1
        | Some entries =>
            (fix loop (entries : list (str * fs_node)) (t : table) : table :=
               match entries with
               | [] => t
               | (item, child) :: rest =>
                   let item_path := path_join path item in
                   let new_relative_path :=
                     if truthy relative_path
                     then path_join relative_path item else item in
                   loop rest
                     (addAssetRecursive child item_path new_relative_path t)
               end) entries t1
        end
    | fs_file =>
        addAsset t path
          (Some (if truthy relative_path then relative_path
                 else basename path))
    end.

(** [addFile], given the files the dialog returned. *)
Definition addFile (files : list str) (t : table) : table :=
  fold_left (fun t file_path => addAsset t file_path None) files t.

(** [addFolder], given the folder the dialog returned (empty when
    cancelled) and what it holds. *)
Definition addFolder (folder : str) (node : fs_node) (t : table) : table :=
  if truthy folder then addAssetRecursive node folder [] t else t.

(** [dropEvent], given the dropped paths, each with what the file system
    holds there ([None] when the path does not exist). *)
Definition dropEvent (files : list (str * option fs_node)) (t : table)
  : table :=
  fold_left
    (fun t file =>
       match snd file with
       | None => t
       | Some (fs_dir listing) =>
           addAssetRecursive (fs_dir listing) (fst file) [] t
       | Some fs_file => addAsset t (fst file) None
       end) files t.

(** A sequence of calls [addAsset(path, target_path)]. *)
Definition addAsset_calls (calls : list (str * option str)) (t : table)
  : table :=
  fold_left (fun t c => addAsset t (fst c) (snd c)) calls t.

End Filesystem.

End AssetsInterface.

(* ================================================================== *)
(** * class MainInterface: the form and what is built from it *)
(* ================================================================== *)

Module MainInterface.

Import AssetsInterface.

(** The items of [compilerCombo], in the order of [addItems]. *)
Inductive compiler : Type :=
| AutoDetect | MSVC | MinGW64 | Clang | LocalGCC.

Definition compiler_items : list compiler :=
  [AutoDetect; MSVC; MinGW64; Clang; LocalGCC].

Definition currentText (c : compiler) : str :=
  match c with
  | AutoDetect => u "自动检测"
  | MSVC => u "MSVC"
  | MinGW64 => u "MinGW64"
  | Clang => u "Clang"
  | LocalGCC => u "本地GCC"
  end.

(** [setCurrentText]: selects the item with that text when there is one. *)
Definition setCurrentText (c : compiler) (text : str) : compiler :=
  match find (fun i => str_eqb (currentText i) text) compiler_items with
  | Some i => i
  | None => c
  end.

(** The check boxes of [pluginsInterface.plugins], a dict with eight fixed
    keys. *)
Record pluginChecks : Type := mkPlugins {
  pyqt5 : bool;
  pyside2 : bool;
  pyside6 : bool;
  numpy : bool;
  torch : bool;
  tensorflow : bool;
  matplotlib : bool;
  tk_inter : bool
}.

(** [plugins.items()] with [isChecked()] of each check box, in insertion
    order. *)
Definition plugins_items (p : pluginChecks) : list (str * bool) :=
  [ (u "pyqt5", pyqt5 p); (u "pyside2", pyside2 p);
    (u "pyside6", pyside6 p); (u "numpy", numpy p);
    (u "torch", torch p); (u "tensorflow", tensorflow p);
    (u "matplotlib", matplotlib p); (u "tk-inter", tk_inter p) ].

(** The form state: the value of every widget the methods below read or
    set, under the widget's name.  The two radio buttons share a parent and
    are exclusive, so [standaloneRadio] alone tells which one is checked. *)
Record FormState : Type := mkForm {
  pythonEdit : str;
  fileEdit : str;
  standaloneRadio : bool;
  outputDirEdit : str;
  nameEdit : str;
  iconEdit : str;
  compilerCombo : compiler;
  gccPathEdit : str;
  autoDownloadSwitch : bool;
  consoleSwitch : bool;
  progressSwitch : bool;
  memorySwitch : bool;
  removeSwitch : bool;
  ccacheSwitch : bool;
  lowMemorySwitch : bool;
  ltoSwitch : bool;
  plugins : pluginChecks;
  customEdit : str;
  followImportsSwitch : bool;
  includeEdit : str;
  excludeEdit : str;
  dataEdit : str;
  assetsTable : table;
  companyEdit : str;
  productEdit : str;
  versionEdit : str;
  descEdit : str;
  uacSwitch : bool;
  extraEdit : str
}.

(** What a method does besides returning: pop-ups, calls on the main
    window, and files written. *)
Inductive effect : Type :=
| InfoBar_error (title content : str)
| InfoBar_success (title content : str)
| switchTo_logInterface
| logInterface_startPackage
    (command : str) (env : list (str * str)) (cwd : option str)
| write_file (file content : str).

(** [[part] if cond else []] *)
Definition when (cond : bool) (part : str) : list str :=
  if cond then [part] else [].

(** The stripped non-blank lines of a multi-line text:
    [[l.strip() for l in text.split('\n') if l.strip()]]. *)
Definition stripped_lines (text : str) : list str :=
  map strip (filter (fun l => truthy (strip l)) (split (ch "010") text)).

(** The parts [buildCommand] collects in [cmd_parts], once the Python file
    is known to be given. *)
Definition cmd_parts (self : FormState) : list str :=
  let python_path := or_else (pythonEdit self) (u "python") in
  [python_path; u "-m"; u "nuitka"]
  ++ (if standaloneRadio self then [u "--standalone"] else [u "--onefile"])
  ++ when (autoDownloadSwitch self) (u "--assume-yes-for-downloads")
  ++ (let compiler := currentText (compilerCombo self) in
      if str_eqb compiler (u "MinGW64") then [u "--mingw64"]
      else if str_eqb compiler (u "Clang") then [u "--clang"]
      else if str_eqb compiler (u "MSVC") then [u "--msvc=latest"]
      else [])
  ++ when (negb (consoleSwitch self)) (u "--windows-disable-console")
  ++ when (progressSwitch self) (u "--show-progress")
  ++ when (memorySwitch self) (u "--show-memory")
  ++ when (removeSwitch self) (u "--remove-output")
  ++ when (lowMemorySwitch self) (u "--low-memory")
  ++ when (ltoSwitch self) (u "--lto=yes")
  ++ when (truthy (outputDirEdit self))
       (u "--output-dir=" ++ outputDirEdit self)
  ++ when (truthy (nameEdit self))
       (u "--output-filename=" ++ nameEdit self)
  ++ when (truthy (iconEdit self))
       (u "--windows-icon-from-ico=" ++ iconEdit self)
  ++ (let enabled_plugins :=
        map fst (filter snd (plugins_items (plugins self))) in
      match enabled_plugins with
      | [] => []
      | _ :: _ => [u "--enable-plugin=" ++ join (u ",") enabled_plugins]
      end)
  ++ (let custom_text := strip (customEdit self) in
      if truthy custom_text then
        match stripped_lines custom_text with
        | [] => []
        | custom_plugins =>
            [u "--enable-plugin=" ++ join (u ",") custom_plugins]
        end
      else [])
  ++ (if followImportsSwitch self then
        if truthy (includeEdit self) then
          [u "--follow-import-to=" ++ replace (ch " ") [] (includeEdit self)]
        else [u "--follow-imports"]
      else [u "--nofollow-imports"])
  ++ (if truthy (excludeEdit self) then
        map (fun exclude => u "--nofollow-import-to=" ++ strip exclude)
            (split (ch ",") (excludeEdit self))
      else [])
  ++ (let data_text := strip (dataEdit self) in
      if truthy data_text then
        map (fun data_line =>
               if contains (u "=") data_line
               then u "--include-data-files=" ++ data_line
               else u "--include-data-dir=" ++ data_line)
            (stripped_lines data_text)
      else [])
  ++ flat_map
       (fun a =>
          if enabled a then
            if str_eqb (a_type a) (u "file") then
              [u "--include-data-files=" ++ a_source a ++ u "=" ++ a_target a]
            else if str_eqb (a_type a) (u "folder") then
              [u "--include-data-dir=" ++ a_source a ++ u "=" ++ a_target a]
            else []
          else [])
       (getAssets (assetsTable self))
  ++ when (truthy (companyEdit self))
       (u "--windows-company-name=" ++ companyEdit self)
  ++ when (truthy (productEdit self))
       (u "--windows-product-name=" ++ productEdit self)
  ++ when (truthy (versionEdit self))
       (u "--windows-file-version=" ++ versionEdit self)
  ++ when (truthy (descEdit self))
       (u "--windows-file-description=" ++ descEdit self)
  ++ when (uacSwitch self) (u "--windows-uac-admin")
  ++ (let extra_text := strip (extraEdit self) in
      if truthy extra_text then stripped_lines extra_text else [])
  ++ [fileEdit self].

(** [buildCommand]: the returned value ([None] for Python's [None]) and the
    pop-ups shown. *)
Definition buildCommand (self : FormState) : option str * list effect :=
  if negb (truthy (fileEdit self)) then
    (None, [InfoBar_error (u "错误") (u "请选择要打包的Python文件！")])
  else
    (Some (join (u " ") (cmd_parts self)), []).

(** Setting one widget and leaving the others: [setText], [setChecked],
    or the user typing or clicking. *)

Definition set_pythonEdit (v : str) (self : FormState) : FormState :=
  {| pythonEdit := v; fileEdit := fileEdit self;
     standaloneRadio := standaloneRadio self;
     outputDirEdit := outputDirEdit self; nameEdit := nameEdit self;
     iconEdit := iconEdit self; compilerCombo := compilerCombo self;
     gccPathEdit := gccPathEdit self;
     autoDownloadSwitch := autoDownloadSwitch self;
     consoleSwitch := consoleSwitch self;
     progressSwitch := progressSwitch self;
     memorySwitch := memorySwitch self; removeSwitch := removeSwitch self;
     ccacheSwitch := ccacheSwitch self;
     lowMemorySwitch := lowMemorySwitch self; ltoSwitch := ltoSwitch self;
     plugins := plugins self; customEdit := customEdit self;
     followImportsSwitch := followImportsSwitch self;
     includeEdit := includeEdit self; excludeEdit := excludeEdit self;
     dataEdit := dataEdit self; assetsTable := assetsTable self;
     companyEdit := companyEdit self; productEdit := productEdit self;
     versionEdit := versionEdit self; descEdit := descEdit self;
     uacSwitch := uacSwitch self; extraEdit := extraEdit self |}.

Definition set_fileEdit (v : str) (self : FormState) : FormState :=
  {| pythonEdit := pythonEdit self; fileEdit := v;
     standaloneRadio := standaloneRadio self;
     outputDirEdit := outputDirEdit self; nameEdit := nameEdit self;
     iconEdit := iconEdit self; compilerCombo := compilerCombo self;
     gccPathEdit := gccPathEdit self;
     autoDownloadSwitch := autoDownloadSwitch self;
     consoleSwitch := consoleSwitch self;
     progressSwitch := progressSwitch self;
     memorySwitch := memorySwitch self; removeSwitch := removeSwitch self;
     ccacheSwitch := ccacheSwitch self;
     lowMemorySwitch := lowMemorySwitch self; ltoSwitch := ltoSwitch self;
     plugins := plugins self; customEdit := customEdit self;
     followImportsSwitch := followImportsSwitch self;
     includeEdit := includeEdit self; excludeEdit := excludeEdit self;
     dataEdit := dataEdit self; assetsTable := assetsTable self;
     companyEdit := companyEdit self; productEdit := productEdit self;
     versionEdit := versionEdit self; descEdit := descEdit self;
     uacSwitch := uacSwitch self; extraEdit := extraEdit self |}.

Definition set_includeEdit (v : str) (self : FormState) : FormState :=
  {| pythonEdit := pythonEdit self; fileEdit := fileEdit self;
     standaloneRadio := standaloneRadio self;
     outputDirEdit := outputDirEdit self; nameEdit := nameEdit self;
     iconEdit := iconEdit self; compilerCombo := compilerCombo self;
     gccPathEdit := gccPathEdit self;
     autoDownloadSwitch := autoDownloadSwitch self;
     consoleSwitch := consoleSwitch self;
     progressSwitch := progressSwitch self;
     memorySwitch := memorySwitch self; removeSwitch := removeSwitch self;
     ccacheSwitch := ccacheSwitch self;
     lowMemorySwitch := lowMemorySwitch self; ltoSwitch := ltoSwitch self;
     plugins := plugins self; customEdit := customEdit self;
     followImportsSwitch := followImportsSwitch self; includeEdit := v;
     excludeEdit := excludeEdit self; dataEdit := dataEdit self;
     assetsTable := assetsTable self; companyEdit := companyEdit self;
     productEdit := productEdit self; versionEdit := versionEdit self;
     descEdit := descEdit self; uacSwitch := uacSwitch self;
     extraEdit := extraEdit self |}.

Definition set_extraEdit (v : str) (self : FormState) : FormState :=
  {| pythonEdit := pythonEdit self; fileEdit := fileEdit self;
     standaloneRadio := standaloneRadio self;
     outputDirEdit := outputDirEdit self; nameEdit := nameEdit self;
     iconEdit := iconEdit self; compilerCombo := compilerCombo self;
     gccPathEdit := gccPathEdit self;
     autoDownloadSwitch := autoDownloadSwitch self;
     consoleSwitch := consoleSwitch self;
     progressSwitch := progressSwitch self;
     memorySwitch := memorySwitch self; removeSwitch := removeSwitch self;
     ccacheSwitch := ccacheSwitch self;
     lowMemorySwitch := lowMemorySwitch self; ltoSwitch := ltoSwitch self;
     plugins := plugins self; customEdit := customEdit self;
     followImportsSwitch := followImportsSwitch self;
     includeEdit := includeEdit self; excludeEdit := excludeEdit self;
     dataEdit := dataEdit self; assetsTable := assetsTable self;
     companyEdit := companyEdit self; productEdit := productEdit self;
     versionEdit := versionEdit self; descEdit := descEdit self;
     uacSwitch := uacSwitch self; extraEdit := v |}.

Definition set_assetsTable (v : table) (self : FormState) : FormState :=
  {| pythonEdit := pythonEdit self; fileEdit := fileEdit self;
     standaloneRadio := standaloneRadio self;
     outputDirEdit := outputDirEdit self; nameEdit := nameEdit self;
     iconEdit := iconEdit self; compilerCombo := compilerCombo self;
     gccPathEdit := gccPathEdit self;
     autoDownloadSwitch := autoDownloadSwitch self;
     consoleSwitch := consoleSwitch self;
     progressSwitch := progressSwitch self;
     memorySwitch := memorySwitch self; removeSwitch := removeSwitch self;
     ccacheSwitch := ccacheSwitch self;
     lowMemorySwitch := lowMemorySwitch self; ltoSwitch := ltoSwitch self;
     plugins := plugins self; customEdit := customEdit self;
     followImportsSwitch := followImportsSwitch self;
     includeEdit := includeEdit self; excludeEdit := excludeEdit self;
     dataEdit := dataEdit self; assetsTable := v;
     companyEdit := companyEdit self; productEdit := productEdit self;
     versionEdit := versionEdit self; descEdit := descEdit self;
     uacSwitch := uacSwitch self; extraEdit := extraEdit self |}.

Definition set_autoDownloadSwitch (v : bool) (self : FormState) : FormState :=
  {| pythonEdit := pythonEdit self; fileEdit := fileEdit self;
     standaloneRadio := standaloneRadio self;
     outputDirEdit := outputDirEdit self; nameEdit := nameEdit self;
     iconEdit := iconEdit self; compilerCombo := compilerCombo self;
     gccPathEdit := gccPathEdit self; autoDownloadSwitch := v;
     consoleSwitch := consoleSwitch self;
     progressSwitch := progressSwitch self;
     memorySwitch := memorySwitch self; removeSwitch := removeSwitch self;
     ccacheSwitch := ccacheSwitch self;
     lowMemorySwitch := lowMemorySwitch self; ltoSwitch := ltoSwitch self;
     plugins := plugins self; customEdit := customEdit self;
     followImportsSwitch := followImportsSwitch self;
     includeEdit := includeEdit self; excludeEdit := excludeEdit self;
     dataEdit := dataEdit self; assetsTable := assetsTable self;
     companyEdit := companyEdit self; productEdit := productEdit self;
     versionEdit := versionEdit self; descEdit := descEdit self;
     uacSwitch := uacSwitch self; extraEdit := extraEdit self |}.

Definition set_consoleSwitch (v : bool) (self : FormState) : FormState :=
  {| pythonEdit := pythonEdit self; fileEdit := fileEdit self;
     standaloneRadio := standaloneRadio self;
     outputDirEdit := outputDirEdit self; nameEdit := nameEdit self;
     iconEdit := iconEdit self; compilerCombo := compilerCombo self;
     gccPathEdit := gccPathEdit self;
     autoDownloadSwitch := autoDownloadSwitch self; consoleSwitch := v;
     progressSwitch := progressSwitch self;
     memorySwitch := memorySwitch self; removeSwitch := removeSwitch self;
     ccacheSwitch := ccacheSwitch self;
     lowMemorySwitch := lowMemorySwitch self; ltoSwitch := ltoSwitch self;
     plugins := plugins self; customEdit := customEdit self;
     followImportsSwitch := followImportsSwitch self;
     includeEdit := includeEdit self; excludeEdit := excludeEdit self;
     dataEdit := dataEdit self; assetsTable := assetsTable self;
     companyEdit := companyEdit self; productEdit := productEdit self;
     versionEdit := versionEdit self; descEdit := descEdit self;
     uacSwitch := uacSwitch self; extraEdit := extraEdit self |}.

Definition set_progressSwitch (v : bool) (self : FormState) : FormState :=
  {| pythonEdit := pythonEdit self; fileEdit := fileEdit self;
     standaloneRadio := standaloneRadio self;
     outputDirEdit := outputDirEdit self; nameEdit := nameEdit self;
     iconEdit := iconEdit self; compilerCombo := compilerCombo self;
     gccPathEdit := gccPathEdit self;
     autoDownloadSwitch := autoDownloadSwitch self;
     consoleSwitch := consoleSwitch self; progressSwitch := v;
     memorySwitch := memorySwitch self; removeSwitch := removeSwitch self;
     ccacheSwitch := ccacheSwitch self;
     lowMemorySwitch := lowMemorySwitch self; ltoSwitch := ltoSwitch self;
     plugins := plugins self; customEdit := customEdit self;
     followImportsSwitch := followImportsSwitch self;
     includeEdit := includeEdit self; excludeEdit := excludeEdit self;
     dataEdit := dataEdit self; assetsTable := assetsTable self;
     companyEdit := companyEdit self; productEdit := productEdit self;
     versionEdit := versionEdit self; descEdit := descEdit self;
     uacSwitch := uacSwitch self; extraEdit := extraEdit self |}.

Definition set_memorySwitch (v : bool) (self : FormState) : FormState :=
  {| pythonEdit := pythonEdit self; fileEdit := fileEdit self;
     standaloneRadio := standaloneRadio self;
     outputDirEdit := outputDirEdit self; nameEdit := nameEdit self;
     iconEdit := iconEdit self; compilerCombo := compilerCombo self;
     gccPathEdit := gccPathEdit self;
     autoDownloadSwitch := autoDownloadSwitch self;
     consoleSwitch := consoleSwitch self;
     progressSwitch := progressSwitch self; memorySwitch := v;
     removeSwitch := removeSwitch self; ccacheSwitch := ccacheSwitch self;
     lowMemorySwitch := lowMemorySwitch self; ltoSwitch := ltoSwitch self;
     plugins := plugins self; customEdit := customEdit self;
     followImportsSwitch := followImportsSwitch self;
     includeEdit := includeEdit self; excludeEdit := excludeEdit self;
     dataEdit := dataEdit self; assetsTable := assetsTable self;
     companyEdit := companyEdit self; productEdit := productEdit self;
     versionEdit := versionEdit self; descEdit := descEdit self;
     uacSwitch := uacSwitch self; extraEdit := extraEdit self |}.

Definition set_removeSwitch (v : bool) (self : FormState) : FormState :=
  {| pythonEdit := pythonEdit self; fileEdit := fileEdit self;
     standaloneRadio := standaloneRadio self;
     outputDirEdit := outputDirEdit self; nameEdit := nameEdit self;
     iconEdit := iconEdit self; compilerCombo := compilerCombo self;
     gccPathEdit := gccPathEdit self;
     autoDownloadSwitch := autoDownloadSwitch self;
     consoleSwitch := consoleSwitch self;
     progressSwitch := progressSwitch self;
     memorySwitch := memorySwitch self; removeSwitch := v;
     ccacheSwitch := ccacheSwitch self;
     lowMemorySwitch := lowMemorySwitch self; ltoSwitch := ltoSwitch self;
     plugins := plugins self; customEdit := customEdit self;
     followImportsSwitch := followImportsSwitch self;
     includeEdit := includeEdit self; excludeEdit := excludeEdit self;
     dataEdit := dataEdit self; assetsTable := assetsTable self;
     companyEdit := companyEdit self; productEdit := productEdit self;
     versionEdit := versionEdit self; descEdit := descEdit self;
     uacSwitch := uacSwitch self; extraEdit := extraEdit self |}.

Definition set_ccacheSwitch (v : bool) (self : FormState) : FormState :=
  {| pythonEdit := pythonEdit self; fileEdit := fileEdit self;
     standaloneRadio := standaloneRadio self;
     outputDirEdit := outputDirEdit self; nameEdit := nameEdit self;
     iconEdit := iconEdit self; compilerCombo := compilerCombo self;
     gccPathEdit := gccPathEdit self;
     autoDownloadSwitch := autoDownloadSwitch self;
     consoleSwitch := consoleSwitch self;
     progressSwitch := progressSwitch self;
     memorySwitch := memorySwitch self; removeSwitch := removeSwitch self;
     ccacheSwitch := v; lowMemorySwitch := lowMemorySwitch self;
     ltoSwitch := ltoSwitch self; plugins := plugins self;
     customEdit := customEdit self;
     followImportsSwitch := followImportsSwitch self;
     includeEdit := includeEdit self; excludeEdit := excludeEdit self;
     dataEdit := dataEdit self; assetsTable := assetsTable self;
     companyEdit := companyEdit self; productEdit := productEdit self;
     versionEdit := versionEdit self; descEdit := descEdit self;
     uacSwitch := uacSwitch self; extraEdit := extraEdit self |}.

Definition set_lowMemorySwitch (v : bool) (self : FormState) : FormState :=
  {| pythonEdit := pythonEdit self; fileEdit := fileEdit self;
     standaloneRadio := standaloneRadio self;
     outputDirEdit := outputDirEdit self; nameEdit := nameEdit self;
     iconEdit := iconEdit self; compilerCombo := compilerCombo self;
     gccPathEdit := gccPathEdit self;
     autoDownloadSwitch := autoDownloadSwitch self;
     consoleSwitch := consoleSwitch self;
     progressSwitch := progressSwitch self;
     memorySwitch := memorySwitch self; removeSwitch := removeSwitch self;
     ccacheSwitch := ccacheSwitch self; lowMemorySwitch := v;
     ltoSwitch := ltoSwitch self; plugins := plugins self;
     customEdit := customEdit self;
     followImportsSwitch := followImportsSwitch self;
     includeEdit := includeEdit self; excludeEdit := excludeEdit self;
     dataEdit := dataEdit self; assetsTable := assetsTable self;
     companyEdit := companyEdit self; productEdit := productEdit self;
     versionEdit := versionEdit self; descEdit := descEdit self;
     uacSwitch := uacSwitch self; extraEdit := extraEdit self |}.

Definition set_ltoSwitch (v : bool) (self : FormState) : FormState :=
  {| pythonEdit := pythonEdit self; fileEdit := fileEdit self;
     standaloneRadio := standaloneRadio self;
     outputDirEdit := outputDirEdit self; nameEdit := nameEdit self;
     iconEdit := iconEdit self; compilerCombo := compilerCombo self;
     gccPathEdit := gccPathEdit self;
     autoDownloadSwitch := autoDownloadSwitch self;
     consoleSwitch := consoleSwitch self;
     progressSwitch := progressSwitch self;
     memorySwitch := memorySwitch self; removeSwitch := removeSwitch self;
     ccacheSwitch := ccacheSwitch self;
     lowMemorySwitch := lowMemorySwitch self; ltoSwitch := v;
     plugins := plugins self; customEdit := customEdit self;
     followImportsSwitch := followImportsSwitch self;
     includeEdit := includeEdit self; excludeEdit := excludeEdit self;
     dataEdit := dataEdit self; assetsTable := assetsTable self;
     companyEdit := companyEdit self; productEdit := productEdit self;
     versionEdit := versionEdit self; descEdit := descEdit self;
     uacSwitch := uacSwitch self; extraEdit := extraEdit self |}.

Definition set_followImportsSwitch (v : bool) (self : FormState) : FormState :=
  {| pythonEdit := pythonEdit self; fileEdit := fileEdit self;
     standaloneRadio := standaloneRadio self;
     outputDirEdit := outputDirEdit self; nameEdit := nameEdit self;
     iconEdit := iconEdit self; compilerCombo := compilerCombo self;
     gccPathEdit := gccPathEdit self;
     autoDownloadSwitch := autoDownloadSwitch self;
     consoleSwitch := consoleSwitch self;
     progressSwitch := progressSwitch self;
     memorySwitch := memorySwitch self; removeSwitch := removeSwitch self;
     ccacheSwitch := ccacheSwitch self;
     lowMemorySwitch := lowMemorySwitch self; ltoSwitch := ltoSwitch self;
     plugins := plugins self; customEdit := customEdit self;
     followImportsSwitch := v; includeEdit := includeEdit self;
     excludeEdit := excludeEdit self; dataEdit := dataEdit self;
     assetsTable := assetsTable self; companyEdit := companyEdit self;
     productEdit := productEdit self; versionEdit := versionEdit self;
     descEdit := descEdit self; uacSwitch := uacSwitch self;
     extraEdit := extraEdit self |}.

Definition set_uacSwitch (v : bool) (self : FormState) : FormState :=
  {| pythonEdit := pythonEdit self; fileEdit := fileEdit self;
     standaloneRadio := standaloneRadio self;
     outputDirEdit := outputDirEdit self; nameEdit := nameEdit self;
     iconEdit := iconEdit self; compilerCombo := compilerCombo self;
     gccPathEdit := gccPathEdit self;
     autoDownloadSwitch := autoDownloadSwitch self;
     consoleSwitch := consoleSwitch self;
     progressSwitch := progressSwitch self;
     memorySwitch := memorySwitch self; removeSwitch := removeSwitch self;
     ccacheSwitch := ccacheSwitch self;
     lowMemorySwitch := lowMemorySwitch self; ltoSwitch := ltoSwitch self;
     plugins := plugins self; customEdit := customEdit self;
     followImportsSwitch := followImportsSwitch self;
     includeEdit := includeEdit self; excludeEdit := excludeEdit self;
     dataEdit := dataEdit self; assetsTable := assetsTable self;
     companyEdit := companyEdit self; productEdit := productEdit self;
     versionEdit := versionEdit self; descEdit := descEdit self;
     uacSwitch := v; extraEdit := extraEdit self |}.

(** The form as [setupUI] leaves it, with nothing typed. *)
Definition initial_form : FormState :=
  {| pythonEdit := []; fileEdit := []; standaloneRadio := true;
     outputDirEdit := []; nameEdit := []; iconEdit := [];
     compilerCombo := AutoDetect; gccPathEdit := [];
     autoDownloadSwitch := true; consoleSwitch := true;
     progressSwitch := true; memorySwitch := true; removeSwitch := true;
     ccacheSwitch := false; lowMemorySwitch := false; ltoSwitch := false;
     plugins := mkPlugins false false false false false false false false;
     customEdit := []; followImportsSwitch := true; includeEdit := [];
     excludeEdit := []; dataEdit := []; assetsTable := [];
     companyEdit := []; productEdit := []; versionEdit := [];
     descEdit := []; uacSwitch := false; extraEdit := [] |}.

(** ** The options with a literal flag *)

(** The options [buildCommand] turns into a literal flag, each with the
    condition under which the builder appends it and the flag appended. *)
Inductive toggle : Type :=
| standalone_mode | onefile_mode | auto_download
| mingw64 | clang | msvc
| no_console | show_progress | show_memory | remove_output
| low_memory | lto
| follow_all_imports | nofollow_imports
| uac_admin.

Definition all_toggles : list toggle :=
  [ standalone_mode; onefile_mode; auto_download; mingw64; clang; msvc;
    no_console; show_progress; show_memory; remove_output; low_memory; lto;
    follow_all_imports; nofollow_imports; uac_admin ].

Definition flag (o : toggle) : str :=
  match o with
  | standalone_mode => u "--standalone"
  | onefile_mode => u "--onefile"
  | auto_download => u "--assume-yes-for-downloads"
  | mingw64 => u "--mingw64"
  | clang => u "--clang"
  | msvc => u "--msvc=latest"
  | no_console => u "--windows-disable-console"
  | show_progress => u "--show-progress"
  | show_memory => u "--show-memory"
  | remove_output => u "--remove-output"
  | low_memory => u "--low-memory"
  | lto => u "--lto=yes"
  | follow_all_imports => u "--follow-imports"
  | nofollow_imports => u "--nofollow-imports"
  | uac_admin => u "--windows-uac-admin"
  end.

Definition enabled_option (self : FormState) (o : toggle) : bool :=
  match o with
  | standalone_mode => standaloneRadio self
  | onefile_mode => negb (standaloneRadio self)
  | auto_download => autoDownloadSwitch self
  | mingw64 => str_eqb (currentText (compilerCombo self)) (u "MinGW64")
  | clang => str_eqb (currentText (compilerCombo self)) (u "Clang")
  | msvc => str_eqb (currentText (compilerCombo self)) (u "MSVC")
  | no_console => negb (consoleSwitch self)
  | show_progress => progressSwitch self
  | show_memory => memorySwitch self
  | remove_output => removeSwitch self
  | low_memory => lowMemorySwitch self
  | lto => ltoSwitch self
  | follow_all_imports =>
      followImportsSwitch self && negb (truthy (includeEdit self))
  | nofollow_imports => negb (followImportsSwitch self)
  | uac_admin => uacSwitch self
  end.

(** The texts [buildCommand] takes from the free-text widgets, in the form
    in which it inserts them. *)
Definition user_texts (self : FormState) : list str :=
  [ pythonEdit self; outputDirEdit self; nameEdit self; iconEdit self;
    join (u ",") (stripped_lines (strip (customEdit self)));
    replace (ch " ") [] (includeEdit self) ]
  ++ map strip (split (ch ",") (excludeEdit self))
  ++ stripped_lines (strip (dataEdit self))
  ++ map (fun a => a_source a ++ u "=" ++ a_target a)
         (getAssets (assetsTable self))
  ++ [ companyEdit self; productEdit self; versionEdit self; descEdit self ]
  ++ stripped_lines (strip (extraEdit self))
  ++ [ fileEdit self ].

(** The single-line fields [buildCommand] inserts as they are, each with
    the literal text the builder puts in front of it. *)
Definition verbatim_fields (self : FormState) : list (str * str) :=
  [ ([], pythonEdit self);
    (u "--output-dir=", outputDirEdit self);
    (u "--output-filename=", nameEdit self);
    (u "--windows-icon-from-ico=", iconEdit self);
    (u "--windows-company-name=", companyEdit self);
    (u "--windows-product-name=", productEdit self);
    (u "--windows-file-version=", versionEdit self);
    (u "--windows-file-description=", descEdit self);
    ([], fileEdit self) ].

(** [parts] ends with the part [last]. *)
Definition ends_with (last : str) (parts : list str) : Prop :=
  exists front, parts = front ++ [last].

(** The literal texts [buildCommand] puts in front of user text. *)
Definition prefixes : list str :=
  [ u "--output-dir="; u "--output-filename="; u "--windows-icon-from-ico=";
    u "--enable-plugin="; u "--follow-import-to=";
    u "--nofollow-import-to="; u "--include-data-files=";
    u "--include-data-dir="; u "--windows-company-name=";
    u "--windows-product-name="; u "--windows-file-version=";
    u "--windows-file-description=" ].

(** The options of the form that [buildCommand] turns into parts: those
    with a literal flag, and those that carry a value. *)
Inductive option_id : Type :=
| opt_toggle (o : toggle)
| opt_output_dir | opt_output_filename | opt_icon
| opt_plugin_boxes | opt_custom_plugins
| opt_include | opt_exclude | opt_data | opt_assets
| opt_company | opt_product | opt_version | opt_description
| opt_extra.

(** The options in the order in which [buildCommand] visits them. *)
Definition all_options : list option_id :=
  [ opt_toggle standalone_mode; opt_toggle onefile_mode;
    opt_toggle auto_download;
    opt_toggle mingw64; opt_toggle clang; opt_toggle msvc;
    opt_toggle no_console; opt_toggle show_progress; opt_toggle show_memory;
    opt_toggle remove_output; opt_toggle low_memory; opt_toggle lto;
    opt_output_dir; opt_output_filename; opt_icon;
    opt_plugin_boxes; opt_custom_plugins;
    opt_include; opt_toggle follow_all_imports; opt_toggle nofollow_imports;
    opt_exclude; opt_data; opt_assets;
    opt_company; opt_product; opt_version; opt_description;
    opt_toggle uac_admin; opt_extra ].

(** What one option contributes to the command: nothing when it is not
    enabled, and else its flag, with its value where it has one. *)
Definition option_parts (self : FormState) (o : option_id) : list str :=
  match o with
  | opt_toggle t => if enabled_option self t then [flag t] else []
  | opt_output_dir =>
      if truthy (outputDirEdit self)
      then [u "--output-dir=" ++ outputDirEdit self] else []
  | opt_output_filename =>
      if truthy (nameEdit self)
      then [u "--output-filename=" ++ nameEdit self] else []
  | opt_icon =>
      if truthy (iconEdit self)
      then [u "--windows-icon-from-ico=" ++ iconEdit self] else []
  | opt_plugin_boxes =>
      match map fst (filter snd (plugins_items (plugins self))) with
      | [] => []
      | _ :: _ =>
          [u "--enable-plugin="
             ++ join (u ",") (map fst (filter snd (plugins_items (plugins self))))]
      end
  | opt_custom_plugins =>
      match stripped_lines (strip (customEdit self)) with
      | [] => []
      | _ :: _ =>
          [u "--enable-plugin="
             ++ join (u ",") (stripped_lines (strip (customEdit self)))]
      end
  | opt_include =>
      if followImportsSwitch self && truthy (includeEdit self)
      then [u "--follow-import-to=" ++ replace (ch " ") [] (includeEdit self)]
      else []
  | opt_exclude =>
      if truthy (excludeEdit self)
      then map (fun exclude => u "--nofollow-import-to=" ++ strip exclude)
               (split (ch ",") (excludeEdit self))
      else []
  | opt_data =>
      map (fun data_line =>
             (if contains (u "=") data_line
              then u "--include-data-files=" else u "--include-data-dir=")
             ++ data_line)
          (stripped_lines (strip (dataEdit self)))
  | opt_assets =>
      flat_map
        (fun a =>
           if enabled a then
             [(if str_eqb (a_type a) (u "file")
               then u "--include-data-files=" else u "--include-data-dir=")
              ++ a_source a ++ u "=" ++ a_target a]
           else [])
        (getAssets (assetsTable self))
  | opt_company =>
      if truthy (companyEdit self)
      then [u "--windows-company-name=" ++ companyEdit self] else []
  | opt_product =>
      if truthy (productEdit self)
      then [u "--windows-product-name=" ++ productEdit self] else []
  | opt_version =>
      if truthy (versionEdit self)
      then [u "--windows-file-version=" ++ versionEdit self] else []
  | opt_description =>
      if truthy (descEdit self)
      then [u "--windows-file-description=" ++ descEdit self] else []
  | opt_extra => stripped_lines (strip (extraEdit self))
  end.

(** Every flag [buildCommand] can generate, with whether the form asks for
    it: the literal flags with the state of their option, the texts put in
    front of a value with whether there is a value to carry, and the plugin
    names with the state of their check box. *)
Definition option_flags (self : FormState) : list (str * bool) :=
  map (fun o => (flag o, enabled_option self o)) all_toggles
  ++ [ (u "--output-dir=", truthy (outputDirEdit self));
       (u "--output-filename=", truthy (nameEdit self));
       (u "--windows-icon-from-ico=", truthy (iconEdit self));
       (u "--enable-plugin=",
          existsb snd (plugins_items (plugins self))
          || existsb (fun _ => true)
               (stripped_lines (strip (customEdit self))));
       (u "--follow-import-to=",
          followImportsSwitch self && truthy (includeEdit self));
       (u "--nofollow-import-to=", truthy (excludeEdit self));
       (u "--include-data-files=",
          existsb (fun data_line => contains (u "=") data_line)
                  (stripped_lines (strip (dataEdit self)))
          || existsb (fun a => enabled a && str_eqb (a_type a) (u "file"))
                     (getAssets (assetsTable self)));
       (u "--include-data-dir=",
          existsb (fun data_line => negb (contains (u "=") data_line))
                  (stripped_lines (strip (dataEdit self)))
          || existsb (fun a => enabled a && str_eqb (a_type a) (u "folder"))
                     (getAssets (assetsTable self)));
       (u "--windows-company-name=", truthy (companyEdit self));
       (u "--windows-product-name=", truthy (productEdit self));
       (u "--windows-file-version=", truthy (versionEdit self));
       (u "--windows-file-description=", truthy (descEdit self)) ]
  ++ plugins_items (plugins self).

(** The keys of [pluginsInterface.plugins]. *)
Definition plugin_names : list str :=
  [ u "pyqt5"; u "pyside2"; u "pyside6"; u "numpy"; u "torch";
    u "tensorflow"; u "matplotlib"; u "tk-inter" ].

(** The texts of [option_flags], which do not depend on the form. *)
Definition flag_texts : list str :=
  map flag all_toggles ++ prefixes ++ plugin_names.

(** The flags can be told apart in a command: they are distinct and not
    empty, hold no space and no comma, none occurs in the three fixed
    words, none occurs in another, and none can start inside a prefix and
    run into the value that follows it. *)
Definition flags_apart : bool :=
  distinct flag_texts
  && forallb
       (fun f =>
          truthy f
          && negb (contains (u " ") f)
          && negb (contains (u ",") f)
          && forallb (fun w => negb (contains f w))
                     [u "python"; u "-m"; u "nuitka"]
          && forallb (fun g => negb (contains f g) || str_eqb f g) flag_texts
          && forallb (fun g => clean f g || str_eqb f g) prefixes)
       flag_texts.

(** ** The switches *)

(** The [SwitchButton] widgets of the form. *)
Inductive switch : Type :=
| autoDownload | console | progress | memory | remove
| ccache | lowMemory | ltoOpt | followImports | uac.

Definition isChecked (w : switch) (self : FormState) : bool :=
  match w with
  | autoDownload => autoDownloadSwitch self
  | console => consoleSwitch self
  | progress => progressSwitch self
  | memory => memorySwitch self
  | remove => removeSwitch self
  | ccache => ccacheSwitch self
  | lowMemory => lowMemorySwitch self
  | ltoOpt => ltoSwitch self
  | followImports => followImportsSwitch self
  | uac => uacSwitch self
  end.

Definition setChecked (w : switch) (v : bool) (self : FormState)
  : FormState :=
  match w with
  | autoDownload => set_autoDownloadSwitch v self
  | console => set_consoleSwitch v self
  | progress => set_progressSwitch v self
  | memory => set_memorySwitch v self
  | remove => set_removeSwitch v self
  | ccache => set_ccacheSwitch v self
  | lowMemory => set_lowMemorySwitch v self
  | ltoOpt => set_ltoSwitch v self
  | followImports => set_followImportsSwitch v self
  | uac => set_uacSwitch v self
  end.

(** The user flips one switch. *)
Definition flip (w : switch) (self : FormState) : FormState :=
  setChecked w (negb (isChecked w self)) self.

(** Two lists of parts that differ by one part [part], present in one and
    absent from the other, everything else being the same. *)
Definition one_part_apart (part : str) (parts parts' : list str) : Prop :=
  exists l1 l2,
    (parts = l1 ++ l2 /\ parts' = l1 ++ part :: l2)
    \/ (parts' = l1 ++ l2 /\ parts = l1 ++ part :: l2).

(** [with_part] has [part] where [without] has nothing. *)
Definition inserted (part : str) (with_part without : list str) : Prop :=
  exists l1 l2, with_part = l1 ++ part :: l2 /\ without = l1 ++ l2.

(** The two lists differ in one place, which holds [x] in one and [y] in
    the other. *)
Definition swapped (x y : str) (parts parts' : list str) : Prop :=
  exists l1 l2, parts = l1 ++ x :: l2 /\ parts' = l1 ++ y :: l2.

(** The literal flag of a switch and the position of the switch at which
    the builder appends it; [None] for the switches without one. *)
Definition switch_flag (w : switch) : option (str * bool) :=
  match w with
  | autoDownload => Some (u "--assume-yes-for-downloads", true)
  | console => Some (u "--windows-disable-console", false)
  | progress => Some (u "--show-progress", true)
  | memory => Some (u "--show-memory", true)
  | remove => Some (u "--remove-output", true)
  | lowMemory => Some (u "--low-memory", true)
  | ltoOpt => Some (u "--lto=yes", true)
  | uac => Some (u "--windows-uac-admin", true)
  | ccache | followImports => None
  end.

Section Environment.

(** [findCCache()], [os.path.dirname], [os.path.basename], and the text
    [json.dump] writes with [indent=4] and [ensure_ascii=False]. *)
Variable findCCache : option str.
Variable dirname : str -> str.
Variable basename : str -> str.
Variable json_dump : pyval -> str.

Definition getEnvironment (self : FormState) : list (str * str) :=
  (if str_eqb (currentText (compilerCombo self)) (u "本地GCC")
      && truthy (gccPathEdit self)
   then [(u "CC", gccPathEdit self)] else [])
  ++ (if ccacheSwitch self then
        match findCCache with
        | Some ccache_path =>
            if truthy ccache_path
            then [(u "NUITKA_CCACHE_BINARY", ccache_path)] else []
        | None => []
        end
      else []).

(** The text [previewCommand] builds from the environment:
    [env_info]. *)
Definition env_info (env : list (str * str)) : str :=
  match env with
  | [] => []
  | _ :: _ =>
      [ch "010"; ch "010"] ++ u "环境变量：" ++ [ch "010"]
      ++ flat_map (fun kv => fst kv ++ u "=" ++ snd kv ++ [ch "010"]) env
  end.

(** [previewCommand]: the pop-ups shown and the title and text of the
    dialog opened ([None] when no dialog is opened). *)
Definition previewCommand (self : FormState)
  : list effect * option (str * str) :=
  let (command, shown) := buildCommand self in
  match command with
  | Some c =>
      if truthy c then
        let env := getEnvironment self in
        let cwd_info :=
          if truthy (fileEdit self)
          then [ch "010"] ++ u "工作目录：" ++ dirname (fileEdit self)
               ++ [ch "010"]
          else [] in
        (shown, Some (u "命令预览", c ++ cwd_info ++ env_info env))
      else (shown, None)
  | None => (shown, None)
  end.

(** [startPackage]: every effect of the call, in order. *)
Definition startPackage (self : FormState) : list effect :=
  let (command, shown) := buildCommand self in
  match command with
  | Some c =>
      if truthy c then
        shown ++
        [ switchTo_logInterface;
          logInterface_startPackage c (getEnvironment self)
            (if truthy (fileEdit self)
             then Some (dirname (fileEdit self)) else None) ]
      else shown
  | None => shown
  end.


(** [getConfig] *)
Definition getConfig (self : FormState) : pyval :=
  VDict [
    (u "python", VStr (pythonEdit self));
    (u "basic", VDict [
       (u "file", VStr (fileEdit self));
       (u "mode", VStr (if standaloneRadio self
                        then u "standalone" else u "onefile")) ]);
    (u "output", VDict [
       (u "dir", VStr (outputDirEdit self));
       (u "name", VStr (nameEdit self));
       (u "icon", VStr (iconEdit self)) ]);
    (u "compile", VDict [
       (u "compiler", VStr (currentText (compilerCombo self)));
       (u "gcc_path", VStr (gccPathEdit self));
       (u "auto_download", VBool (autoDownloadSwitch self));
       (u "console", VBool (consoleSwitch self));
       (u "progress", VBool (progressSwitch self));
       (u "memory", VBool (memorySwitch self));
       (u "remove", VBool (removeSwitch self)) ]);
    (u "optimize", VDict [
       (u "ccache", VBool (ccacheSwitch self));
       (u "low_memory", VBool (lowMemorySwitch self));
       (u "lto", VBool (ltoSwitch self)) ]);
    (u "plugins",
       VDict (map (fun nc => (fst nc, VBool (snd nc)))
                  (plugins_items (plugins self))));
    (u "custom_plugins", VStr (customEdit self));
    (u "modules", VDict [
       (u "follow_imports", VBool (followImportsSwitch self));
       (u "include", VStr (includeEdit self));
       (u "exclude", VStr (excludeEdit self));
       (u "data", VStr (dataEdit self)) ]);
    (u "assets", VList (map asset_dict (getAssets (assetsTable self))));
    (u "windows", VDict [
       (u "company", VStr (companyEdit self));
       (u "product", VStr (productEdit self));
       (u "version", VStr (versionEdit self));
       (u "description", VStr (descEdit self));
       (u "uac", VBool (uacSwitch self)) ]);
    (u "advanced", VDict [
       (u "extra", VStr (extraEdit self)) ])
  ].

(** The keys [setConfig] reads from the record. *)
Definition section_names : list str :=
  [ u "python"; u "basic"; u "output"; u "assets"; u "compile";
    u "optimize"; u "plugins"; u "custom_plugins"; u "modules";
    u "windows"; u "advanced" ].

(** The fields of the form that the record keeps inside a section: the
    section, the key, and the current value of the widget. *)
Definition stored_fields (self : FormState) : list (str * str * pyval) :=
  [ (u "basic", u "file", VStr (fileEdit self));
    (u "basic", u "mode",
       VStr (if standaloneRadio self then u "standalone" else u "onefile"));
    (u "output", u "dir", VStr (outputDirEdit self));
    (u "output", u "name", VStr (nameEdit self));
    (u "output", u "icon", VStr (iconEdit self));
    (u "compile", u "compiler", VStr (currentText (compilerCombo self)));
    (u "compile", u "gcc_path", VStr (gccPathEdit self));
    (u "compile", u "auto_download", VBool (autoDownloadSwitch self));
    (u "compile", u "console", VBool (consoleSwitch self));
    (u "compile", u "progress", VBool (progressSwitch self));
    (u "compile", u "memory", VBool (memorySwitch self));
    (u "compile", u "remove", VBool (removeSwitch self));
    (u "optimize", u "ccache", VBool (ccacheSwitch self));
    (u "optimize", u "low_memory", VBool (lowMemorySwitch self));
    (u "optimize", u "lto", VBool (ltoSwitch self));
    (u "plugins", u "pyqt5", VBool (pyqt5 (plugins self)));
    (u "plugins", u "pyside2", VBool (pyside2 (plugins self)));
    (u "plugins", u "pyside6", VBool (pyside6 (plugins self)));
    (u "plugins", u "numpy", VBool (numpy (plugins self)));
    (u "plugins", u "torch", VBool (torch (plugins self)));
    (u "plugins", u "tensorflow", VBool (tensorflow (plugins self)));
    (u "plugins", u "matplotlib", VBool (matplotlib (plugins self)));
    (u "plugins", u "tk-inter", VBool (tk_inter (plugins self)));
    (u "modules", u "follow_imports", VBool (followImportsSwitch self));
    (u "modules", u "include", VStr (includeEdit self));
    (u "modules", u "exclude", VStr (excludeEdit self));
    (u "modules", u "data", VStr (dataEdit self));
    (u "windows", u "company", VStr (companyEdit self));
    (u "windows", u "product", VStr (productEdit self));
    (u "windows", u "version", VStr (versionEdit self));
    (u "windows", u "description", VStr (descEdit self));
    (u "windows", u "uac", VBool (uacSwitch self));
    (u "advanced", u "extra", VStr (extraEdit self)) ].

(** The record the configuration keeps of a row of the asset table. *)
Definition row_record (r : row) : pyval :=
  VDict [ (u "enabled", VBool (match cellWidget0 r with
                               | Some checked => checked
                               | None => true
                               end));
          (u "source", VStr (source r));
          (u "target", VStr (target r));
          (u "type", VStr (if str_eqb (type_text r) (u "文件")
                           then u "file" else u "folder")) ].

(** [saveConfig], given the file name the dialog returned (empty when the
    dialog was cancelled). *)
Definition saveConfig (self : FormState) (file : str) : list effect :=
  if truthy file then
    let config := getConfig self in
    [ write_file file (json_dump config);
      InfoBar_success (u "成功") (u "配置已保存！") ]
  else [].

(** [d.get(key, default)] passed to [setText] or [setPlainText]. *)
Definition get_str (d : pyval) (key : str) (default : str) : option str :=
  v <- get d key (VStr default) ;; as_str v.

(** [d.get(key, default)] passed to [setChecked]. *)
Definition get_bool (d : pyval) (key : str) (default : bool) : option bool :=
  v <- get d key (VBool default) ;; as_bool v.

(** The values a [for] loop draws from a Python value.  A string or a dict
    yields strings, which have no [get]; a bool is not iterable. *)
Definition iterate (v : pyval) : option (list pyval) :=
  match v with
  | VList l => Some l
  | VStr s => Some (map (fun c => VStr [c]) s)
  | VDict d => Some (map (fun kv => VStr (fst kv)) d)
  | VBool _ => None
  end.

(** [setConfig]: the form after the call; [None] when a call raises (the
    form is then left partly updated, which is not modelled).  The calls to
    [updatePythonInfo], [checkNuitka] and [onCompilerChanged] only refresh
    labels and visibility and leave the form state as it is.
    [setCurrentText] compares its argument with the texts of the items, so
    a compiler value that is no string selects nothing.  The texts of the
    record are taken as the widgets report them; a text that [QTextEdit]
    rewrites when it is set (CR LF, U+2028, U+00A0) is outside the model. *)
Definition setConfig (self : FormState) (config : pyval)
  : option FormState :=
  python <- get_str config (u "python") [] ;;
  basic <- get config (u "basic") (VDict []) ;;
  file <- get_str basic (u "file") [] ;;
  (* [basic.get('mode')]: without the key the result is [None], which,
     like the value standing for it here, is not the string ['onefile']. *)
  mode <- get basic (u "mode") (VBool false) ;;
  let standalone :=
    match mode with
    | VStr m => negb (str_eqb m (u "onefile"))
    | _ => true
    end in
  output <- get config (u "output") (VDict []) ;;
  dir <- get_str output (u "dir") [] ;;
  name <- get_str output (u "name") [] ;;
  icon <- get_str output (u "icon") [] ;;
  assets <- get config (u "assets") (VList []) ;;
  assets_iter <- iterate assets ;;
  table' <- setAssets basename (assetsTable self) assets_iter ;;
  compile_opt <- get config (u "compile") (VDict []) ;;
  compiler_value <- get compile_opt (u "compiler") (VStr (u "自动检测")) ;;
  gcc_path <- get_str compile_opt (u "gcc_path") [] ;;
  auto_download <- get_bool compile_opt (u "auto_download") true ;;
  console <- get_bool compile_opt (u "console") true ;;
  progress <- get_bool compile_opt (u "progress") true ;;
  memory <- get_bool compile_opt (u "memory") true ;;
  remove <- get_bool compile_opt (u "remove") true ;;
  optimize <- get config (u "optimize") (VDict []) ;;
  ccache <- get_bool optimize (u "ccache") false ;;
  low_memory <- get_bool optimize (u "low_memory") false ;;
  lto <- get_bool optimize (u "lto") false ;;
  plugins_cfg <- get config (u "plugins") (VDict []) ;;
  p1 <- get_bool plugins_cfg (u "pyqt5") false ;;
  p2 <- get_bool plugins_cfg (u "pyside2") false ;;
  p3 <- get_bool plugins_cfg (u "pyside6") false ;;
  p4 <- get_bool plugins_cfg (u "numpy") false ;;
  p5 <- get_bool plugins_cfg (u "torch") false ;;
  p6 <- get_bool plugins_cfg (u "tensorflow") false ;;
  p7 <- get_bool plugins_cfg (u "matplotlib") false ;;
  p8 <- get_bool plugins_cfg (u "tk-inter") false ;;
  custom <- get_str config (u "custom_plugins") [] ;;
  modules <- get config (u "modules") (VDict []) ;;
  follow_imports <- get_bool modules (u "follow_imports") true ;;
  include <- get_str modules (u "include") [] ;;
  exclude <- get_str modules (u "exclude") [] ;;
  data <- get_str modules (u "data") [] ;;
  windows <- get config (u "windows") (VDict []) ;;
  company <- get_str windows (u "company") [] ;;
  product <- get_str windows (u "product") [] ;;
  version <- get_str windows (u "version") [] ;;
  description <- get_str windows (u "description") [] ;;
  uac <- get_bool windows (u "uac") false ;;
  advanced <- get config (u "advanced") (VDict []) ;;
  extra <- get_str advanced (u "extra") [] ;;
  Some {| pythonEdit := python;
          fileEdit := file;
          standaloneRadio := standalone;
          outputDirEdit := dir;
          nameEdit := name;
          iconEdit := icon;
          compilerCombo :=
            match compiler_value with
            | VStr text => setCurrentText (compilerCombo self) text
            | _ => compilerCombo self
            end;
          gccPathEdit := gcc_path;
          autoDownloadSwitch := auto_download;
          consoleSwitch := console;
          progressSwitch := progress;
          memorySwitch := memory;
          removeSwitch := remove;
          ccacheSwitch := ccache;
          lowMemorySwitch := low_memory;
          ltoSwitch := lto;
          plugins := mkPlugins p1 p2 p3 p4 p5 p6 p7 p8;
          customEdit := custom;
          followImportsSwitch := follow_imports;
          includeEdit := include;
          excludeEdit := exclude;
          dataEdit := data;
          assetsTable := table';
          companyEdit := company;
          productEdit := product;
          versionEdit := version;
          descEdit := description;
          uacSwitch := uac;
          extraEdit := extra |}.

End Environment.

Section Probe.

(** [sys.platform == 'win32'], [os.environ.get('PATH')], [os.path.exists],
    [os.path.join] and [shutil.which]. *)
Variable win32 : bool.
Variable environ_PATH : option str.
Variable path_exists : str -> bool.
Variable path_join : str -> str -> str.
Variable which : str -> option str.

(** The predefined places [findCCache] looks at on Windows. *)
Definition ccache_paths : list str :=
  [ u "C:\ProgramData\chocolatey\bin\ccache.exe";
    u "C:\msys64\usr\bin\ccache.exe";
    u "C:\msys64\mingw64\bin\ccache.exe";
    u "C:\tools\ccache\ccache.exe" ].

(** The candidates [findCCache] makes of the entries of [PATH]. *)
Definition ccache_on_PATH : list str :=
  map (fun path => path_join path (u "ccache.exe"))
      (split (ch ";")
             (match environ_PATH with Some p => p | None => [] end)).

(** [findCCache] *)
Definition findCCache : option str :=
  if win32 then
    match find path_exists ccache_on_PATH with
    | Some ccache_exe => Some ccache_exe
    | None =>
        match find path_exists ccache_paths with
        | Some path => Some path
        | None => None
        end
    end
  else which (u "ccache").

End Probe.

End MainInterface.

(* ================================================================== *)
(** * class LogInterface: cancelling *)
(* ================================================================== *)

Module LogInterface.

(** The worker the log page holds ([None] before the first run), whether
    that [QThread] is running, and the text of [logEdit]. *)
Record t : Type := mk {
  packageThread : option PackageThread.t;
  isRunning : bool;
  logEdit : str
}.

(** [appendLog]: the text is inserted at the end. *)
Definition appendLog (self : t) (text : str) : t :=
  {| packageThread := packageThread self;
     isRunning := isRunning self;
     logEdit := logEdit self ++ text |}.

(** [stopPackage]: the log page after the call and the calls made on the
    child process. *)
Definition stopPackage (self : t) : t * list PackageThread.os_call :=
  match packageThread self with
  | Some th =>
      if isRunning self then
        let (th', calls) := PackageThread.stop th in
        (appendLog
           {| packageThread := Some th';
              isRunning := isRunning self;
              logEdit := logEdit self |}
           ([ch "010"] ++ u "用户取消了打包操作" ++ [ch "010"]),
         calls)
      else (self, [])
  | None => (self, [])
  end.

End LogInterface.

(* ================================================================== *)
(** * class LogInterface: the page and its widgets *)
(* ================================================================== *)

Module LogPage.

(** A call made on [logEdit]. *)
Inductive log_call : Type :=
| appendPlainText (text : str)
| insertPlainText (text : str).

(** An [InfoBar] shown by the page. *)
Inductive info_bar : Type :=
| InfoBar_success (title content : str)
| InfoBar_error (title content : str).

(** The log page: the worker it holds, whether the progress bar is shown,
    the values passed to [progressBar.setValue] (oldest first), whether the
    stop button is enabled, the calls made on [logEdit] since it was last
    cleared (oldest first), and the pop-ups shown (oldest first). *)
Record t : Type := mk {
  packageThread : option PackageThread.t;
  progressBar_shown : bool;
  progressBar_values : list Z;
  stopButton_enabled : bool;
  logEdit_calls : list log_call;
  infoBars : list info_bar
}.

(** The page as [setupUI] leaves it. *)
Definition initial : t :=
  {| packageThread := None; progressBar_shown := false;
     progressBar_values := []; stopButton_enabled := false;
     logEdit_calls := []; infoBars := [] |}.

(** [startPackage], [now] being the formatted time of the call. *)
Definition startPackage (now : str) (command : str)
  (env : list (str * str)) (cwd : option str) (self : t) : t :=
  {| packageThread := Some (PackageThread.init command env cwd);
     progressBar_shown := true;
     progressBar_values := progressBar_values self ++ [0%Z];
     stopButton_enabled := true;
     logEdit_calls :=
       [appendPlainText (u "开始时间：" ++ now ++ [ch "010"])]
       ++ match env with
          | [] => []
          | _ :: _ =>
              [appendPlainText (u "环境变量设置：")]
              ++ map (fun kv =>
                        appendPlainText
                          (u "  " ++ fst kv ++ u "=" ++ snd kv)) env
              ++ [appendPlainText []]
          end;
     infoBars := infoBars self |}.

(** [appendLog] *)
Definition appendLog (text : str) (self : t) : t :=
  {| packageThread := packageThread self;
     progressBar_shown := progressBar_shown self;
     progressBar_values := progressBar_values self;
     stopButton_enabled := stopButton_enabled self;
     logEdit_calls := logEdit_calls self ++ [insertPlainText text];
     infoBars := infoBars self |}.

(** [updateProgress] *)
Definition updateProgress (value : Z) (self : t) : t :=
  {| packageThread := packageThread self;
     progressBar_shown := progressBar_shown self;
     progressBar_values := progressBar_values self ++ [value];
     stopButton_enabled := stopButton_enabled self;
     logEdit_calls := logEdit_calls self;
     infoBars := infoBars self |}.

(** [packageFinished], [now] being the formatted time of the call. *)
Definition packageFinished (now : str) (success : bool) (message : str)
  (self : t) : t :=
  let self1 :=
    {| packageThread := packageThread self;
       progressBar_shown := progressBar_shown self;
       progressBar_values := progressBar_values self;
       stopButton_enabled := false;
       logEdit_calls := logEdit_calls self;
       infoBars := infoBars self |} in
  let self2 :=
    appendLog (u "打包结果：" ++ message ++ [ch "010"])
      (appendLog ([ch "010"] ++ u "结束时间：" ++ now ++ [ch "010"]) self1) in
  if success then
    {| packageThread := packageThread self2;
       progressBar_shown := progressBar_shown self2;
       progressBar_values := progressBar_values self2 ++ [100%Z];
       stopButton_enabled := stopButton_enabled self2;
       logEdit_calls := logEdit_calls self2;
       infoBars := infoBars self2 ++ [InfoBar_success (u "成功") message] |}
  else
    {| packageThread := packageThread self2;
       progressBar_shown := progressBar_shown self2;
       progressBar_values := progressBar_values self2;
       stopButton_enabled := stopButton_enabled self2;
       logEdit_calls := logEdit_calls self2;
       infoBars := infoBars self2 ++ [InfoBar_error (u "失败") message] |}.

(** [clearLog] *)
Definition clearLog (self : t) : t :=
  {| packageThread := packageThread self;
     progressBar_shown := progressBar_shown self;
     progressBar_values := progressBar_values self;
     stopButton_enabled := stopButton_enabled self;
     logEdit_calls := [];
     infoBars := infoBars self |}.

(** The slot each signal of the worker is connected to; [now] is the time
    at which [packageFinished] runs. *)
Definition deliver (now : str) (self : t) (s : PackageThread.signal) : t :=
  match s with
  | PackageThread.output_signal text => appendLog text self
  | PackageThread.progress_signal value => updateProgress value self
  | PackageThread.finished_signal success message =>
      packageFinished now success message self
  end.

(** The texts inserted into [logEdit] by [insertPlainText], in order. *)
Definition inserted_texts (calls : list log_call) : list str :=
  flat_map (fun c => match c with insertPlainText t => [t] | _ => [] end)
           calls.

End LogPage.

(* ================================================================== *)
(** * A numeral parser for running the worker on examples *)
(* ================================================================== *)

(** Plain ASCII decimal numerals with an optional sign, on which Python's
    [int] gives the value computed here. *)
Definition digit_value (c : char) : option Z :=
  if ((48 <=? c) && (c <=? 57))%N then Some (Z.of_N (c - 48)) else None.

Fixpoint digits_value (acc : Z) (s : str) : option Z :=
  match s with
  | [] => Some acc
  | c :: r => d <- digit_value c ;; digits_value (10 * acc + d)%Z r
  end.

Definition int_ascii (s : str) : option Z :=
  match s with
  | [] => None
  | c :: r =>
      if (c =? ch "-")%N then
        match r with [] => None | _ => v <- digits_value 0 r ;; Some (- v)%Z end
      else if (c =? ch "+")%N then
        match r with [] => None | _ => digits_value 0 r end
      else digits_value 0 s
  end.

(* ================================================================== *)
(** * Facts about the string operations *)
(* ================================================================== *)

Example u_ascii : u "-m" = [45; 109]%N.
Proof. reflexivity. Qed.

Example u_cjk : u "文件" = [25991; 20214]%N.
Proof. reflexivity. Qed.

Example split_ws_ex :
  split_ws (u "  ab   c ") = [u "ab"; u "c"].
Proof. reflexivity. Qed.

Example split_ex : split (ch "%") (u "a%b%") = [u "a"; u "b"; []].
Proof. reflexivity. Qed.

Example str_int_ex : str_int (-12) = u "-12" /\ str_int 0 = u "0".
Proof. split; reflexivity. Qed.

Lemma str_eqb_eq (a b : str) : str_eqb a b = true <-> a = b.
Proof.
  revert b. induction a as [|x a IH]; intros [|y b]; simpl;
    try (split; congruence).
  rewrite andb_true_iff, N.eqb_eq, IH. split.
  - intros [-> ->]. reflexivity.
  - intros E. injection E as -> ->. now split.
Qed.

Lemma str_eqb_refl (a : str) : str_eqb a a = true.
Proof. now apply str_eqb_eq. Qed.

Lemma str_eqb_neq (a b : str) : str_eqb a b = false <-> a <> b.
Proof.
  rewrite <- str_eqb_eq. destruct (str_eqb a b); split; congruence.
Qed.

Lemma truthy_true (s : str) : truthy s = true <-> s <> [].
Proof. destruct s; simpl; split; congruence. Qed.

Lemma truthy_false (s : str) : truthy s = false <-> s = [].
Proof. destruct s; simpl; split; congruence. Qed.

Lemma startswith_app (pre r : str) : startswith (pre ++ r) pre = true.
Proof.
  induction pre as [|a pre IH]; simpl.
  - reflexivity.
  - now rewrite N.eqb_refl.
Qed.

Lemma startswith_inv (s pre : str) :
  startswith s pre = true -> exists r, s = pre ++ r.
Proof.
  revert s. induction pre as [|a pre IH]; intros s H.
  - now exists s.
  - destruct s as [|b s]; simpl in H; [discriminate|].
    apply andb_prop in H as [Hab Hs]. apply N.eqb_eq in Hab. subst b.
    destruct (IH _ Hs) as [r ->]. now exists r.
Qed.

Lemma contains_app (a sub b : str) : contains sub (a ++ sub ++ b) = true.
Proof.
  induction a as [|x a IH].
  - simpl. destruct (sub ++ b) eqn:E.
    + destruct sub; [reflexivity | discriminate].
    + simpl. rewrite <- E, startswith_app. reflexivity.
  - change ((x :: a) ++ sub ++ b) with (x :: (a ++ sub ++ b)).
    simpl. rewrite IH. apply orb_true_r.
Qed.

Lemma contains_inv (sub s : str) :
  contains sub s = true -> exists a b, s = a ++ sub ++ b.
Proof.
  induction s as [|x s IH]; simpl; intros H.
  - rewrite orb_false_r in H. apply startswith_inv in H as [r Hr].
    exists [], r. exact Hr.
  - apply orb_prop in H as [H|H].
    + apply startswith_inv in H as [r Hr]. exists [], r. exact Hr.
    + destruct (IH H) as (a & b & ->). exists (x :: a), b. reflexivity.
Qed.

Lemma contains_suffix (a sub : str) : contains sub (a ++ sub) = true.
Proof.
  rewrite <- (app_nil_r sub) at 2. apply contains_app.
Qed.

Lemma contains_join (sep p : str) (parts : list str) :
  In p parts -> contains p (join sep parts) = true.
Proof.
  induction parts as [|q rest IH]; intros Hin; [destruct Hin|].
  destruct Hin as [->|Hin].
  - destruct rest as [|r rest']; cbn [join].
    + rewrite <- (app_nil_r p) at 2. apply (contains_app [] p []).
    + apply (contains_app [] p).
  - specialize (IH Hin). destruct rest as [|r rest']; [destruct Hin|].
    cbn [join] in *. apply contains_inv in IH as (a & b & E).
    rewrite E. rewrite !app_assoc. rewrite <- !app_assoc.
    replace (q ++ sep ++ a ++ p ++ b) with ((q ++ sep ++ a) ++ p ++ b)
      by now rewrite <- !app_assoc.
    apply contains_app.
Qed.

(* ================================================================== *)
(** * The packaging worker *)
(* ================================================================== *)

Section Worker.

Import PackageThread.

Lemma banner_not_finished (self : PackageThread.t) :
  forallb (fun s => negb (is_finished s)) (banner self) = true.
Proof.
  unfold banner. destruct (cwd self) as [d|]; [destruct (truthy d)|];
    reflexivity.
Qed.

Lemma on_line_not_finished (py_int : str -> option Z) (line : str) :
  forallb (fun s => negb (is_finished s)) (on_line py_int line) = true.
Proof.
  unfold on_line. destruct (truthy line); [|reflexivity].
  destruct (contains _ line); [|reflexivity].
  destruct (parse_percent py_int line); reflexivity.
Qed.

Lemma lines_not_finished (py_int : str -> option Z) (lines : list str) :
  forallb (fun s => negb (is_finished s)) (flat_map (on_line py_int) lines)
  = true.
Proof.
  induction lines as [|l lines IH]; simpl; [reflexivity|].
  now rewrite forallb_app, on_line_not_finished, IH.
Qed.

(** C4. When the child exits with return code [rc], [run] emits exactly one
    [finished_signal], as its last signal; its success flag is [True] if and
    only if [rc] is 0, and for a non-zero [rc] the flag is [False] and the
    message is the failure text followed by the decimal exit code, which it
    therefore contains. *)
Theorem run_reports_exit_code
  (py_int : str -> option Z) (self : PackageThread.t)
  (p : Popen) (lines : list str) (rc : Z) :
  exists before success message,
    snd (run py_int self (exits p lines rc))
    = before ++ [finished_signal success message]
    /\ forallb (fun s => negb (is_finished s)) before = true
    /\ (success = true <-> rc = 0%Z)
    /\ (rc <> 0%Z ->
        success = false
        /\ message = u "打包失败，返回代码：" ++ str_int rc
        /\ contains (str_int rc) message = true).
Proof.
  destruct (Z.eqb_spec rc 0) as [E|E].
  - exists (banner self ++ flat_map (on_line py_int) (iter_readline lines)),
      true, (u "打包成功完成！").
    subst rc. cbn [run snd Z.eqb]. rewrite <- app_assoc.
    repeat split; try congruence.
    now rewrite forallb_app, banner_not_finished, lines_not_finished.
  - exists (banner self ++ flat_map (on_line py_int) (iter_readline lines)),
      false, (u "打包失败，返回代码：" ++ str_int rc).
    cbn [run snd]. apply Z.eqb_neq in E. rewrite E. apply Z.eqb_neq in E.
    rewrite <- app_assoc. repeat split; try congruence.
    + now rewrite forallb_app, banner_not_finished, lines_not_finished.
    + apply contains_suffix.
Qed.

Example run_exit_3 :
  snd (run int_ascii (init (u "x") [] None)
           (exits 7 [u "50% done" ++ [ch "010"]] 3))
  = [ output_signal (u "执行命令：" ++ [ch "010"] ++ u "x" ++ [ch "010"]);
      output_signal (repeat (ch "-") 50 ++ [ch "010"]);
      output_signal (u "50% done" ++ [ch "010"]);
      progress_signal 50;
      finished_signal false (u "打包失败，返回代码：3") ].
Proof. reflexivity. Qed.

Lemma contains_char (c : char) (s : str) :
  contains [c] s = true <-> In c s.
Proof.
  induction s as [|x s IH]; simpl.
  - split; [discriminate | intros []].
  - rewrite andb_true_r, orb_true_iff, IH, N.eqb_eq. intuition congruence.
Qed.

Lemma contains_char_false (c : char) (s : str) :
  contains [c] s = false <-> ~ In c s.
Proof.
  rewrite <- contains_char. destruct (contains [c] s); intuition congruence.
Qed.














(** C7. [stop] sends [terminate] to the child process when one has been
    started; when there is none it makes no call at all; in both cases the
    thread object is left as it was.  [LogInterface.stopPackage] makes the
    same call when it holds a running worker and otherwise does nothing. *)
Theorem stop_best_effort (self : PackageThread.t) :
  (forall p, process self = Some p -> stop self = (self, [terminate p]))
  /\ (process self = None -> stop self = (self, []))
  /\ (forall log,
        LogInterface.packageThread log = Some self ->
        LogInterface.isRunning log = true ->
        snd (LogInterface.stopPackage log) = snd (stop self)
        /\ LogInterface.packageThread (fst (LogInterface.stopPackage log))
           = Some self)
  /\ (forall log,
        LogInterface.packageThread log = None
        \/ LogInterface.isRunning log = false ->
        LogInterface.stopPackage log = (log, [])).
Proof.
  repeat split.
  - intros p H. unfold stop. now rewrite H.
  - intros H. unfold stop. now rewrite H.
  - unfold LogInterface.stopPackage. rewrite H, H0.
    unfold stop. destruct (process self); reflexivity.
  - unfold LogInterface.stopPackage. rewrite H, H0.
    unfold stop. destruct (process self); reflexivity.
  - intros log [H|H]; unfold LogInterface.stopPackage.
    + now rewrite H.
    + rewrite H. now destruct (LogInterface.packageThread log).
Qed.

Example stop_after_run :
  stop (fst (run int_ascii (init (u "x") [] None) (exits 7 [] 0)))
  = (fst (run int_ascii (init (u "x") [] None) (exits 7 [] 0)),
     [terminate 7])
  /\ stop (init (u "x") [] None) = (init (u "x") [] None, []).
Proof. split; reflexivity. Qed.

End Worker.

(* ================================================================== *)
(** * The asset table *)
(* ================================================================== *)

Section Assets.

Import AssetsInterface.

Variable basename : str -> str.
Variable isfile : str -> bool.

Lemma existsb_source (path : str) (t : table) :
  existsb (fun r => str_eqb (source r) path) t = true
  <-> In path (map source t).
Proof.
  rewrite existsb_exists, in_map_iff. split.
  - intros (r & Hin & E). apply str_eqb_eq in E. eauto.
  - intros (r & E & Hin). exists r. split; [exact Hin|]. now apply str_eqb_eq.
Qed.

Lemma addAsset_present (t : table) (path : str) (tp : option str) :
  In path (map source t) -> addAsset basename isfile t path tp = t.
Proof.
  intros Hin. unfold addAsset. destruct (negb (truthy path)); [reflexivity|].
  apply existsb_source in Hin. now rewrite Hin.
Qed.

Lemma addAsset_NoDup (t : table) (path : str) (tp : option str) :
  NoDup (map source t) ->
  NoDup (map source (addAsset basename isfile t path tp)).
Proof.
  intros Hnd. unfold addAsset. destruct (negb (truthy path)); [exact Hnd|].
  destruct (existsb _ t) eqn:E; [exact Hnd|].
  rewrite map_app. apply NoDup_app; [exact Hnd | |].
  - simpl. constructor; [intros [] | constructor].
  - intros a Ha [<-|[]]. apply existsb_source in Ha. simpl in Ha. congruence.
Qed.

Lemma addAsset_calls_NoDup (calls : list (str * option str)) (t : table) :
  NoDup (map source t) -> NoDup (map source (addAsset_calls basename isfile calls t)).
Proof.
  revert t. unfold addAsset_calls.
  induction calls as [|c calls IH]; intros t Hnd; simpl.
  - exact Hnd.
  - apply IH. now apply addAsset_NoDup.
Qed.

(** C9. [addAsset] with a path that is already the source of a row leaves
    the table as it is, so calling it twice with the same path is the same
    as calling it once, and after any sequence of [addAsset] calls on an
    empty table the source paths of the rows are pairwise distinct. *)
Theorem addAsset_idempotent_on_sources :
  (forall t path tp,
     In path (map source t) -> addAsset basename isfile t path tp = t)
  /\ (forall t path tp tp',
        addAsset basename isfile (addAsset basename isfile t path tp) path tp'
        = addAsset basename isfile t path tp)
  /\ (forall calls, NoDup (map source (addAsset_calls basename isfile calls []))).
Proof.
  split; [|split].
  - intros. now apply addAsset_present.
  - intros t path tp tp'. unfold addAsset at 2 3.
    destruct (negb (truthy path)) eqn:Ept.
    + unfold addAsset. now rewrite Ept.
    + destruct (existsb _ t) eqn:E.
      * apply addAsset_present. now apply existsb_source.
      * apply addAsset_present. rewrite map_app, in_app_iff. right. now left.
  - intros calls. apply addAsset_calls_NoDup. constructor.
Qed.

End Assets.

Example addAsset_twice :
  map AssetsInterface.source
    (AssetsInterface.addAsset_calls (fun p => p) (fun _ => true)
       [(u "a.txt", None); (u "b", Some (u "x")); (u "a.txt", Some (u "y"))]
       [])
  = [u "a.txt"; u "b"].
Proof. reflexivity. Qed.

(* ================================================================== *)
(** * Saving and loading the form *)
(* ================================================================== *)

Section RoundTrip.

Import AssetsInterface MainInterface.

Variable basename : str -> str.
Variable isfile : str -> bool.

Lemma setAssets_row_ok (a : pyval) (r : row) :
  setAssets_row basename a = Some (Some r) -> row_ok r.
Proof.
  unfold setAssets_row. destruct a as [| | |items]; try discriminate.
  destruct (lookup items (u "source")) as [src|]; [|discriminate].
  destruct (negb (truthy_val src)) eqn:Et; [discriminate|].
  destruct (as_bool _) as [checked|]; [|discriminate].
  destruct src as [|s| |]; try discriminate. cbn [as_str].
  destruct (item_text _) as [tg|]; [|discriminate].
  intros E. injection E as <-. unfold row_ok. cbn.
  split; [discriminate|]. split.
  - intros ->. discriminate.
  - match goal with
    | |- context [lookup items ?k] =>
        destruct (lookup items k) as [[|ty| |]|]; auto
    end;
    match goal with
    | |- context [str_eqb ?a ?b] => destruct (str_eqb a b); auto
    end.
Qed.

Lemma setAssets_loop_ok (assets : list pyval) (t t' : table) :
  Forall row_ok t ->
  setAssets_loop basename assets t = Some t' -> Forall row_ok t'.
Proof.
  revert t. induction assets as [|a assets IH]; intros t Ht; simpl.
  - intros E. injection E as <-. exact Ht.
  - destruct (setAssets_row basename a) as [[r|]|] eqn:Er; try discriminate.
    + apply IH. apply Forall_app. split; [exact Ht|].
      constructor; [|constructor]. eapply setAssets_row_ok; eauto.
    + apply IH. exact Ht.
Qed.

Lemma Forall_firstn_skipn {A} (P : A -> Prop) (n m : nat) (l : list A) :
  Forall P l -> Forall P (firstn n l) /\ Forall P (skipn m l).
Proof.
  intros H. split.
  - rewrite <- (firstn_skipn n l) in H. now apply Forall_app in H.
  - rewrite <- (firstn_skipn m l) in H. now apply Forall_app in H.
Qed.

(** Every row of a reachable table has a check box, a non-empty source,
    and one of the two type texts. *)
Lemma reachable_rows_ok (t : table) :
  reachable basename isfile t -> Forall row_ok t.
Proof.
  induction 1 as [|t path tp _ IH|t assets t' E|t n _ IH|t _ IH
                  |t n text _ IH|t n _ IH].
  - constructor.
  - unfold addAsset. destruct (negb (truthy path)) eqn:Ep; [exact IH|].
    destruct (existsb _ t); [exact IH|].
    apply Forall_app. split; [exact IH|]. constructor; [|constructor].
    unfold row_ok. cbn. split; [discriminate|]. split.
    + apply negb_false_iff in Ep. now apply truthy_true.
    + destruct (isfile path); auto.
  - unfold setAssets in E. eapply setAssets_loop_ok; [|exact E]. constructor.
  - unfold removeRow. apply Forall_app.
    now apply Forall_firstn_skipn.
  - constructor.
  - unfold editTarget. destruct (nth_error t n) as [r|] eqn:En; [|exact IH].
    apply Forall_app. destruct (Forall_firstn_skipn n (S n) IH) as [H1 H2].
    split; [exact H1|]. constructor; [|exact H2].
    apply nth_error_In in En. rewrite Forall_forall in IH.
    destruct (IH _ En) as (Hc & Hs & Ht). unfold row_ok. cbn. auto.
  - unfold toggleCheck. destruct (nth_error t n) as [r|] eqn:En; [|exact IH].
    apply Forall_app. destruct (Forall_firstn_skipn n (S n) IH) as [H1 H2].
    split; [exact H1|]. constructor; [|exact H2].
    apply nth_error_In in En. rewrite Forall_forall in IH.
    destruct (IH _ En) as (Hc & Hs & Ht). unfold row_ok. cbn.
    split; [|auto]. destruct (cellWidget0 r); [discriminate | congruence].
Qed.

Lemma setAssets_row_getAssets (r : row) :
  row_ok r ->
  setAssets_row basename
    (asset_dict {| enabled := match cellWidget0 r with
                              | Some checked => checked
                              | None => true
                              end;
                   a_source := source r;
                   a_target := target r;
                   a_type := if str_eqb (type_text r) (u "文件")
                             then u "file" else u "folder" |})
  = Some (Some r).
Proof.
  destruct r as [[checked|] src tg ty]; unfold row_ok; cbn;
    intros (Hc & Hs & Ht); [|congruence].
  destruct src as [|c src]; [congruence|].
  destruct Ht as [-> | ->]; vm_compute; reflexivity.
Qed.

Lemma setAssets_loop_getAssets (t done : table) :
  Forall row_ok t ->
  setAssets_loop basename (map asset_dict (getAssets t)) done
  = Some (done ++ t).
Proof.
  intros H. revert done. unfold getAssets.
  induction H as [|r t Hr _ IH]; intros done; cbn [map setAssets_loop].
  - now rewrite app_nil_r.
  - rewrite (setAssets_row_getAssets Hr). rewrite IH.
    now rewrite <- app_assoc.
Qed.

Lemma setAssets_getAssets (t old : table) :
  Forall row_ok t ->
  setAssets basename old (map asset_dict (getAssets t)) = Some t.
Proof.
  intros H. unfold setAssets, clearAll.
  now rewrite setAssets_loop_getAssets.
Qed.

(** C8. Loading the record that [getConfig] made of a form restores that
    form, whatever the form held before loading: every text field, switch,
    radio selection, plugin check box and asset row is as it was.  The
    asset table is any table the page can reach by its own operations. *)
Theorem setConfig_getConfig (self before : FormState) :
  reachable basename isfile (assetsTable self) ->
  setConfig basename before (getConfig self) = Some self.
Proof.
  intros Hr. apply reachable_rows_ok in Hr.
  pose proof (setAssets_getAssets (assetsTable before) Hr) as Ha.
  destruct self as [python file standalone dir name icon comp gcc
                    autodl console progress memory remove ccache lowmem lto
                    [p1 p2 p3 p4 p5 p6 p7 p8] custom follow include exclude
                    data tbl company product version desc uac extra].
  cbn [assetsTable] in Ha.
  unfold setConfig, getConfig.
  cbn [pythonEdit fileEdit standaloneRadio outputDirEdit nameEdit iconEdit
       compilerCombo gccPathEdit autoDownloadSwitch consoleSwitch
       progressSwitch memorySwitch removeSwitch ccacheSwitch lowMemorySwitch
       ltoSwitch plugins customEdit followImportsSwitch includeEdit
       excludeEdit dataEdit assetsTable companyEdit productEdit versionEdit
       descEdit uacSwitch extraEdit].
  remember (map asset_dict (getAssets tbl)) as assets eqn:Eassets.
  clear Eassets Hr.
  destruct comp, standalone; vm_compute in Ha |- *; rewrite Ha; reflexivity.
Qed.

End RoundTrip.

Lemma setConfig_getConfig_witness :
  MainInterface.setConfig (fun p => p) MainInterface.initial_form
    (MainInterface.getConfig
       (MainInterface.set_assetsTable
          (AssetsInterface.addAsset (fun p => p) (fun _ => true) []
             (u "/data/a.txt") (Some (u "res/a.txt")))
          (MainInterface.set_fileEdit (u "a.py") MainInterface.initial_form)))
  = Some (MainInterface.set_assetsTable
            (AssetsInterface.addAsset (fun p => p) (fun _ => true) []
               (u "/data/a.txt") (Some (u "res/a.txt")))
            (MainInterface.set_fileEdit (u "a.py")
               MainInterface.initial_form)).
Proof.
  apply (@setConfig_getConfig (fun p => p) (fun _ => true)).
  apply AssetsInterface.reach_addAsset. apply AssetsInterface.reach_empty.
Defined.

(** A row with an empty source, which no operation of the page creates,
    would not survive: [setAssets] skips it. *)
Example setAssets_skips_empty_source :
  AssetsInterface.setAssets (fun p => p) []
    (map AssetsInterface.asset_dict
       (AssetsInterface.getAssets
          [AssetsInterface.mkRow (Some true) [] (u "t") (u "文件")]))
  = Some [].
Proof. reflexivity. Qed.

(* ================================================================== *)
(** * The configuration record *)
(* ================================================================== *)

Section Config.

Import AssetsInterface MainInterface.

Lemma asset_dict_flat (a : asset) : flat (asset_dict a) = true.
Proof. reflexivity. Qed.

Lemma assets_flat (l : list asset) : forallb flat (map asset_dict l) = true.
Proof.
  induction l as [|a l IH]; [reflexivity|].
  cbn [map forallb]. now rewrite asset_dict_flat, IH.
Qed.

(** The record of a form with nothing typed is not flat: the value under
    ["basic"] is itself a record. *)
Lemma getConfig_not_flat :
  flat (getConfig initial_form) = false
  /\ lookup (match getConfig initial_form with
             | VDict items => items
             | _ => []
             end) (u "basic")
     = Some (VDict [ (u "file", VStr []);
                     (u "mode", VStr (u "standalone")) ]).
Proof. split; reflexivity. Qed.

Lemma assets_records (t : table) :
  map asset_dict (getAssets t) = map row_record t.
Proof.
  unfold getAssets. rewrite map_map. apply map_ext. intros r. reflexivity.
Qed.

Ltac pick_triple :=
  repeat first [ left; reflexivity | right ].

(** C3, as the code has it.  The record of [getConfig] has two levels.  It
    maps eleven section names, in a fixed order: ["python"] and
    ["custom_plugins"] to the text of their field; ["assets"] to the list
    of the rows of the asset table, each a flat record of its check box,
    source, target and type; and each of the other eight to a flat record
    that maps the names of that section's fields, and nothing else, to the
    current values of their widgets.  So the record is not flat, and its
    containers nest at most three deep.  [saveConfig] writes the
    serialization of exactly that record to the chosen file. *)
Theorem getConfig_sectioned
  (json_dump : pyval -> str) (self : FormState) (file : str) :
  exists items,
    getConfig self = VDict items
    /\ map fst items
       = [ u "python"; u "basic"; u "output"; u "compile"; u "optimize";
           u "plugins"; u "custom_plugins"; u "modules"; u "assets";
           u "windows"; u "advanced" ]
    /\ lookup items (u "python") = Some (VStr (pythonEdit self))
    /\ lookup items (u "custom_plugins") = Some (VStr (customEdit self))
    /\ lookup items (u "assets")
       = Some (VList (map row_record (assetsTable self)))
    /\ forallb flat (map row_record (assetsTable self)) = true
    /\ (forall section key value,
          In (section, key, value) (stored_fields self) ->
          exists fields,
            lookup items section = Some (VDict fields)
            /\ flat (VDict fields) = true
            /\ lookup fields key = Some value)
    /\ (forall section fields key value,
          lookup items section = Some (VDict fields) ->
          In (key, value) fields ->
          In (section, key, value) (stored_fields self))
    /\ sectioned (getConfig self) = true
    /\ flat (getConfig self) = false
    /\ depth (getConfig self) <= 3
    /\ saveConfig json_dump self file
       = if truthy file
         then [ write_file file (json_dump (getConfig self));
                InfoBar_success (u "成功") (u "配置已保存！") ]
         else [].
Proof.
  eexists. split; [reflexivity|].
  split; [reflexivity|]. split; [reflexivity|]. split; [reflexivity|].
  split; [cbn [lookup str_eqb]; now rewrite assets_records|].
  split; [rewrite <- assets_records; apply assets_flat|].
  split; [|split; [|split; [|split; [|split; [|reflexivity]]]]].
  - intros section key value Hin. unfold stored_fields in Hin.
    cbn [In] in Hin.
    repeat (destruct Hin as [E|Hin];
            [injection E as <- <- <-; eexists;
             split; [reflexivity | split; reflexivity]|]).
    destruct Hin.
  - intros section fields key value Hl Hin. revert Hl. cbn [lookup].
    repeat match goal with
           | |- (if str_eqb ?k section then _ else _) = _ -> _ =>
               let E := fresh "E" in
               destruct (str_eqb k section) eqn:E;
               [ apply str_eqb_eq in E; subst section; intros Hl;
                 try discriminate Hl; injection Hl as <-;
                 cbn [In map plugins_items fst snd] in Hin;
                 repeat (destruct Hin as [Ek|Hin];
                         [injection Ek as <- <-;
                          unfold stored_fields; pick_triple|]);
                 destruct Hin
               | clear E ]
           end.
    discriminate.
  - unfold getConfig, sectioned.
    cbn [forallb snd section_ok flat scalar map plugins_items andb fst].
    now rewrite assets_flat.
  - reflexivity.
  - unfold getConfig. cbn [depth fold_right snd map plugins_items fst].
    assert (H : fold_right (fun x acc => Nat.max (depth x) acc) 0
                  (map asset_dict (getAssets (assetsTable self))) <= 1).
    { induction (getAssets (assetsTable self)) as [|a l IH];
        cbn [map fold_right]; [lia|].
      change (depth (asset_dict a)) with 1. lia. }
    revert H. generalize (fold_right (fun x acc => Nat.max (depth x) acc) 0
                  (map asset_dict (getAssets (assetsTable self)))).
    intros n Hn. cbn. lia.
Qed.

End Config.

(* ================================================================== *)
(** * The command builder *)
(* ================================================================== *)

Section Command.

Import AssetsInterface MainInterface.

Lemma buildCommand_some (self : FormState) :
  fileEdit self <> [] ->
  buildCommand self = (Some (join (u " ") (cmd_parts self)), []).
Proof.
  intros H. unfold buildCommand. apply truthy_true in H. now rewrite H.
Qed.

(** C6. With an empty Python file field [buildCommand] shows the error
    pop-up and returns [None], whatever the rest of the form holds, and
    [startPackage] then does nothing more: it neither switches to the log
    page nor starts the packaging worker. *)
Theorem missing_file_reported
  (findCCache : option str) (dirname : str -> str) (self : FormState) :
  fileEdit self = [] ->
  buildCommand self
  = (None, [InfoBar_error (u "错误") (u "请选择要打包的Python文件！")])
  /\ startPackage findCCache dirname self
     = [InfoBar_error (u "错误") (u "请选择要打包的Python文件！")]
  /\ (forall c e d,
        ~ In (logInterface_startPackage c e d)
             (startPackage findCCache dirname self))
  /\ (forall other,
        fileEdit other = [] -> buildCommand other = buildCommand self).
Proof.
  intros H.
  assert (E : forall s, fileEdit s = [] ->
              buildCommand s
              = (None,
                 [InfoBar_error (u "错误") (u "请选择要打包的Python文件！")])).
  { intros s Hs. unfold buildCommand. now rewrite Hs. }
  split; [now apply E|]. split; [|split].
  - unfold startPackage. now rewrite (E _ H).
  - intros c e d. unfold startPackage. rewrite (E _ H).
    intros [Hin|[]]. discriminate.
  - intros other Ho. now rewrite (E _ H), (E _ Ho).
Qed.

Lemma missing_file_reported_witness :
  startPackage None (fun p => p) (set_extraEdit (u "--jobs=4") initial_form)
  = [InfoBar_error (u "错误") (u "请选择要打包的Python文件！")].
Proof.
  exact (proj1 (proj2 (@missing_file_reported None (fun p => p)
                         (set_extraEdit (u "--jobs=4") initial_form)
                         eq_refl))).
Defined.

Example startPackage_with_file :
  startPackage None (fun _ => u "/src") (set_fileEdit (u "/src/a.py") initial_form)
  = [ switchTo_logInterface;
      logInterface_startPackage
        (u "python -m nuitka --standalone --assume-yes-for-downloads --show-progress --show-memory --remove-output --follow-imports /src/a.py")
        [] (Some (u "/src")) ].
Proof. reflexivity. Qed.

(** ** Flipping a switch *)

Lemma inserted_here (f : str) (rest : list str) :
  inserted f (when true f ++ rest) (when false f ++ rest).
Proof. exists [], rest. split; reflexivity. Qed.

Lemma inserted_skip (f : str) (block t t' : list str) :
  inserted f t t' -> inserted f (block ++ t) (block ++ t').
Proof.
  intros (l1 & l2 & -> & ->). exists (block ++ l1), l2.
  now rewrite <- !app_assoc.
Qed.

Lemma swapped_skip (x y : str) (block t t' : list str) :
  swapped x y t t' -> swapped x y (block ++ t) (block ++ t').
Proof.
  intros (l1 & l2 & -> & ->). exists (block ++ l1), l2.
  now rewrite <- !app_assoc.
Qed.

Lemma swapped_here (x y : str) (rest : list str) :
  swapped x y ([x] ++ rest) ([y] ++ rest).
Proof. exists [], rest. split; reflexivity. Qed.

Lemma inserted_length (f : str) (t t' : list str) :
  inserted f t t' -> length t = S (length t').
Proof.
  intros (l1 & l2 & -> & ->). rewrite !length_app. simpl. lia.
Qed.

Lemma one_part_apart_length (f : str) (t t' : list str) :
  one_part_apart f t t' -> length t <> length t'.
Proof.
  intros (l1 & l2 & [[-> ->]|[-> ->]]); rewrite !length_app; simpl; lia.
Qed.

Ltac unfold_parts :=
  unfold cmd_parts;
  cbn [setChecked set_autoDownloadSwitch set_consoleSwitch set_progressSwitch
       set_memorySwitch set_removeSwitch set_ccacheSwitch set_lowMemorySwitch
       set_ltoSwitch set_followImportsSwitch set_uacSwitch
       pythonEdit fileEdit standaloneRadio outputDirEdit nameEdit iconEdit
       compilerCombo gccPathEdit autoDownloadSwitch consoleSwitch
       progressSwitch memorySwitch removeSwitch ccacheSwitch lowMemorySwitch
       ltoSwitch plugins customEdit followImportsSwitch includeEdit
       excludeEdit dataEdit assetsTable companyEdit productEdit versionEdit
       descEdit uacSwitch extraEdit negb].

Lemma switch_inserts_flag (self : FormState) (w : switch) (f : str)
  (pos : bool) :
  switch_flag w = Some (f, pos) ->
  inserted f (cmd_parts (setChecked w pos self))
             (cmd_parts (setChecked w (negb pos) self)).
Proof.
  destruct w; cbn [switch_flag]; intros E; try discriminate;
    injection E as <- <-; destruct self; unfold_parts;
    repeat match goal with
           | |- inserted ?f (when true ?f ++ ?r) (when false ?f ++ ?r) =>
               exact (inserted_here f r)
           | |- inserted ?f (?b ++ ?t) (?b ++ ?t') =>
               apply (@inserted_skip f b t t')
           end.
Qed.

Lemma flip_setChecked (self : FormState) (w : switch) :
  setChecked w (isChecked w self) self = self.
Proof. destruct w, self; reflexivity. Qed.

(** With the Python file set and every other widget as [setupUI] leaves
    it, flipping the follow-imports switch replaces [--follow-imports] by
    [--nofollow-imports]: the command has as many parts as before, so it
    did not change by one part appended or removed. *)
Lemma flip_followImports_replaces :
  let self := set_fileEdit (u "a.py") initial_form in
  fst (buildCommand self)
  = Some (u "python -m nuitka --standalone --assume-yes-for-downloads --show-progress --show-memory --remove-output --follow-imports a.py")
  /\ fst (buildCommand (flip followImports self))
     = Some (u "python -m nuitka --standalone --assume-yes-for-downloads --show-progress --show-memory --remove-output --nofollow-imports a.py")
  /\ forall f,
       ~ one_part_apart f (cmd_parts self)
                          (cmd_parts (flip followImports self)).
Proof.
  cbv zeta. split; [reflexivity|]. split; [reflexivity|].
  intros f H. apply one_part_apart_length in H. apply H. reflexivity.
Qed.

(** C2, as the code has it.  Eight switches have a fixed literal flag:
    the flag is one part of the command when the switch is on (for the
    console switch: when it is off), flipping the switch inserts or removes
    that one part, and all other parts stay as they are.  The follow-imports
    switch replaces one part by another, and the ccache switch leaves the
    command as it is.  In each case the command is the parts joined by
    single spaces. *)
Theorem flip_switch_changes_one_part (self : FormState) :
  (forall w f pos,
     switch_flag w = Some (f, pos) ->
     inserted f (cmd_parts (setChecked w pos self))
                (cmd_parts (setChecked w (negb pos) self))
     /\ one_part_apart f (cmd_parts self) (cmd_parts (flip w self)))
  /\ swapped
       (if truthy (includeEdit self)
        then u "--follow-import-to=" ++ replace (ch " ") [] (includeEdit self)
        else u "--follow-imports")
       (u "--nofollow-imports")
       (cmd_parts (setChecked followImports true self))
       (cmd_parts (setChecked followImports false self))
  /\ cmd_parts (flip ccache self) = cmd_parts self
  /\ (forall w,
        buildCommand (flip w self)
        = if truthy (fileEdit self)
          then (Some (join (u " ") (cmd_parts (flip w self))), [])
          else (None,
                [InfoBar_error (u "错误") (u "请选择要打包的Python文件！")])).
Proof.
  split; [|split; [|split]].
  - intros w f pos E. split; [now apply switch_inserts_flag|].
    pose proof (switch_inserts_flag self _ E) as (l1 & l2 & H1 & H2).
    exists l1, l2. unfold flip.
    destruct (Bool.bool_dec (isChecked w self) pos) as [Ec|Ec].
    + subst pos. rewrite flip_setChecked in H1. right. auto.
    + assert (Ec' : pos = negb (isChecked w self))
        by (destruct (isChecked w self), pos; simpl; congruence).
      subst pos. rewrite negb_involutive, flip_setChecked in H2.
      left. auto.
  - destruct self. unfold_parts.
    repeat match goal with
           | |- swapped ?x ?y ((if ?c then _ else _) ++ ?r) ([?y] ++ ?r) =>
               destruct c; exact (swapped_here _ y r)
           | |- swapped ?x ?y (?b ++ ?t) (?b ++ ?t') =>
               apply (@swapped_skip x y b t t')
           end.
  - destruct self. reflexivity.
  - intros w. unfold buildCommand.
    assert (E : fileEdit (flip w self) = fileEdit self)
      by (destruct w, self; reflexivity).
    rewrite E. destruct (truthy (fileEdit self)); reflexivity.
Qed.

(** ** Joining with spaces *)

Lemma split_not_nil (c : char) (s : str) : split c s <> [].
Proof.
  destruct s as [|x s]; simpl; [discriminate|].
  destruct (x =? c)%N; [discriminate|]. destruct (split c s); discriminate.
Qed.

Lemma split_app_sep (c : char) (a b : str) :
  split c (a ++ c :: b) = split c a ++ split c b.
Proof.
  induction a as [|x a IH]; simpl.
  - now rewrite N.eqb_refl.
  - destruct (x =? c)%N.
    + now rewrite IH.
    + rewrite IH. pose proof (split_not_nil c a) as Hn.
      destruct (split c a); [congruence | reflexivity].
Qed.

Lemma join_cons (sep p q : str) (rest : list str) :
  join sep (p :: q :: rest) = p ++ sep ++ join sep (q :: rest).
Proof. reflexivity. Qed.

Lemma split_join (c : char) (parts : list str) :
  parts <> [] -> split c (join [c] parts) = flat_map (split c) parts.
Proof.
  induction parts as [|p rest IH]; intros Hne; [congruence|].
  destruct rest as [|q rest'].
  - simpl. now rewrite app_nil_r.
  - rewrite join_cons. change ([c] ++ join [c] (q :: rest'))
      with (c :: join [c] (q :: rest')).
    rewrite split_app_sep, IH by discriminate. reflexivity.
Qed.

Lemma split_no_sep (c : char) (s t : str) : In t (split c s) -> ~ In c t.
Proof.
  revert t. induction s as [|x s IH]; simpl; intros t Hin.
  - destruct Hin as [<-|[]]. intros [].
  - destruct (N.eqb_spec x c) as [->|Hx].
    + destruct Hin as [<-|Hin]; [intros [] | now apply IH].
    + pose proof (split_not_nil c s) as Hn.
      destruct (split c s) as [|h tl]; [congruence|].
      destruct Hin as [<-|Hin].
      * intros [E|Hc]; [congruence|]. apply (IH h); [now left | exact Hc].
      * apply IH. now right.
Qed.

Lemma split_length_with_sep (c : char) (s : str) :
  In c s -> 2 <= List.length (split c s).
Proof.
  intros Hin. apply in_split in Hin as (a & b & ->).
  rewrite split_app_sep, length_app.
  pose proof (split_not_nil c a). pose proof (split_not_nil c b).
  destruct (split c a), (split c b); simpl; try congruence; lia.
Qed.

Lemma ends_with_here (f : str) : ends_with f [f].
Proof. now exists []. Qed.

Lemma ends_with_skip (f : str) (block t : list str) :
  ends_with f t -> ends_with f (block ++ t).
Proof. intros [m ->]. exists (block ++ m). now rewrite app_assoc. Qed.

Lemma cmd_parts_shape (self : FormState) :
  exists middle,
    cmd_parts self
    = or_else (pythonEdit self) (u "python") :: u "-m" :: u "nuitka"
      :: middle ++ [fileEdit self].
Proof.
  assert (H : exists t, cmd_parts self
                = [or_else (pythonEdit self) (u "python"); u "-m"; u "nuitka"]
                  ++ t /\ ends_with (fileEdit self) t).
  { unfold cmd_parts. eexists. split; [reflexivity|].
    repeat match goal with
           | |- ends_with ?f [?f] => exact (ends_with_here f)
           | |- ends_with ?f (?b ++ ?t) => apply (@ends_with_skip f b t)
           end. }
  destruct H as (t & -> & m & ->). now exists m.
Qed.

Lemma when_truthy_in (pre t : str) (parts : list str) :
  t <> [] -> In (pre ++ t) (when (truthy t) (pre ++ t) ++ parts).
Proof.
  intros H. apply truthy_true in H. rewrite H. now left.
Qed.

Lemma verbatim_in_parts (self : FormState) (pre t : str) :
  In (pre, t) (verbatim_fields self) -> t <> [] ->
  In (pre ++ t) (cmd_parts self).
Proof.
  intros Hin Ht. unfold verbatim_fields in Hin. cbn [In] in Hin.
  destruct (cmd_parts_shape self) as [middle Hshape].
  apply truthy_true in Ht.
  repeat (destruct Hin as [E|Hin]; [injection E as <- <-|]);
    try (destruct Hin);
    try solve
      [ unfold cmd_parts;
        repeat match goal with
               | |- In _ (when (truthy ?t) _ ++ _) =>
                   apply in_or_app;
                   first [ left; rewrite Ht; left; reflexivity | right ]
               | |- In _ (_ ++ _) => apply in_or_app; right
               end ].
  - rewrite Hshape. left. unfold or_else. now rewrite Ht.
  - rewrite Hshape. right. right. right. apply in_app_iff. right. now left.
Qed.

(** With the include field holding [a, b], the command carries [a,b]:
    the text of the field does not occur in the command. *)
Lemma include_field_not_verbatim :
  let self := set_includeEdit (u "a, b")
                (set_fileEdit (u "main.py") initial_form) in
  fst (buildCommand self)
  = Some (u "python -m nuitka --standalone --assume-yes-for-downloads --show-progress --show-memory --remove-output --follow-import-to=a,b main.py")
  /\ includeEdit self = u "a, b"
  /\ forall cmd, fst (buildCommand self) = Some cmd ->
                 contains (includeEdit self) cmd = false.
Proof.
  cbv zeta. split; [reflexivity|]. split; [reflexivity|].
  intros cmd E. vm_compute in E. injection E as <-. reflexivity.
Qed.

(** C10, as the code has it.  The command is the parts joined by single
    spaces, the first part being the interpreter path (or [python]) and the
    last the script path.  The interpreter path, the script path and the
    single-line output and Windows fields are inserted as they are; so
    splitting the command at spaces gives the space-separated pieces of
    every part, nothing being quoted or escaped.  An interpreter or script
    path with a space in it therefore falls into two or more tokens, which
    start (or end) the token list of the command, and is itself no token of
    the command. *)
Theorem buildCommand_no_quoting (self : FormState) :
  fileEdit self <> [] ->
  exists cmd middle,
    fst (buildCommand self) = Some cmd
    /\ cmd = join (u " ") (cmd_parts self)
    /\ cmd_parts self
       = or_else (pythonEdit self) (u "python") :: u "-m" :: u "nuitka"
         :: middle ++ [fileEdit self]
    /\ (forall pre t,
          In (pre, t) (verbatim_fields self) -> t <> [] ->
          In (pre ++ t) (cmd_parts self) /\ contains (pre ++ t) cmd = true)
    /\ split (ch " ") cmd = flat_map (split (ch " ")) (cmd_parts self)
    /\ split (ch " ") cmd
       = split (ch " ") (or_else (pythonEdit self) (u "python"))
         ++ [u "-m"; u "nuitka"]
         ++ flat_map (split (ch " ")) middle
         ++ split (ch " ") (fileEdit self)
    /\ (forall path,
          path = pythonEdit self \/ path = fileEdit self ->
          In (ch " ") path ->
          2 <= List.length (split (ch " ") path)
          /\ ~ In path (split (ch " ") cmd)).
Proof.
  intros Hf. destruct (cmd_parts_shape self) as [middle Hshape].
  exists (join (u " ") (cmd_parts self)), middle.
  assert (Hsplit : split (ch " ") (join (u " ") (cmd_parts self))
                   = flat_map (split (ch " ")) (cmd_parts self)).
  { apply (split_join (ch " ")). rewrite Hshape. discriminate. }
  split; [now rewrite buildCommand_some|]. split; [reflexivity|].
  split; [exact Hshape|]. split; [|split; [exact Hsplit|split]].
  - intros pre t Hin Ht. pose proof (@verbatim_in_parts self pre t Hin Ht) as H.
    split; [exact H | now apply contains_join].
  - rewrite Hsplit, Hshape. cbn [flat_map].
    rewrite flat_map_app. cbn [flat_map]. rewrite app_nil_r.
    reflexivity.
  - intros path _ Hsp. split; [now apply split_length_with_sep|].
    intros Hin. now apply split_no_sep in Hin.
Qed.

Lemma buildCommand_no_quoting_witness :
  split (ch " ")
    (join (u " ")
       (cmd_parts (set_pythonEdit (u "C:/Program Files/py/python.exe")
                     (set_fileEdit (u "my app.py") initial_form))))
  = [ u "C:/Program"; u "Files/py/python.exe"; u "-m"; u "nuitka";
      u "--standalone"; u "--assume-yes-for-downloads"; u "--show-progress";
      u "--show-memory"; u "--remove-output"; u "--follow-imports";
      u "my"; u "app.py" ].
Proof.
  destruct (@buildCommand_no_quoting
              (set_pythonEdit (u "C:/Program Files/py/python.exe")
                 (set_fileEdit (u "my app.py") initial_form))
              ltac:(discriminate))
    as (cmd & middle & _ & -> & _ & _ & H & _).
  rewrite H. reflexivity.
Defined.

(** ** Where a flag can occur in the command *)

Lemma startswith_through_sep (c : char) (f a b : str) :
  ~ In c f -> startswith (a ++ c :: b) f = true -> startswith a f = true.
Proof.
  revert a. induction f as [|y f IH]; intros a Hn H; [reflexivity|].
  destruct a as [|x a]; simpl in H.
  - apply andb_prop in H as [E _]. apply N.eqb_eq in E.
    exfalso. apply Hn. now left.
  - apply andb_prop in H as [E H]. simpl. rewrite E. simpl.
    apply IH; [|exact H]. intros Hin. apply Hn. now right.
Qed.

Lemma startswith_contains (s f : str) :
  startswith s f = true -> contains f s = true.
Proof. intros H. destruct s; simpl; now rewrite H. Qed.

Lemma contains_sep_split (c : char) (f a b : str) :
  ~ In c f -> contains f (a ++ c :: b) = true ->
  contains f a = true \/ contains f b = true.
Proof.
  intros Hn. induction a as [|x a IH]; intros H.
  - cbn [app contains] in H. apply orb_prop in H as [H|H]; [|now right].
    left. apply startswith_contains.
    now apply (startswith_through_sep c f [] b).
  - change ((x :: a) ++ c :: b) with (x :: (a ++ c :: b)) in H.
    cbn [contains] in H. apply orb_prop in H as [H|H].
    + left. apply startswith_contains.
      now apply (startswith_through_sep c f (x :: a) b).
    + destruct (IH H) as [H'|H']; [left|now right].
      cbn [contains]. rewrite H'. apply orb_true_r.
Qed.

Lemma contains_join_inv (c : char) (f : str) (parts : list str) :
  ~ In c f -> parts <> [] -> contains f (join [c] parts) = true ->
  exists p, In p parts /\ contains f p = true.
Proof.
  intros Hn. induction parts as [|p rest IH]; intros Hne H; [congruence|].
  destruct rest as [|q rest'].
  - exists p. split; [now left | exact H].
  - rewrite join_cons in H.
    change ([c] ++ join [c] (q :: rest'))
      with (c :: join [c] (q :: rest')) in H.
    apply (contains_sep_split c) in H as [H|H]; [| |exact Hn].
    + exists p. split; [now left | exact H].
    + destruct (IH ltac:(discriminate) H) as (p' & Hin & Hp').
      exists p'. split; [now right | exact Hp'].
Qed.

Lemma startswith_app_inv (pre t f : str) :
  startswith (pre ++ t) f = true ->
  pre = [] \/ startswith pre f || startswith f pre = true.
Proof.
  revert f. induction pre as [|x pre IH]; intros f H; [now left|]. right.
  destruct f as [|y f]; [reflexivity|].
  simpl in H. apply andb_prop in H as [E H]. simpl.
  apply N.eqb_eq in E. subst y. rewrite N.eqb_refl. simpl.
  destruct (IH _ H) as [->|H']; [|exact H'].
  destruct f; reflexivity.
Qed.

Lemma clean_contains (f pre t : str) :
  clean f pre = true -> contains f (pre ++ t) = true -> contains f t = true.
Proof.
  induction pre as [|x pre IH]; intros Hc H; [exact H|].
  cbn [clean] in Hc. apply andb_prop in Hc as [Hx Hc].
  apply negb_true_iff in Hx.
  change ((x :: pre) ++ t) with (x :: (pre ++ t)) in H.
  cbn [contains] in H. apply orb_prop in H as [H|H].
  - apply (startswith_app_inv (x :: pre) t) in H as [H|H];
      [discriminate | congruence].
  - now apply IH.
Qed.

Lemma contains_refl (f : str) : contains f f = true.
Proof. rewrite <- (app_nil_r f) at 2. apply (contains_app [] f []). Qed.

Lemma contains_prefix (pre t : str) : contains pre (pre ++ t) = true.
Proof. apply (contains_app [] pre t). Qed.

Lemma contains_after (f pre t : str) :
  contains f t = true -> contains f (pre ++ t) = true.
Proof.
  intros H. apply contains_inv in H as (a & b & ->).
  rewrite app_assoc. apply contains_app.
Qed.

Lemma contains_in_join (sep f p : str) (parts : list str) :
  In p parts -> contains f p = true -> contains f (join sep parts) = true.
Proof.
  intros Hin Hc. apply contains_inv in Hc as (a' & b' & ->).
  apply (contains_join sep) in Hin. apply contains_inv in Hin as (a & b & E).
  rewrite E.
  replace (a ++ (a' ++ f ++ b') ++ b) with ((a ++ a') ++ f ++ (b' ++ b))
    by now rewrite <- !app_assoc.
  apply contains_app.
Qed.

Lemma distinct_keys (l : list (str * bool)) (k : str) (a b : bool) :
  distinct (map fst l) = true -> In (k, a) l -> In (k, b) l -> a = b.
Proof.
  induction l as [|[k' c] l IH]; intros Hd Ha Hb; [destruct Ha|].
  cbn [map fst distinct] in Hd. apply andb_prop in Hd as [Hn Hd].
  apply negb_true_iff in Hn.
  assert (Hout : forall v, In (k', v) l -> False).
  { intros v Hv. apply (in_map fst) in Hv. cbn [fst] in Hv.
    assert (H : existsb (str_eqb k') (map fst l) = true).
    { apply existsb_exists. exists k'. split; [exact Hv | apply str_eqb_refl]. }
    congruence. }
  destruct Ha as [Ea|Ha], Hb as [Eb|Hb].
  - congruence.
  - injection Ea as -> _. destruct (Hout _ Hb).
  - injection Eb as -> _. destruct (Hout _ Ha).
  - now apply IH.
Qed.

(** ** The options and their flags *)

Lemma flags_apart_ok : flags_apart = true.
Proof. vm_compute. reflexivity. Qed.

Lemma flag_text_facts (f : str) :
  In f flag_texts ->
  f <> [] /\ ~ In (ch " ") f /\ ~ In (ch ",") f
  /\ (forall w, In w [u "python"; u "-m"; u "nuitka"] -> contains f w = false)
  /\ (forall g, In g flag_texts -> contains f g = true -> f = g)
  /\ (forall g, In g prefixes -> clean f g = false -> f = g).
Proof.
  intros Hin. pose proof flags_apart_ok as H. unfold flags_apart in H.
  apply andb_prop in H as [_ H]. rewrite forallb_forall in H.
  specialize (H f Hin).
  apply andb_prop in H as [H H6]. apply andb_prop in H as [H H5].
  apply andb_prop in H as [H H4]. apply andb_prop in H as [H H3].
  apply andb_prop in H as [H1 H2].
  rewrite forallb_forall in H4, H5, H6.
  apply negb_true_iff in H2, H3.
  split; [now apply truthy_true|].
  split; [now apply contains_char_false|].
  split; [now apply contains_char_false|].
  split; [|split].
  - intros w Hw. apply negb_true_iff. now apply H4.
  - intros g Hg Hc. specialize (H5 g Hg). rewrite Hc in H5.
    now apply str_eqb_eq.
  - intros g Hg Hc. specialize (H6 g Hg). rewrite Hc in H6.
    now apply str_eqb_eq.
Qed.

Lemma option_flags_texts (self : FormState) :
  map fst (option_flags self) = flag_texts.
Proof. reflexivity. Qed.

Lemma option_flags_function (self : FormState) (f : str) (a b : bool) :
  In (f, a) (option_flags self) -> In (f, b) (option_flags self) -> a = b.
Proof.
  apply distinct_keys. rewrite option_flags_texts.
  pose proof flags_apart_ok as H. unfold flags_apart in H.
  now apply andb_prop in H as [H _].
Qed.

Ltac find_in :=
  lazymatch goal with
  | |- In ?x (?x :: _) => apply in_eq
  | |- In _ (_ :: _) => apply in_cons; find_in
  | |- In _ (_ ++ _) =>
      apply in_or_app; first [ left; find_in | right; find_in ]
  | |- In _ _ => assumption
  end.

Ltac in_user_texts := unfold user_texts; find_in.

Ltac in_prefixes := unfold prefixes; find_in.

Lemma all_toggles_complete (o : toggle) : In o all_toggles.
Proof. destruct o; unfold all_toggles; find_in. Qed.

Lemma all_options_complete (o : option_id) : In o all_options.
Proof. destruct o as [[]| | | | | | | | | | | | | |]; unfold all_options; find_in. Qed.

Lemma toggle_in_flags (self : FormState) (o : toggle) :
  In (flag o, enabled_option self o) (option_flags self).
Proof.
  unfold option_flags. apply in_or_app. left.
  apply (in_map (fun o => (flag o, enabled_option self o))).
  apply all_toggles_complete.
Qed.

Lemma plugin_in_flags (self : FormState) (item : str * bool) :
  In item (plugins_items (plugins self)) -> In item (option_flags self).
Proof.
  intros H. unfold option_flags. apply in_or_app. right.
  apply in_or_app. now right.
Qed.

Lemma checked_plugin (pl : pluginChecks) (name : str) :
  In name (map fst (filter snd (plugins_items pl)))
  <-> In (name, true) (plugins_items pl).
Proof.
  rewrite in_map_iff. split.
  - intros ([n b] & <- & H). apply filter_In in H as [H Hb].
    cbn [snd] in Hb. subst b. exact H.
  - intros H. exists (name, true). split; [reflexivity|].
    apply filter_In. now split.
Qed.

Lemma getAssets_type (t : table) (a : asset) :
  In a (getAssets t) -> a_type a = u "file" \/ a_type a = u "folder".
Proof.
  unfold getAssets. intros H. apply in_map_iff in H as (r & <- & _).
  cbn [a_type]. destruct (str_eqb (type_text r) (u "文件")); auto.
Qed.

Lemma folder_not_file : str_eqb (u "folder") (u "file") = false.
Proof. vm_compute. reflexivity. Qed.

Lemma app_eq (A : Type) (a a' b b' : list A) :
  a = a' -> b = b' -> a ++ b = a' ++ b'.
Proof. now intros -> ->. Qed.

Lemma app_eq2 (A : Type) (a a1 a2 b b' : list A) :
  a = a1 ++ a2 -> b = b' -> a ++ b = a1 ++ a2 ++ b'.
Proof. intros -> ->. now rewrite app_assoc. Qed.

Lemma app_eq3 (A : Type) (a a1 a2 a3 b b' : list A) :
  a = a1 ++ a2 ++ a3 -> b = b' -> a ++ b = a1 ++ a2 ++ a3 ++ b'.
Proof. intros -> ->. now rewrite <- !app_assoc. Qed.

(** The parts of the command are the interpreter, [-m], [nuitka], what
    each option contributes, in the order of [all_options], and the Python
    file. *)
Lemma cmd_parts_options (self : FormState) :
  cmd_parts self
  = [or_else (pythonEdit self) (u "python"); u "-m"; u "nuitka"]
    ++ flat_map (option_parts self) all_options ++ [fileEdit self].
Proof.
  unfold cmd_parts, all_options. cbv zeta.
  cbn [flat_map option_parts enabled_option flag].
  apply (f_equal (app _)). rewrite <- !app_assoc.
  apply app_eq2; [destruct (standaloneRadio self); reflexivity|].
  apply app_eq; [reflexivity|].
  apply app_eq3; [destruct (compilerCombo self); reflexivity|].
  do 10 (apply app_eq; [reflexivity|]).
  apply app_eq.
  { cbn [option_parts].
    destruct (truthy (strip (customEdit self))) eqn:E.
    - destruct (stripped_lines (strip (customEdit self))); reflexivity.
    - apply truthy_false in E. rewrite E. reflexivity. }
  apply app_eq3.
  { cbn [option_parts enabled_option flag].
    destruct (followImportsSwitch self), (truthy (includeEdit self));
      reflexivity. }
  apply app_eq; [reflexivity|].
  apply app_eq.
  { cbn [option_parts].
    destruct (truthy (strip (dataEdit self))) eqn:E.
    - apply map_ext. intros l. destruct (contains (u "=") l); reflexivity.
    - apply truthy_false in E. rewrite E. reflexivity. }
  apply app_eq.
  { cbn [option_parts].
    assert (H : forall a, In a (getAssets (assetsTable self)) ->
                a_type a = u "file" \/ a_type a = u "folder")
      by apply getAssets_type.
    induction (getAssets (assetsTable self)) as [|a l IH]; [reflexivity|].
    cbn [flat_map]. rewrite IH by (intros x Hx; apply H; now right).
    apply (f_equal (fun x => x ++ _)).
    destruct (enabled a); [|reflexivity].
    destruct (H a (or_introl eq_refl)) as [E|E]; rewrite E.
    - rewrite str_eqb_refl. reflexivity.
    - rewrite folder_not_file, str_eqb_refl. reflexivity. }
  do 5 (apply app_eq; [reflexivity|]).
  apply app_eq; [|reflexivity].
  cbn [option_parts].
  destruct (truthy (strip (extraEdit self))) eqn:E; [reflexivity|].
  apply truthy_false in E. rewrite E. reflexivity.
Qed.

Lemma option_part_in_parts (self : FormState) (o : option_id) (p : str) :
  In p (option_parts self o) -> In p (cmd_parts self).
Proof.
  intros H. rewrite cmd_parts_options. apply in_or_app. right.
  apply in_or_app. left. apply in_flat_map. exists o.
  split; [apply all_options_complete | exact H].
Qed.

(** The flag of an enabled literal option is one of the parts. *)
Lemma enabled_flag_in_parts (self : FormState) (o : toggle) :
  enabled_option self o = true -> In (flag o) (cmd_parts self).
Proof.
  intros E. apply (@option_part_in_parts self (opt_toggle o)).
  cbn [option_parts]. rewrite E. now left.
Qed.

(** A part that is the text [pre] followed by a value. *)
Ltac part_of o pre value :=
  exists (pre ++ value);
  split; [apply (@option_part_in_parts _ o); cbn [option_parts]
         | apply contains_prefix].

(** Every flag the form asks for occurs in one of the parts. *)
Lemma flag_generated (self : FormState) (f : str) :
  In (f, true) (option_flags self) ->
  exists p, In p (cmd_parts self) /\ contains f p = true.
Proof.
  unfold option_flags. intros H.
  apply in_app_or in H as [H|H]; [|apply in_app_or in H as [H|H]].
  - (* a literal flag *)
    apply in_map_iff in H as (o & E & _). injection E as <- E.
    exists (flag o). split; [now apply enabled_flag_in_parts|].
    apply contains_refl.
  - (* a flag with a value *)
    cbn [In] in H.
    destruct H as [E|H];
      [injection E as <- E;
       part_of opt_output_dir (u "--output-dir=") (outputDirEdit self);
       rewrite E; now left|].
    destruct H as [E|H];
      [injection E as <- E;
       part_of opt_output_filename (u "--output-filename=") (nameEdit self);
       rewrite E; now left|].
    destruct H as [E|H];
      [injection E as <- E;
       part_of opt_icon (u "--windows-icon-from-ico=") (iconEdit self);
       rewrite E; now left|].
    destruct H as [E|H].
    { injection E as <- E.
      change (existsb snd (plugins_items (plugins self))
              || existsb (fun _ => true)
                   (stripped_lines (strip (customEdit self))) = true) in E.
      apply orb_prop in E as [E|E].
      - part_of opt_plugin_boxes (u "--enable-plugin=")
          (join (u ",") (map fst (filter snd (plugins_items (plugins self))))).
        apply existsb_exists in E as ([n b] & Hn & Hb).
        cbn [snd] in Hb. subst b. apply checked_plugin in Hn.
        destruct (map fst (filter snd (plugins_items (plugins self))));
          [destruct Hn | now left].
      - part_of opt_custom_plugins (u "--enable-plugin=")
          (join (u ",") (stripped_lines (strip (customEdit self)))).
        destruct (stripped_lines (strip (customEdit self)));
          [discriminate E | now left]. }
    destruct H as [E|H];
      [injection E as <- E;
       part_of opt_include (u "--follow-import-to=")
         (replace (ch " ") [] (includeEdit self));
       rewrite E; now left|].
    destruct H as [E|H].
    { injection E as <- E.
      destruct (split (ch ",") (excludeEdit self)) as [|e rest] eqn:Es;
        [now apply split_not_nil in Es|].
      part_of opt_exclude (u "--nofollow-import-to=") (strip e).
      rewrite E, Es. now left. }
    destruct H as [E|H].
    { injection E as <- E. apply orb_prop in E as [E|E].
      - apply existsb_exists in E as (l & Hl & El).
        part_of opt_data (u "--include-data-files=") l.
        apply in_map_iff. exists l. split; [now rewrite El | exact Hl].
      - apply existsb_exists in E as (a & Ha & Ea).
        apply andb_prop in Ea as [Ea Et].
        part_of opt_assets (u "--include-data-files=")
          (a_source a ++ u "=" ++ a_target a).
        apply in_flat_map. exists a. split; [exact Ha|].
        rewrite Ea, Et. now left. }
    destruct H as [E|H].
    { injection E as <- E. apply orb_prop in E as [E|E].
      - apply existsb_exists in E as (l & Hl & El).
        apply negb_true_iff in El.
        part_of opt_data (u "--include-data-dir=") l.
        apply in_map_iff. exists l. split; [now rewrite El | exact Hl].
      - apply existsb_exists in E as (a & Ha & Ea).
        apply andb_prop in Ea as [Ea Et]. apply str_eqb_eq in Et.
        part_of opt_assets (u "--include-data-dir=")
          (a_source a ++ u "=" ++ a_target a).
        apply in_flat_map. exists a. split; [exact Ha|].
        rewrite Ea, Et. now left. }
    destruct H as [E|H];
      [injection E as <- E;
       part_of opt_company (u "--windows-company-name=") (companyEdit self);
       rewrite E; now left|].
    destruct H as [E|H];
      [injection E as <- E;
       part_of opt_product (u "--windows-product-name=") (productEdit self);
       rewrite E; now left|].
    destruct H as [E|H];
      [injection E as <- E;
       part_of opt_version (u "--windows-file-version=") (versionEdit self);
       rewrite E; now left|].
    destruct H as [E|H];
      [injection E as <- E;
       part_of opt_description (u "--windows-file-description=")
         (descEdit self);
       rewrite E; now left|].
    destruct H.
  - (* the name of a checked plugin *)
    apply checked_plugin in H.
    exists (u "--enable-plugin="
            ++ join (u ",") (map fst (filter snd (plugins_items (plugins self))))).
    split.
    + apply (@option_part_in_parts _ opt_plugin_boxes). cbn [option_parts].
      destruct (map fst (filter snd (plugins_items (plugins self))));
        [destruct H | now left].
    + apply contains_after. now apply contains_join.
Qed.

(** The flag is in the value [x] of the part, or it is (or runs over) the
    prefix [g] of the part. *)
Ltac prefixed Hc x in_table :=
  match type of Hc with
  | contains ?f (?g ++ _) = true =>
      let C := fresh "C" in
      destruct (clean f g) eqn:C;
      [ apply clean_contains in Hc; [|exact C];
        left; exists x; split; [in_user_texts | exact Hc]
      | right; left; exists g;
        split; [unfold option_flags; in_table; find_in
               | right; split; [in_prefixes | exact C]] ]
  end.

Ltac valued Hin Hc x :=
  let E := fresh "E" in
  destruct (truthy x) eqn:E; [destruct Hin as [<-|[]] | destruct Hin];
  prefixed Hc x ltac:(rewrite E).

(** Where a flag that occurs in a part of the command comes from: from a
    text of the user, from a flag the form asks for, or from one of the
    three fixed words. *)
Lemma part_origin (self : FormState) (f p : str) :
  ~ In (ch ",") f ->
  In p (cmd_parts self) -> contains f p = true ->
  (exists t, In t (user_texts self) /\ contains f t = true)
  \/ (exists g, In (g, true) (option_flags self)
                /\ (contains f g = true
                    \/ In g prefixes /\ clean f g = false))
  \/ (exists w, In w [u "python"; u "-m"; u "nuitka"]
                /\ contains f w = true).
Proof.
  intros Hcomma Hin Hc. rewrite cmd_parts_options in Hin.
  apply in_app_or in Hin as [Hin|Hin].
  { destruct Hin as [<-|Hin].
    - unfold or_else in Hc. destruct (truthy (pythonEdit self)).
      + left. exists (pythonEdit self). split; [in_user_texts | exact Hc].
      + right; right. exists (u "python"). split; [now left | exact Hc].
    - right; right. exists p. split; [now right | exact Hc]. }
  apply in_app_or in Hin as [Hin|Hin].
  2: { destruct Hin as [<-|[]]. left. exists (fileEdit self).
       split; [in_user_texts | exact Hc]. }
  apply in_flat_map in Hin as (o & _ & Hin).
  destruct o as [t| | | | | | | | | | | | | |]; cbn [option_parts] in Hin.
  - (* a literal flag *)
    destruct (enabled_option self t) eqn:E;
      [destruct Hin as [<-|[]] | destruct Hin].
    right; left. exists (flag t). split; [|now left].
    rewrite <- E. apply toggle_in_flags.
  - valued Hin Hc (outputDirEdit self).
  - valued Hin Hc (nameEdit self).
  - valued Hin Hc (iconEdit self).
  - (* plugin check boxes *)
    destruct (map fst (filter snd (plugins_items (plugins self))))
      as [|n names] eqn:E; [destruct Hin | destruct Hin as [<-|[]]].
    destruct (clean f (u "--enable-plugin=")) eqn:C.
    + apply clean_contains in Hc; [|exact C].
      apply (contains_join_inv (ch ",")) in Hc
        as (name & Hname & Hc); [|exact Hcomma|discriminate].
      rewrite <- E in Hname. apply checked_plugin in Hname.
      right; left. exists name. split; [|now left].
      now apply plugin_in_flags.
    + right; left. exists (u "--enable-plugin=").
      split; [|right; split; [in_prefixes | exact C]].
      assert (Hb : existsb snd (plugins_items (plugins self)) = true).
      { apply existsb_exists. exists (n, true). split; [|reflexivity].
        apply checked_plugin. rewrite E. now left. }
      unfold option_flags. rewrite Hb. cbn [orb]. find_in.
  - (* custom plugins *)
    destruct (stripped_lines (strip (customEdit self))) as [|l ls] eqn:E;
      [destruct Hin | destruct Hin as [<-|[]]].
    destruct (clean f (u "--enable-plugin=")) eqn:C.
    + apply clean_contains in Hc; [|exact C]. rewrite <- E in Hc.
      left. exists (join (u ",") (stripped_lines (strip (customEdit self)))).
      split; [in_user_texts | exact Hc].
    + right; left. exists (u "--enable-plugin=").
      split; [|right; split; [in_prefixes | exact C]].
      unfold option_flags. rewrite E. cbn [existsb orb].
      rewrite orb_true_r. find_in.
  - (* modules to follow *)
    destruct (followImportsSwitch self && truthy (includeEdit self)) eqn:E;
      [destruct Hin as [<-|[]] | destruct Hin].
    prefixed Hc (replace (ch " ") [] (includeEdit self)) ltac:(rewrite E).
  - (* excluded modules *)
    destruct (truthy (excludeEdit self)) eqn:E; [|destruct Hin].
    apply in_map_iff in Hin as (e & <- & He).
    apply (in_map strip) in He.
    prefixed Hc (strip e) ltac:(rewrite E).
  - (* data files *)
    apply in_map_iff in Hin as (l & <- & Hl).
    destruct (contains (u "=") l) eqn:El.
    + assert (Hb : existsb (fun data_line => contains (u "=") data_line)
                     (stripped_lines (strip (dataEdit self))) = true)
        by (apply existsb_exists; now exists l).
      prefixed Hc l ltac:(rewrite Hb; cbn [orb]).
    + assert (Hb : existsb (fun data_line => negb (contains (u "=") data_line))
                     (stripped_lines (strip (dataEdit self))) = true)
        by (apply existsb_exists; exists l; now rewrite El).
      prefixed Hc l ltac:(rewrite Hb; cbn [orb]).
  - (* asset rows *)
    apply in_flat_map in Hin as (a & Ha & Hin).
    destruct (enabled a) eqn:En; [destruct Hin as [<-|[]] | destruct Hin].
    pose proof (getAssets_type _ _ Ha) as Ht.
    pose proof (in_map (fun a => a_source a ++ u "=" ++ a_target a) _ _ Ha)
      as Hu. cbv beta in Hu.
    destruct (str_eqb (a_type a) (u "file")) eqn:Ef.
    + assert (Hb : existsb (fun a => enabled a && str_eqb (a_type a) (u "file"))
                     (getAssets (assetsTable self)) = true)
        by (apply existsb_exists; exists a; now rewrite En, Ef).
      prefixed Hc (a_source a ++ u "=" ++ a_target a)
        ltac:(rewrite Hb, orb_true_r).
    + assert (Hb : existsb (fun a => enabled a && str_eqb (a_type a) (u "folder"))
                     (getAssets (assetsTable self)) = true).
      { apply existsb_exists. exists a. split; [exact Ha|]. rewrite En.
        destruct Ht as [Et|Et]; rewrite Et in *; [discriminate Ef|reflexivity]. }
      prefixed Hc (a_source a ++ u "=" ++ a_target a)
        ltac:(rewrite Hb, orb_true_r).
  - valued Hin Hc (companyEdit self).
  - valued Hin Hc (productEdit self).
  - valued Hin Hc (versionEdit self).
  - valued Hin Hc (descEdit self).
  - (* extra arguments *)
    left. exists p. split; [in_user_texts | exact Hc].
Qed.

(** With the LTO switch off and [--lto=yes] typed as an extra argument,
    the command carries the flag of a disabled option. *)
Lemma extra_argument_carries_flag :
  let self := set_extraEdit (u "--lto=yes")
                (set_fileEdit (u "a.py") initial_form) in
  enabled_option self lto = false
  /\ fst (buildCommand self)
     = Some (u "python -m nuitka --standalone --assume-yes-for-downloads --show-progress --show-memory --remove-output --follow-imports --lto=yes a.py")
  /\ forall cmd, fst (buildCommand self) = Some cmd ->
                 contains (flag lto) cmd = true.
Proof.
  cbv zeta. split; [reflexivity|]. split; [reflexivity|].
  intros cmd E. vm_compute in E. injection E as <-. reflexivity.
Qed.

(** C1, as the code has it.  For a form with a Python file, the command is
    the parts joined by single spaces, and the parts are the interpreter,
    [-m], [nuitka], then what each option of the form contributes, in the
    order in which the builder visits the options (nothing for an option
    that is not enabled), and last the Python file.  [option_flags] lists
    every flag the builder can generate with whether the form asks for it:
    the fifteen literal flags, the twelve texts put in front of a value, and
    the eight plugin names of the check boxes.  A flag the form asks for
    occurs in the command; the flag of an enabled literal option is one of
    the parts.  A flag the form does not ask for occurs in the command only
    inside a text taken from the user's free-text fields.  So when none of
    those texts holds the flag, the flag occurs in the command exactly when
    the form asks for it. *)
Theorem buildCommand_flags (self : FormState) :
  fileEdit self <> [] ->
  exists cmd,
    fst (buildCommand self) = Some cmd
    /\ cmd = join (u " ") (cmd_parts self)
    /\ cmd_parts self
       = [or_else (pythonEdit self) (u "python"); u "-m"; u "nuitka"]
         ++ flat_map (option_parts self) all_options ++ [fileEdit self]
    /\ map fst (option_flags self) = flag_texts
    /\ (forall o, In (flag o, enabled_option self o) (option_flags self))
    /\ (forall item, In item (plugins_items (plugins self)) ->
                     In item (option_flags self))
    /\ (forall o, enabled_option self o = true ->
                  In (flag o) (cmd_parts self))
    /\ forall f on,
         In (f, on) (option_flags self) ->
         (on = true ->
          (exists p, In p (cmd_parts self) /\ contains f p = true)
          /\ contains f cmd = true)
         /\ (on = false ->
             contains f cmd = true ->
             exists t, In t (user_texts self) /\ contains f t = true)
         /\ ((forall t, In t (user_texts self) -> contains f t = false) ->
             contains f cmd = on).
Proof.
  intros Hf. exists (join (u " ") (cmd_parts self)).
  split; [now rewrite buildCommand_some|]. split; [reflexivity|].
  split; [apply cmd_parts_options|]. split; [apply option_flags_texts|].
  split; [apply toggle_in_flags|]. split; [apply plugin_in_flags|].
  split; [apply enabled_flag_in_parts|].
  intros f on Hin.
  assert (Hpos : on = true ->
                 (exists p, In p (cmd_parts self) /\ contains f p = true)
                 /\ contains f (join (u " ") (cmd_parts self)) = true).
  { intros ->. destruct (@flag_generated self f Hin) as (p & Hp & Hc).
    split; [now exists p | exact (@contains_in_join (u " ") f p _ Hp Hc)]. }
  assert (Hneg : on = false ->
                 contains f (join (u " ") (cmd_parts self)) = true ->
                 exists t, In t (user_texts self) /\ contains f t = true).
  { intros -> Hc.
    assert (Hft : In f flag_texts).
    { rewrite <- (option_flags_texts self).
      now apply (in_map fst) in Hin. }
    destruct (@flag_text_facts f Hft)
      as (_ & Hspace & Hcomma & Hwords & Hflags & Hprefixes).
    apply (contains_join_inv (ch " ")) in Hc as (p & Hp & Hc);
      [|exact Hspace
       |destruct (cmd_parts_shape self) as [m ->]; discriminate].
    destruct (@part_origin self f p Hcomma Hp Hc)
      as [H|[(g & Hg & H)|(w & Hw & H)]].
    - exact H.
    - assert (Hgt : In g flag_texts).
      { rewrite <- (option_flags_texts self).
        now apply (in_map fst) in Hg. }
      assert (E : f = g).
      { destruct H as [H|[Hpre H]]; [now apply Hflags | now apply Hprefixes]. }
      subst g. pose proof (@option_flags_function self f false true Hin Hg).
      discriminate.
    - rewrite (Hwords w Hw) in H. discriminate. }
  split; [exact Hpos|]. split; [exact Hneg|].
  intros Hclean. destruct on.
  - now apply Hpos.
  - destruct (contains f (join (u " ") (cmd_parts self))) eqn:Hc;
      [|reflexivity].
    destruct (Hneg eq_refl eq_refl) as (t & Ht & Hct).
    rewrite (Hclean t Ht) in Hct. discriminate.
Qed.

Lemma buildCommand_flags_witness :
  exists cmd,
    fst (buildCommand (set_fileEdit (u "a.py") initial_form)) = Some cmd
    /\ contains (flag show_progress) cmd = true.
Proof.
  destruct (@buildCommand_flags (set_fileEdit (u "a.py") initial_form)
              ltac:(discriminate)) as (cmd & E & _ & _ & _ & Ht & _ & _ & H).
  exists cmd. split; [exact E|].
  exact (proj2 (proj1 (H _ _ (Ht show_progress)) eq_refl)).
Defined.

End Command.

(* ================================================================== *)
(** * Further properties of the worker *)
(* ================================================================== *)

Section WorkerMore.

Import PackageThread.

Variable py_int : str -> option Z.

Lemma output_texts_app (a b : list signal) :
  output_texts (a ++ b) = output_texts a ++ output_texts b.
Proof. unfold output_texts. apply flat_map_app. Qed.



Lemma run_signals_shape (self : PackageThread.t) (c : child) :
  exists before success message,
    snd (run py_int self c) = before ++ [finished_signal success message]
    /\ forallb (fun s => negb (is_finished s)) before = true
    /\ (success = true <-> exists p lines, c = exits p lines 0)
    /\ (forall e,
          c = popen_raises e \/ (exists p lines, c = read_raises p lines e) ->
          success = false /\ message = u "打包出错：" ++ e).
Proof.
  destruct c as [e|p lines e|p lines rc].
  - exists (banner self), false, (u "打包出错：" ++ e). cbn [run snd].
    split; [reflexivity|]. split; [apply banner_not_finished|]. split.
    + split; [discriminate | intros (p & l & H); discriminate].
    + intros e' [H|(p & l & H)]; [injection H as <-; now split|discriminate].
  - exists (banner self ++ flat_map (on_line py_int) (iter_readline lines)),
      false, (u "打包出错：" ++ e). cbn [run snd].
    split; [now rewrite <- app_assoc|]. split.
    { now rewrite forallb_app, banner_not_finished, lines_not_finished. }
    split.
    + split; [discriminate | intros (p' & l & H); discriminate].
    + intros e' [H|(p' & l & H)]; [discriminate|].
      injection H as _ _ <-. now split.
  - exists (banner self ++ flat_map (on_line py_int) (iter_readline lines)),
      (rc =? 0)%Z,
      (if (rc =? 0)%Z then u "打包成功完成！"
       else u "打包失败，返回代码：" ++ str_int rc).
    cbn [run snd]. split.
    { rewrite <- app_assoc. now destruct (rc =? 0)%Z. }
    split.
    { now rewrite forallb_app, banner_not_finished, lines_not_finished. }
    split.
    + rewrite Z.eqb_eq. split.
      * intros ->. now exists p, lines.
      * intros (p' & l & H). now injection H.
    + intros e [H|(p' & l & H)]; discriminate.
Qed.

(** Whatever the child does, [run] emits exactly one [finished_signal],
    as its last signal.  Its flag is [True] only when the child exited with
    return code 0; when [Popen] or reading raised, the flag is [False] and
    the message is the error text after the fixed prefix. *)
Theorem run_finishes_once (self : PackageThread.t) (c : child) :
  exists before success message,
    snd (run py_int self c) = before ++ [finished_signal success message]
    /\ forallb (fun s => negb (is_finished s)) before = true
    /\ (success = true <-> exists p lines, c = exits p lines 0)
    /\ (forall e,
          c = popen_raises e \/ (exists p lines, c = read_raises p lines e) ->
          success = false /\ message = u "打包出错：" ++ e).
Proof. apply run_signals_shape. Qed.


End WorkerMore.

(* ================================================================== *)
(** * Further properties of the asset table *)
(* ================================================================== *)

Section AssetsMore.

Import AssetsInterface.

Variable basename : str -> str.
Variable isfile : str -> bool.

(** [addAsset] never touches the rows that are there: the table after the
    call is the table before it, followed by at most one new row, which is
    checked, has the path as its source, the given target (or the base name
    of the path) and the type text for what the path is.  With a non-empty
    path, the path is the source of some row afterwards. *)
Theorem addAsset_appends (t : table) (path : str) (tp : option str) :
  (addAsset basename isfile t path tp = t
   \/ addAsset basename isfile t path tp
      = t ++ [ {| cellWidget0 := Some true;
                  source := path;
                  target := match tp with
                            | Some given => given
                            | None => basename path
                            end;
                  type_text := if isfile path
                               then u "文件" else u "文件夹" |} ])
  /\ firstn (List.length t) (addAsset basename isfile t path tp) = t
  /\ (path <> [] ->
      In path (map source (addAsset basename isfile t path tp)))
  /\ (path = [] -> addAsset basename isfile t path tp = t).
Proof.
  unfold addAsset. destruct (truthy path) eqn:Ep; cbn [negb].
  - destruct (existsb (fun r => str_eqb (source r) path) t) eqn:Ex.
    + split; [now left|]. split; [apply firstn_all|]. split.
      * intros _. now apply existsb_source.
      * intros ->. discriminate.
    + split; [right; destruct tp; reflexivity|]. split.
      * rewrite firstn_app, firstn_all, Nat.sub_diag. cbn. apply app_nil_r.
      * split; [|intros ->; discriminate].
        intros _. rewrite map_app, in_app_iff. right. now left.
  - split; [now left|]. split; [apply firstn_all|]. split.
    + intros H. apply truthy_true in H. congruence.
    + reflexivity.
Qed.

End AssetsMore.

(* ================================================================== *)
(** * Further properties of loading a configuration *)
(* ================================================================== *)

Section ConfigMore.

Import AssetsInterface MainInterface.

Variable basename : str -> str.

(** A record without any of the keys [setConfig] reads puts every widget
    back to the value [setupUI] gave it: the defaults of [setConfig] are
    those of a fresh form. *)
Theorem setConfig_defaults (self : FormState) (items : list (str * pyval)) :
  Forall (fun key => lookup items key = None) section_names ->
  setConfig basename self (VDict items) = Some initial_form.
Proof.
  unfold section_names. intros H.
  repeat match goal with
         | H : Forall _ (_ :: _) |- _ =>
             let E := fresh "E" in
             apply Forall_cons_iff in H as [E H]
         end.
  unfold setConfig, get_str, get_bool, get.
  rewrite E, E0, E1, E2, E3, E4, E5, E6, E7, E8, E9.
  reflexivity.
Qed.

End ConfigMore.

Lemma setConfig_defaults_witness :
  MainInterface.setConfig (fun p => p)
    (MainInterface.set_ltoSwitch true MainInterface.initial_form)
    (VDict [(u "version", VStr (u "2"))])
  = Some MainInterface.initial_form.
Proof.
  apply setConfig_defaults. repeat constructor.
Defined.

(* ================================================================== *)
(** * Further properties of the command and its environment *)
(* ================================================================== *)

Section CommandMore.

Import AssetsInterface MainInterface.

Lemma asset_parts_selected (t : table) :
  Forall row_ok t ->
  flat_map
    (fun a =>
       if enabled a then
         if str_eqb (a_type a) (u "file") then
           [u "--include-data-files=" ++ a_source a ++ u "=" ++ a_target a]
         else if str_eqb (a_type a) (u "folder") then
           [u "--include-data-dir=" ++ a_source a ++ u "=" ++ a_target a]
         else []
       else [])
    (getAssets t)
  = map asset_part (getSelectedAssets t).
Proof.
  induction 1 as [|r t Hr _ IH]; [reflexivity|].
  unfold getAssets, getSelectedAssets in *. cbn [map flat_map].
  rewrite IH, map_app. f_equal.
  destruct r as [[checked|] src tg ty]; destruct Hr as (Hc & _ & Ht);
    cbn in *; [|congruence].
  destruct checked; [|reflexivity].
  destruct Ht as [-> | ->]; reflexivity.
Qed.

(** The asset table enters the command in one place only: whatever the
    rest of the form holds, the parts of the command are a fixed front,
    then one part per checked row of the table, in row order,
    [--include-data-files=source=target] for a file row and
    [--include-data-dir=source=target] for a folder row, then a fixed
    back.  Unchecked rows leave no trace. *)
Theorem command_assets_are_selected
  (basename : str -> str) (isfile : str -> bool) (self : FormState) :
  exists front back,
    cmd_parts (set_assetsTable [] self) = front ++ back
    /\ forall t,
         reachable basename isfile t ->
         cmd_parts (set_assetsTable t self)
         = front ++ map asset_part (getSelectedAssets t) ++ back.
Proof.
  eexists. eexists. split.
  - unfold cmd_parts.
    cbn [set_assetsTable pythonEdit fileEdit standaloneRadio outputDirEdit
         nameEdit iconEdit compilerCombo gccPathEdit autoDownloadSwitch
         consoleSwitch progressSwitch memorySwitch removeSwitch ccacheSwitch
         lowMemorySwitch ltoSwitch plugins customEdit followImportsSwitch
         includeEdit excludeEdit dataEdit assetsTable companyEdit
         productEdit versionEdit descEdit uacSwitch extraEdit].
    do 17 rewrite app_assoc.
    change (getAssets []) with (@nil asset). cbn [flat_map].
    rewrite app_nil_l. reflexivity.
  - intros t Hr. apply reachable_rows_ok in Hr.
    unfold cmd_parts.
    cbn [set_assetsTable pythonEdit fileEdit standaloneRadio outputDirEdit
         nameEdit iconEdit compilerCombo gccPathEdit autoDownloadSwitch
         consoleSwitch progressSwitch memorySwitch removeSwitch ccacheSwitch
         lowMemorySwitch ltoSwitch plugins customEdit followImportsSwitch
         includeEdit excludeEdit dataEdit assetsTable companyEdit
         productEdit versionEdit descEdit uacSwitch extraEdit].
    do 17 rewrite app_assoc.
    rewrite (asset_parts_selected Hr). reflexivity.
Qed.

End CommandMore.

Section EnvironmentMore.

Import AssetsInterface MainInterface.

Variable findCCache : option str.
Variable dirname : str -> str.

Lemma currentText_LocalGCC (c : compiler) :
  str_eqb (currentText c) (u "本地GCC") = true <-> c = LocalGCC.
Proof. destruct c; split; intros H; try reflexivity; discriminate. Qed.

(** The environment handed to the worker has at most two entries, under
    different names: [CC] with the GCC path, present exactly when the
    compiler selection is the local GCC and the path field is not empty,
    and [NUITKA_CCACHE_BINARY] with the ccache path, present exactly when
    the ccache switch is on and a ccache was found.  A GCC path typed under
    another compiler selection is not used. *)
Theorem getEnvironment_entries (self : FormState) (key value : str) :
  (In (key, value) (getEnvironment findCCache self) <->
   (key = u "CC" /\ compilerCombo self = LocalGCC
    /\ value = gccPathEdit self /\ value <> [])
   \/ (key = u "NUITKA_CCACHE_BINARY" /\ ccacheSwitch self = true
       /\ findCCache = Some value /\ value <> []))
  /\ NoDup (map fst (getEnvironment findCCache self))
  /\ List.length (getEnvironment findCCache self) <= 2.
Proof.
  unfold getEnvironment.
  destruct (str_eqb (currentText (compilerCombo self)) (u "本地GCC")) eqn:Ec.
  - apply currentText_LocalGCC in Ec.
    destruct (truthy (gccPathEdit self)) eqn:Eg;
      destruct (ccacheSwitch self); destruct findCCache as [c|];
      try destruct (truthy c) eqn:Et; cbn;
      (split; [|split; [repeat constructor; cbn; intuition discriminate
                       | lia]]);
      try apply truthy_true in Eg; try apply truthy_false in Eg;
      try apply truthy_true in Et; try apply truthy_false in Et;
      split; intros H;
      repeat match goal with
             | H : _ \/ _ |- _ => destruct H as [H|H]
             | H : _ /\ _ |- _ => destruct H as [? H]
             | H : (_, _) = (_, _) |- _ => injection H as <- <-
             | H : Some _ = Some _ |- _ => injection H as <-
             | H : False |- _ => destruct H
             end;
      subst; try congruence; try discriminate; auto 10.
  - assert (Hc : compilerCombo self <> LocalGCC).
    { intros H. apply currentText_LocalGCC in H. congruence. }
    cbn [andb app].
    destruct (ccacheSwitch self); destruct findCCache as [c|];
      try destruct (truthy c) eqn:Et; cbn;
      (split; [|split; [repeat constructor; cbn; intuition discriminate
                       | lia]]);
      try apply truthy_true in Et; try apply truthy_false in Et;
      split; intros H;
      repeat match goal with
             | H : _ \/ _ |- _ => destruct H as [H|H]
             | H : _ /\ _ |- _ => destruct H as [? H]
             | H : (_, _) = (_, _) |- _ => injection H as <- <-
             | H : Some _ = Some _ |- _ => injection H as <-
             | H : False |- _ => destruct H
             end;
      subst; try congruence; try discriminate; auto 10.
Qed.

(** The preview shows what will be run: with a Python file given,
    [previewCommand] opens one dialog whose text starts with exactly the
    command [startPackage] hands to the log page, followed by the working
    directory [startPackage] hands over and the environment it hands over;
    without a Python file both only show the error pop-up. *)
Theorem preview_shows_what_runs (self : FormState) :
  (fileEdit self <> [] ->
   exists command cwd,
     fst (buildCommand self) = Some command
     /\ startPackage findCCache dirname self
        = [ switchTo_logInterface;
            logInterface_startPackage command
              (getEnvironment findCCache self) (Some cwd) ]
     /\ previewCommand findCCache dirname self
        = ([], Some (u "命令预览",
                     command ++ [ch "010"] ++ u "工作目录：" ++ cwd
                     ++ [ch "010"]
                     ++ env_info (getEnvironment findCCache self))))
  /\ (fileEdit self = [] ->
      snd (previewCommand findCCache dirname self) = None
      /\ fst (previewCommand findCCache dirname self)
         = startPackage findCCache dirname self).
Proof.
  split.
  - intros Hf.
    exists (join (u " ") (cmd_parts self)), (dirname (fileEdit self)).
    unfold startPackage, previewCommand.
    rewrite (@buildCommand_some self Hf).
    apply truthy_true in Hf. rewrite Hf.
    assert (Hc : truthy (join (u " ") (cmd_parts self)) = true).
    { apply truthy_true. destruct (cmd_parts_shape self) as [m ->].
      unfold or_else. destruct (pythonEdit self) eqn:Ep.
      - discriminate.
      - cbn [truthy join]. destruct (m ++ [fileEdit self]); discriminate. }
    rewrite Hc. cbn [fst app]. rewrite <- !app_assoc. auto.
  - intros Hf. unfold startPackage, previewCommand, buildCommand.
    rewrite Hf. split; reflexivity.
Qed.

End EnvironmentMore.

Example previewCommand_ex :
  MainInterface.previewCommand (Some (u "/usr/bin/ccache"))
    (fun _ => u "/src")
    (MainInterface.set_ccacheSwitch true
       (MainInterface.set_fileEdit (u "/src/a.py")
          MainInterface.initial_form))
  = ([], Some (u "命令预览",
               u "python -m nuitka --standalone --assume-yes-for-downloads --show-progress --show-memory --remove-output --follow-imports /src/a.py"
               ++ [ch "010"] ++ u "工作目录：/src" ++ [ch "010"]
               ++ [ch "010"; ch "010"] ++ u "环境变量：" ++ [ch "010"]
               ++ u "NUITKA_CCACHE_BINARY=/usr/bin/ccache" ++ [ch "010"])).
Proof. reflexivity. Qed.

(* ================================================================== *)
(** * Further properties: looking for ccache *)
(* ================================================================== *)

Section ProbeMore.

Import MainInterface.

Variable environ_PATH : option str.
Variable path_exists : str -> bool.
Variable path_join : str -> str -> str.
Variable which : str -> option str.

Lemma find_first {A} (f : A -> bool) (l : list A) (x : A) :
  find f l = Some x ->
  exists l1 l2,
    l = l1 ++ x :: l2 /\ f x = true /\ Forall (fun y => f y = false) l1.
Proof.
  induction l as [|y l IH]; simpl; [discriminate|].
  destruct (f y) eqn:E.
  - intros H. injection H as <-. exists [], l. repeat split; auto.
  - intros H. destruct (IH H) as (l1 & l2 & -> & Hx & Hl).
    exists (y :: l1), l2. repeat split; auto.
Qed.

Lemma find_app {A} (f : A -> bool) (a b : list A) :
  find f (a ++ b)
  = match find f a with Some x => Some x | None => find f b end.
Proof.
  induction a as [|y a IH]; simpl; [reflexivity|].
  destruct (f y); [reflexivity | exact IH].
Qed.

(** On Windows [findCCache] returns the first existing candidate, the
    candidates being [ccache.exe] joined to each entry of [PATH], in the
    order of [PATH], and then the four predefined places: what it returns
    exists, every candidate before it does not, and it returns [None]
    exactly when no candidate exists.  Elsewhere it is [shutil.which]. *)
Theorem findCCache_first_existing :
  let candidates :=
    ccache_on_PATH environ_PATH path_join ++ ccache_paths in
  (forall found,
     findCCache true environ_PATH path_exists path_join which = Some found ->
     exists earlier later,
       candidates = earlier ++ found :: later
       /\ path_exists found = true
       /\ Forall (fun c => path_exists c = false) earlier)
  /\ (findCCache true environ_PATH path_exists path_join which = None <->
      Forall (fun c => path_exists c = false) candidates)
  /\ findCCache false environ_PATH path_exists path_join which
     = which (u "ccache").
Proof.
  cbv zeta.
  assert (E : findCCache true environ_PATH path_exists path_join which
              = find path_exists
                  (ccache_on_PATH environ_PATH path_join ++ ccache_paths)).
  { unfold findCCache. rewrite find_app.
    destruct (find path_exists (ccache_on_PATH _ _)); [reflexivity|].
    destruct (find path_exists ccache_paths); reflexivity. }
  rewrite E. split; [|split; [|reflexivity]].
  - intros found H. now apply find_first.
  - split.
    + intros H. apply Forall_forall. intros c Hc.
      now apply (find_none _ _ H).
    + intros H. rewrite Forall_forall in H.
      destruct (find path_exists _) as [x|] eqn:Ef; [|reflexivity].
      apply find_some in Ef as [Hin Hx]. rewrite (H _ Hin) in Hx.
      discriminate.
Qed.

End ProbeMore.

Example findCCache_ex :
  MainInterface.findCCache true (Some (u "C:\bin;D:\tools"))
    (fun p => str_eqb p (u "D:\tools\ccache.exe")
              || str_eqb p (u "C:\tools\ccache\ccache.exe"))
    (fun a b => a ++ u "\" ++ b) (fun _ => None)
  = Some (u "D:\tools\ccache.exe").
Proof. reflexivity. Qed.

(* ================================================================== *)
(** * Further properties: removing the selected rows *)
(* ================================================================== *)

Section RemoveMore.

Import AssetsInterface.

Lemma existsb_eqb_In (i : nat) (l : list nat) :
  existsb (Nat.eqb i) l = true <-> In i l.
Proof.
  rewrite existsb_exists. split.
  - intros (x & Hx & E). apply Nat.eqb_eq in E. now subst.
  - intros H. exists i. split; [exact H | apply Nat.eqb_refl].
Qed.

Lemma rows_except_ext (rows rows' : list nat) (i : nat) (t : table) :
  (forall x, In x rows <-> In x rows') ->
  rows_except rows i t = rows_except rows' i t.
Proof.
  intros H. revert i. induction t as [|r t IH]; intros i; [reflexivity|].
  cbn [rows_except]. rewrite IH.
  assert (E : existsb (Nat.eqb i) rows = existsb (Nat.eqb i) rows').
  { destruct (existsb (Nat.eqb i) rows) eqn:E1,
             (existsb (Nat.eqb i) rows') eqn:E2; try reflexivity.
    - apply existsb_eqb_In in E1. apply H, existsb_eqb_In in E1. congruence.
    - apply existsb_eqb_In in E2. apply H, existsb_eqb_In in E2. congruence. }
  now rewrite E.
Qed.

Lemma rows_except_below (rows : list nat) (i : nat) (t : table) :
  (forall x, In x rows -> x < i) -> rows_except rows i t = t.
Proof.
  revert i. induction t as [|r t IH]; intros i H; [reflexivity|].
  cbn [rows_except]. destruct (existsb (Nat.eqb i) rows) eqn:E.
  - apply existsb_eqb_In, H in E. lia.
  - rewrite IH; [reflexivity|]. intros x Hx. apply H in Hx. lia.
Qed.

Lemma removeRow_cons (d : nat) (r : row) (t : table) :
  removeRow (S d) (r :: t) = r :: removeRow d t.
Proof. reflexivity. Qed.

Lemma rows_except_removeRow (t : table) (i d : nat) (rows : list nat) :
  (forall x, In x rows -> x < i + d) ->
  rows_except rows i (removeRow d t) = rows_except ((i + d) :: rows) i t.
Proof.
  revert i d. induction t as [|r t IH]; intros i d H.
  - unfold removeRow. now rewrite firstn_nil, skipn_nil.
  - destruct d as [|d].
    + change (removeRow 0 (r :: t)) with t. rewrite Nat.add_0_r in *.
      cbn [rows_except existsb]. rewrite Nat.eqb_refl. cbn [orb].
      rewrite (@rows_except_below rows i t H).
      symmetry. apply rows_except_below.
      intros x [<-|Hx]; [lia|]. apply H in Hx. lia.
    + rewrite removeRow_cons. cbn [rows_except existsb].
      assert (E : (i =? i + S d) = false) by (apply Nat.eqb_neq; lia).
      rewrite E. cbn [orb].
      replace (i + S d) with (S i + d) by lia.
      rewrite (IH (S i) d) by (intros x Hx; apply H in Hx; lia).
      reflexivity.
Qed.

Lemma remove_descending (l : list nat) (t : table) :
  descending l ->
  fold_left (fun t row => removeRow row t) l t = rows_except l 0 t.
Proof.
  revert t. induction l as [|d l IH]; intros t H; cbn [fold_left].
  - symmetry. apply rows_except_below. intros x [].
  - destruct H as [Hd Hl]. rewrite (IH _ Hl).
    now rewrite (@rows_except_removeRow t 0 d l Hd).
Qed.

Lemma insert_desc_In (n x : nat) (l : list nat) :
  In x (insert_desc n l) <-> x = n \/ In x l.
Proof.
  induction l as [|m l IH]; simpl; [intuition|].
  destruct (m <? n); simpl; [intuition|]. rewrite IH. intuition.
Qed.

Lemma insert_desc_descending (n : nat) (l : list nat) :
  ~ In n l -> descending l -> descending (insert_desc n l).
Proof.
  induction l as [|m l IH]; intros Hn Hl; simpl.
  - split; [intros x []|exact I].
  - destruct Hl as [Hm Hl]. destruct (Nat.ltb_spec m n) as [Hlt|Hge].
    + split; [|now split]. intros x [<-|Hx]; [exact Hlt|].
      apply Hm in Hx. lia.
    + assert (m <> n) by (intros ->; apply Hn; now left).
      split.
      * intros x Hx. apply insert_desc_In in Hx as [->|Hx]; [lia|auto].
      * apply IH; [|exact Hl]. intros Hin. apply Hn. now right.
Qed.

Lemma sorted_reverse_In (x : nat) (l : list nat) :
  In x (sorted_reverse l) <-> In x l.
Proof.
  induction l as [|n l IH]; simpl; [reflexivity|].
  rewrite insert_desc_In, IH. intuition.
Qed.

Lemma sorted_reverse_descending (l : list nat) :
  NoDup l -> descending (sorted_reverse l).
Proof.
  induction 1 as [|n l Hn _ IH]; simpl; [exact I|].
  apply insert_desc_descending; [|exact IH].
  now rewrite sorted_reverse_In.
Qed.

Lemma collect_rows_spec (item_rows acc : list nat) :
  NoDup acc ->
  let result :=
    fold_left (fun selected_rows r =>
                 if existsb (Nat.eqb r) selected_rows then selected_rows
                 else selected_rows ++ [r]) item_rows acc in
  NoDup result /\ forall x, In x result <-> In x acc \/ In x item_rows.
Proof.
  cbv zeta. revert acc.
  induction item_rows as [|r rows IH]; intros acc Hacc; cbn [fold_left].
  - split; [exact Hacc|]. intros x. simpl. intuition.
  - destruct (existsb (Nat.eqb r) acc) eqn:E.
    + destruct (IH acc Hacc) as [Hnd Hin]. split; [exact Hnd|].
      intros x. rewrite Hin. apply existsb_eqb_In in E. simpl.
      intuition (subst; auto).
    + assert (Hr : ~ In r acc).
      { intros H. apply existsb_eqb_In in H. congruence. }
      assert (Hnd' : NoDup (acc ++ [r])).
      { apply NoDup_app; [exact Hacc | repeat constructor; intros [] |].
        intros a Ha [<-|[]]. contradiction. }
      destruct (IH _ Hnd') as [Hnd Hin]. split; [exact Hnd|].
      intros x. rewrite Hin, in_app_iff. simpl. intuition.
Qed.

(** [removeSelected] removes exactly the rows that hold a selected item:
    whatever the order of the selected items and however many items of a
    row are selected, what is left are the rows whose number is not the row
    of a selected item, in their order.  Removing from the back keeps the
    numbers of the rows still to be removed valid. *)
Theorem removeSelected_removes_selected (item_rows : list nat) (t : table) :
  removeSelected item_rows t = rows_except item_rows 0 t.
Proof.
  unfold removeSelected, collect_rows.
  destruct (collect_rows_spec item_rows (acc := []) (NoDup_nil nat))
    as [Hnd Hin].
  rewrite remove_descending by now apply sorted_reverse_descending.
  apply rows_except_ext. intros x. rewrite sorted_reverse_In, Hin.
  simpl. intuition.
Qed.

End RemoveMore.

Example removeSelected_ex :
  map AssetsInterface.source
    (AssetsInterface.removeSelected [1; 3; 1; 0; 3; 7]
       (map (fun s => AssetsInterface.mkRow (Some true) s s (u "文件"))
            [u "a"; u "b"; u "c"; u "d"; u "e"]))
  = [u "c"; u "e"].
Proof. reflexivity. Qed.

(* ================================================================== *)
(** * Further properties: adding files and folders *)
(* ================================================================== *)

Section AddMore.

Import AssetsInterface.

Variable basename : str -> str.
Variable isfile : str -> bool.
Variable path_join : str -> str -> str.

Lemma grows_refl (t : table) : grows basename isfile t t.
Proof.
  split; [exists []; now rewrite app_nil_r|]. split; auto.
Qed.

Lemma grows_trans (t1 t2 t3 : table) :
  grows basename isfile t1 t2 -> grows basename isfile t2 t3 ->
  grows basename isfile t1 t3.
Proof.
  intros ((a1 & ->) & Hn1 & Hr1) ((a2 & ->) & Hn2 & Hr2).
  split; [exists (a1 ++ a2); now rewrite app_assoc|]. split; auto.
Qed.

Lemma grows_addAsset (t : table) (path : str) (tp : option str) :
  grows basename isfile t (addAsset basename isfile t path tp).
Proof.
  split; [|split].
  - unfold addAsset. destruct (negb (truthy path));
      [exists []; now rewrite app_nil_r|].
    destruct (existsb _ t); [exists []; now rewrite app_nil_r | eauto].
  - apply addAsset_NoDup.
  - apply reach_addAsset.
Qed.

Lemma fs_node_induction (P : fs_node -> Prop) :
  P fs_file ->
  P (fs_dir None) ->
  (forall entries,
     Forall (fun e => P (snd e)) entries -> P (fs_dir (Some entries))) ->
  forall n, P n.
Proof.
  intros P_file P_unreadable P_dir.
  exact (fix ind (n : fs_node) : P n :=
           match n with
           | fs_file => P_file
           | fs_dir None => P_unreadable
           | fs_dir (Some entries) =>
               P_dir entries
                 ((fix all (l : list (str * fs_node))
                     : Forall (fun e => P (snd e)) l :=
                     match l with
                     | [] => Forall_nil _
                     | e :: rest => Forall_cons e (ind (snd e)) (all rest)
                     end) entries)
           end).
Qed.

Lemma grows_addAssetRecursive (node : fs_node) :
  forall path rel t,
    grows basename isfile t
      (addAssetRecursive basename isfile path_join node path rel t).
Proof.
  induction node as [| |entries IH] using fs_node_induction;
    intros path rel t; cbn [addAssetRecursive];
    destruct (negb (truthy path)); try apply grows_refl;
    try apply grows_addAsset.
  eapply (@grows_trans t
            (addAsset basename isfile t path
               (Some (if truthy rel then rel else basename path))));
    [apply grows_addAsset|].
  generalize (addAsset basename isfile t path
                (Some (if truthy rel then rel else basename path))).
  induction IH as [|[item child] rest Hchild _ IHrest]; intros t1.
  - apply grows_refl.
  - eapply grows_trans; [apply Hchild | apply IHrest].
Qed.

Lemma grows_fold {A} (f : table -> A -> table) (l : list A) (t : table) :
  (forall t x, grows basename isfile t (f t x)) ->
  grows basename isfile t (fold_left f l t).
Proof.
  intros H. revert t. induction l as [|x l IH]; intros t; simpl.
  - apply grows_refl.
  - eapply grows_trans; [apply H | apply IH].
Qed.

(** Every way of adding assets (the file dialog, the folder dialog, a
    drop of files and folders, and the recursive walk they use) only
    appends rows: the rows that were there stay in front unchanged, source
    paths that were pairwise distinct stay so, and the table stays one with
    well-formed rows. *)
Theorem adding_only_appends (t : table) :
  (forall node path rel,
     grows basename isfile t
       (addAssetRecursive basename isfile path_join node path rel t))
  /\ (forall files,
        grows basename isfile t (addFile basename isfile files t))
  /\ (forall folder node,
        grows basename isfile t
          (addFolder basename isfile path_join folder node t))
  /\ (forall files,
        grows basename isfile t
          (dropEvent basename isfile path_join files t)).
Proof.
  split; [|split; [|split]].
  - intros. apply grows_addAssetRecursive.
  - intros files. apply grows_fold. intros. apply grows_addAsset.
  - intros folder node. unfold addFolder.
    destruct (truthy folder);
      [apply grows_addAssetRecursive | apply grows_refl].
  - intros files. apply grows_fold.
    intros t0 [p [[|listing]|]]; cbn [snd fst].
    + apply grows_addAsset.
    + apply grows_addAssetRecursive.
    + apply grows_refl.
Qed.

End AddMore.

(* ================================================================== *)
(** * Further properties: the log page during a run *)
(* ================================================================== *)

Section LogMore.

Import PackageThread LogPage.

Variable py_int : str -> option Z.

Lemma inserted_texts_app (a b : list log_call) :
  inserted_texts (a ++ b) = inserted_texts a ++ inserted_texts b.
Proof. unfold inserted_texts. apply flat_map_app. Qed.

Lemma deliver_unfinished
  (now : str) (sigs : list signal) (page : LogPage.t) :
  forallb (fun s => negb (is_finished s)) sigs = true ->
  let page' := fold_left (deliver now) sigs page in
  stopButton_enabled page' = stopButton_enabled page
  /\ infoBars page' = infoBars page
  /\ LogPage.packageThread page' = LogPage.packageThread page
  /\ inserted_texts (logEdit_calls page')
     = inserted_texts (logEdit_calls page) ++ output_texts sigs.
Proof.
  cbv zeta. revert page.
  induction sigs as [|s sigs IH]; intros page H; cbn [fold_left].
  - cbn. now rewrite app_nil_r.
  - cbn [forallb] in H. apply andb_prop in H as [Hs H].
    destruct (IH (deliver now page s) H) as (E1 & E2 & E3 & E4).
    rewrite E1, E2, E3, E4.
    destruct s as [text|value|success message]; [| |discriminate]; cbn.
    + rewrite inserted_texts_app. cbn. rewrite <- app_assoc. auto.
    + auto.
Qed.

Lemma startPackage_inserts_nothing
  (now command : str) (env : list (str * str)) (cwd : option str)
  (page : LogPage.t) :
  inserted_texts (logEdit_calls (startPackage now command env cwd page))
  = [].
Proof.
  unfold startPackage. cbn [logEdit_calls].
  destruct env as [|kv env']; [reflexivity|].
  rewrite !inserted_texts_app. cbn [inserted_texts flat_map app].
  induction (kv :: env') as [|kv' l IH]; [reflexivity|exact IH].
Qed.

(** A run as the log page sees it.  [startPackage] enables the stop button
    and clears the log; after the signals of the worker have been
    delivered, whatever the child did, the stop button is disabled again,
    the texts inserted into the log are the output of the worker in order,
    then the end time and the result message, and exactly one pop-up was
    added: the success one, together with a last progress value of 100,
    exactly when the child exited with return code 0. *)
Theorem log_page_after_run
  (now0 now1 command : str) (env : list (str * str)) (cwd : option str)
  (page : LogPage.t) (c : child) :
  let started := startPackage now0 command env cwd page in
  let sigs := snd (run py_int (init command env cwd) c) in
  let final := fold_left (deliver now1) sigs started in
  stopButton_enabled started = true
  /\ inserted_texts (logEdit_calls started) = []
  /\ stopButton_enabled final = false
  /\ exists (success : bool) (message : str),
       inserted_texts (logEdit_calls final)
       = output_texts sigs
         ++ [ [ch "010"] ++ u "结束时间：" ++ now1 ++ [ch "010"];
              u "打包结果：" ++ message ++ [ch "010"] ]
       /\ infoBars final
          = infoBars page
            ++ [ if success then InfoBar_success (u "成功") message
                 else InfoBar_error (u "失败") message ]
       /\ (success = true <-> exists p lines, c = exits p lines 0)
       /\ (success = true ->
           exists earlier, progressBar_values final = earlier ++ [100%Z]).
Proof.
  cbv zeta.
  destruct (run_signals_shape py_int (init command env cwd) c)
    as (before & success & message & E & Hb & Hs & _).
  rewrite E, fold_left_app. cbn [fold_left deliver].
  set (started := startPackage now0 command env cwd page).
  pose proof (startPackage_inserts_nothing now0 command env cwd page)
    as Hins.
  fold started in Hins.
  destruct (deliver_unfinished now1 before started Hb)
    as (E1 & E2 & _ & E4).
  split; [reflexivity|]. split; [exact Hins|]. split.
  { unfold packageFinished. destruct success; reflexivity. }
  exists success, message. split; [|split; [|split]].
  - rewrite output_texts_app. cbn [output_texts flat_map app].
    rewrite app_nil_r. rewrite Hins in E4. cbn [app] in E4.
    unfold packageFinished. destruct success; cbn [logEdit_calls appendLog];
      rewrite !inserted_texts_app, E4; cbn; now rewrite <- app_assoc.
  - unfold packageFinished.
    destruct success; cbn [infoBars appendLog]; now rewrite E2.
  - exact Hs.
  - intros ->. unfold packageFinished. cbn [progressBar_values]. eauto.
Qed.

End LogMore.

Example log_page_ex :
  let final :=
    fold_left (LogPage.deliver (u "12:00:05"))
      (snd (PackageThread.run int_ascii
              (PackageThread.init (u "x") [] None)
              (PackageThread.exits 7 [u "50% done" ++ [ch "010"]] 0)))
      (LogPage.startPackage (u "12:00:00") (u "x") [] None LogPage.initial) in
  LogPage.progressBar_values final = [0; 50; 100]%Z
  /\ LogPage.stopButton_enabled final = false
  /\ LogPage.infoBars final
     = [LogPage.InfoBar_success (u "成功") (u "打包成功完成！")].
Proof. cbv zeta. repeat split; reflexivity. Qed.

(* ================================================================== *)
(** * Further properties: the parts of the command *)
(* ================================================================== *)

Section PartsMore.

Import AssetsInterface MainInterface.

Lemma lstrip_split (s : str) :
  exists spaces,
    s = spaces ++ lstrip s /\ forallb isspace spaces = true.
Proof.
  induction s as [|c s IH]; [now exists []|].
  cbn [lstrip]. destruct (isspace c) eqn:E.
  - destruct IH as (sp & Hs & Hsp). exists (c :: sp). split.
    + cbn. now rewrite <- Hs.
    + cbn. now rewrite E.
  - now exists [].
Qed.

Lemma lstrip_head (s : str) (c : char) :
  hd_error (lstrip s) = Some c -> isspace c = false.
Proof.
  induction s as [|x s IH]; cbn [lstrip]; [discriminate|].
  destruct (isspace x) eqn:E; [exact IH|].
  cbn. intros H. now injection H as <-.
Qed.

Lemma rstrip_split (s : str) :
  exists spaces,
    s = rstrip s ++ spaces /\ forallb isspace spaces = true.
Proof.
  unfold rstrip. destruct (lstrip_split (rev s)) as (sp & Hs & Hsp).
  exists (rev sp). split.
  - rewrite <- rev_app_distr, <- Hs. now rewrite rev_involutive.
  - rewrite forallb_forall in *. intros x Hx. apply Hsp.
    now apply in_rev.
Qed.

Lemma strip_ends (s : str) :
  (forall c, hd_error (strip s) = Some c -> isspace c = false)
  /\ (forall c, hd_error (rev (strip s)) = Some c -> isspace c = false)
  /\ (forall c, In c (strip s) -> In c s).
Proof.
  unfold strip. split; [|split].
  - intros c H. destruct (rstrip_split (lstrip s)) as (sp & Hs & _).
    apply (lstrip_head s). rewrite Hs.
    destruct (rstrip (lstrip s)); [discriminate | exact H].
  - intros c H. unfold rstrip in H. rewrite rev_involutive in H.
    now apply lstrip_head in H.
  - intros c H. destruct (rstrip_split (lstrip s)) as (sp & Hs & _).
    destruct (lstrip_split s) as (sp' & Hs' & _).
    rewrite Hs', Hs, !in_app_iff. auto.
Qed.

Lemma stripped_lines_facts (text : str) :
  Forall (fun l =>
            l <> []
            /\ (forall c, hd_error l = Some c -> isspace c = false)
            /\ (forall c, hd_error (rev l) = Some c -> isspace c = false)
            /\ ~ In (ch "010") l
            /\ exists line, In line (split (ch "010") text) /\ l = strip line)
         (stripped_lines text).
Proof.
  unfold stripped_lines. apply Forall_forall. intros l Hl.
  apply in_map_iff in Hl as (line & <- & Hline).
  apply filter_In in Hline as [Hline Ht].
  destruct (strip_ends line) as (H1 & H2 & H3).
  split; [now apply truthy_true|]. split; [exact H1|]. split; [exact H2|].
  split; [|now exists line].
  intros Hin. apply H3 in Hin. now apply split_no_sep in Hline.
Qed.

Lemma lstrip_nil (s : str) :
  lstrip s = [] <-> forallb isspace s = true.
Proof.
  induction s as [|c s IH]; cbn [lstrip forallb]; [tauto|].
  destruct (isspace c); cbn [andb]; [exact IH|].
  split; discriminate.
Qed.

Lemma forallb_rev (A : Type) (f : A -> bool) (l : list A) :
  forallb f (rev l) = forallb f l.
Proof.
  destruct (forallb f l) eqn:E.
  - rewrite forallb_forall in *. intros x Hx. apply E. now apply in_rev.
  - destruct (forallb f (rev l)) eqn:E'; [|reflexivity].
    rewrite <- E. symmetry. rewrite forallb_forall in *.
    intros x Hx. apply E'. now apply in_rev in Hx.
Qed.

Lemma strip_blank (s : str) :
  truthy (strip s) = negb (forallb isspace s).
Proof.
  assert (H : strip s = [] <-> forallb isspace s = true).
  { unfold strip, rstrip. split.
    - intros E. apply (f_equal (@rev char)) in E.
      rewrite rev_involutive in E. cbn [rev] in E.
      apply lstrip_nil in E. rewrite forallb_rev in E.
      destruct (lstrip_split s) as (sp & Hs & Hsp).
      rewrite Hs, forallb_app, Hsp. exact E.
    - intros E. apply lstrip_nil in E. rewrite E. reflexivity. }
  destruct (forallb isspace s) eqn:E; cbn [negb].
  - apply truthy_false. now apply H.
  - apply truthy_true. intros Hs. apply H in Hs. discriminate.
Qed.

(** The lines taken from a multi-line field (custom plugins, data files,
    extra arguments) are the lines of the text that are not blank, every
    one of them, once each and in the order of the text, without the white
    space around them.  So a taken line is never empty, neither starts nor
    ends with white space, and holds no line break.  In the command, the
    lines of the extra arguments are the parts just before the Python file,
    every line of the data field is the value of one part, and the lines of
    the custom plugins, joined by commas, are the value of one part. *)
Theorem stripped_lines_clean (self : FormState) :
  (forall text,
     stripped_lines text
     = map strip (filter (fun line => negb (forallb isspace line))
                         (split (ch "010") text)))
  /\ (forall text,
        Forall (fun l =>
                  l <> []
                  /\ (forall c, hd_error l = Some c -> isspace c = false)
                  /\ (forall c, hd_error (rev l) = Some c -> isspace c = false)
                  /\ ~ In (ch "010") l
                  /\ exists line,
                       In line (split (ch "010") text) /\ l = strip line)
               (stripped_lines text))
  /\ (exists front,
        cmd_parts self
        = front ++ stripped_lines (strip (extraEdit self))
                ++ [fileEdit self])
  /\ (forall data_line,
        In data_line (stripped_lines (strip (dataEdit self))) ->
        In ((if contains (u "=") data_line
             then u "--include-data-files=" else u "--include-data-dir=")
            ++ data_line)
           (cmd_parts self))
  /\ (stripped_lines (strip (customEdit self)) <> [] ->
      In (u "--enable-plugin="
          ++ join (u ",") (stripped_lines (strip (customEdit self))))
         (cmd_parts self)).
Proof.
  split; [|split; [|split; [|split]]].
  - intros text. unfold stripped_lines. f_equal. apply filter_ext.
    intros line. apply strip_blank.
  - apply stripped_lines_facts.
  - exists ([or_else (pythonEdit self) (u "python"); u "-m"; u "nuitka"]
            ++ flat_map (option_parts self) (removelast all_options)).
    rewrite cmd_parts_options.
    change all_options with (removelast all_options ++ [opt_extra]) at 1.
    rewrite flat_map_app. cbn [flat_map option_parts].
    now rewrite app_nil_r, <- !app_assoc.
  - intros l Hl. apply (@option_part_in_parts self opt_data).
    cbn [option_parts].
    exact (in_map (fun data_line =>
                     (if contains (u "=") data_line
                      then u "--include-data-files="
                      else u "--include-data-dir=") ++ data_line) _ _ Hl).
  - intros Hne. apply (@option_part_in_parts self opt_custom_plugins).
    cbn [option_parts].
    destruct (stripped_lines (strip (customEdit self)));
      [congruence | now left].
Qed.

Ltac nonempty_block :=
  match goal with
  | |- Forall _ (when ?b _) => destruct b; repeat constructor
  | |- Forall _ (if ?b then _ else _) => destruct b
  | |- Forall _ (match ?l with [] => _ | _ :: _ => _ end) => destruct l
  | |- Forall _ [] => constructor
  | |- Forall _ (_ :: _) => constructor
  | |- _ ++ _ <> [] => let H := fresh in
                       intros H; apply app_eq_nil in H as [H _];
                       discriminate H
  | |- _ <> [] => discriminate
  end.

(** With a Python file given no part of the command is empty: neither a
    cleared field nor a blank line ever leaves an empty part between two
    spaces. *)
Theorem cmd_parts_nonempty (self : FormState) :
  fileEdit self <> [] -> Forall (fun p => p <> []) (cmd_parts self).
Proof.
  intros Hf. unfold cmd_parts. cbv zeta.
  repeat (apply Forall_app; split); repeat nonempty_block.
  - unfold or_else. destruct (pythonEdit self) eqn:E; cbn; discriminate.
  - apply Forall_forall. intros p Hp.
    apply in_map_iff in Hp as (e & <- & _).
    intros H. apply app_eq_nil in H as [H _]. discriminate H.
  - apply Forall_forall. intros p Hp.
    apply in_map_iff in Hp as (l & <- & _).
    destruct (contains (u "=") l); intros H; apply app_eq_nil in H as [H _];
      discriminate H.
  - apply Forall_forall. intros p Hp.
    apply in_flat_map in Hp as (a & _ & Hp).
    destruct (enabled a); [|destruct Hp].
    destruct (str_eqb (a_type a) (u "file")).
    + destruct Hp as [<-|[]]. intros H. apply app_eq_nil in H as [H _].
      discriminate H.
    + destruct (str_eqb (a_type a) (u "folder")); [|destruct Hp].
      destruct Hp as [<-|[]]. intros H. apply app_eq_nil in H as [H _].
      discriminate H.
  - eapply Forall_impl; [|apply stripped_lines_facts]. now intros p (H & _).
  - exact Hf.
Qed.

End PartsMore.

Lemma cmd_parts_nonempty_witness :
  Forall (fun p => p <> [])
    (MainInterface.cmd_parts
       (MainInterface.set_extraEdit
          ([ch "010"] ++ u "  --jobs=4  " ++ [ch "010"; ch "010"])
          (MainInterface.set_fileEdit (u "a.py")
             MainInterface.initial_form))).
Proof.
  apply cmd_parts_nonempty. discriminate.
Defined.

Section PluginsMore.

Import AssetsInterface MainInterface.

Lemma split_single (c : char) (p : str) : ~ In c p -> split c p = [p].
Proof.
  induction p as [|x p IH]; intros H; [reflexivity|].
  cbn [split]. destruct (N.eqb_spec x c) as [->|Hx].
  - exfalso. apply H. now left.
  - rewrite IH; [reflexivity|]. intros Hin. apply H. now right.
Qed.

Lemma split_join_parts (c : char) (parts : list str) :
  parts <> [] -> (forall p, In p parts -> ~ In c p) ->
  split c (join [c] parts) = parts.
Proof.
  intros Hne H. rewrite split_join by exact Hne.
  clear Hne. induction parts as [|p parts IH]; [reflexivity|].
  cbn [flat_map]. rewrite split_single by (apply H; now left).
  rewrite IH; [reflexivity|]. intros q Hq. apply H. now right.
Qed.

Lemma plugin_name_no_comma (pl : pluginChecks) (name : str) :
  In name (map fst (filter snd (plugins_items pl))) -> ~ In (ch ",") name.
Proof.
  intros H. apply in_map_iff in H as ([n b] & <- & H).
  apply filter_In in H as [H _]. unfold plugins_items in H. cbn [In] in H.
  apply contains_char_false.
  repeat (destruct H as [E|H]; [injection E as <- _; reflexivity|]).
  destruct H.
Qed.

(** The check boxes of the plugin page give one part of the command: when
    at least one box is checked, [--enable-plugin=] followed by the names
    of exactly the checked boxes, in the order of the page, separated by
    commas; splitting that list at the commas gives the names back. *)
Theorem plugin_part_lists_checked (self : FormState) :
  let names := map fst (filter snd (plugins_items (plugins self))) in
  (forall name,
     In name names <-> In (name, true) (plugins_items (plugins self)))
  /\ (names <> [] ->
      In (u "--enable-plugin=" ++ join (u ",") names) (cmd_parts self)
      /\ split (ch ",") (join (u ",") names) = names).
Proof.
  cbv zeta. split.
  - intros name. rewrite in_map_iff. split.
    + intros ([n b] & <- & H). apply filter_In in H as [H Hb].
      cbn in Hb. now subst b.
    + intros H. exists (name, true). split; [reflexivity|].
      apply filter_In. now split.
  - intros Hne. split.
    + destruct (map fst (filter snd (plugins_items (plugins self))))
        as [|n names] eqn:E; [congruence|].
      unfold cmd_parts; cbv zeta.
      repeat (apply in_or_app;
              first [ left; solve [rewrite E; now left] | right ]).
    + apply (@split_join_parts (ch ",")); [exact Hne|].
      intros p Hp. now apply plugin_name_no_comma in Hp.
Qed.

End PluginsMore.

Example plugin_part_ex :
  fst (MainInterface.buildCommand
         (MainInterface.mkForm [] (u "a.py") true [] [] []
            MainInterface.AutoDetect [] true true true true true false false
            false
            (MainInterface.mkPlugins true false false true false false false
               false)
            [] true [] [] [] [] [] [] [] [] false []))
  = Some (u "python -m nuitka --standalone --assume-yes-for-downloads --show-progress --show-memory --remove-output --enable-plugin=pyqt5,numpy --follow-imports a.py").
Proof. reflexivity. Qed.
